(** * CARLA capture scripts: a shallow embedding and its properties

    The repository is four Python scripts that drive a CARLA simulator
    server: [record_images.py], [src/playback/replay_with_sensors.py],
    [src/recording/record_replay_logs.py] and [src/utils/ffmpeg_video.py].

    The scripts are sequences of calls into the simulator client library,
    the operating system and an external encoder.  Those collaborators are
    modelled here as an environment [Env] (what the server does at each
    step, what the filesystem answers) and the scripts as programs of a
    state-and-exception monad over the client-visible state [State].
    Every [while] loop of the source is a recursive function over a fuel
    argument that counts loop iterations; a loop that still wants to
    iterate when the fuel is spent yields [Running].

    Modelling conventions:
    - the camera callback runs while the script is inside [world.tick()]
      or [time.sleep()], never between two statements of the script;
    - floats (durations, clock readings, the fixed step) are rationals;
    - console output and telemetry lines are structured messages, so
      that no float formatting is involved; file names are real strings;
    - a settings object is a cell of a store addressed by reference:
      two names for one object see each other's assignments;
    - of the client library's failures, those of [world.tick()] and
      [client.replay_file()] are modelled; the other calls succeed;
    - Ctrl+C is modelled where the source handles it: it can arrive
      during the sleeps of [replay_log], as [KeyboardInterrupt].

    [record_log] and [get_log_info] of [record_replay_logs.py] never
    tick; they are modelled apart, in [log_recorder], over the
    filesystem and the recorder of the server, where every call that
    can raise is allowed to. *)

From Stdlib Require Import ZArith QArith Lia List Ascii String.
From Stdlib Require Import DecimalString DecimalNat.
From stdpp Require Import base list strings gmap.

Close Scope Q_scope.
Open Scope Z_scope.
Open Scope nat_scope.

(** ** Python values *)

Module Py.

(** A Python number as the scripts use them: [int] (frame counts) or
    [float] (durations in seconds, read as rationals). *)
Inductive Num :=
| Int (z : Z)
| Float (q : Q).

Definition to_Q (n : Num) : Q :=
  match n with
  | Int z => inject_Z z
  | Float q => q
  end.

Definition Qltb (a b : Q) : bool := negb (Qle_bool b a).

(** [a < b] on Python numbers. *)
Definition ltb (a b : Num) : bool :=
  match a, b with
  | Int x, Int y => (x <? y)%Z
  | _, _ => Qltb (to_Q a) (to_Q b)
  end.

(** [a * b]: an [int] only when both operands are. *)
Definition mul (a b : Num) : Num :=
  match a, b with
  | Int x, Int y => Int (x * y)
  | _, _ => Float (Qmult (to_Q a) (to_Q b))
  end.

(** [int(x)]: truncation towards zero. *)
Definition int (n : Num) : Z :=
  match n with
  | Int z => z
  | Float q => Z.quot (Qnum q) (Zpos (Qden q))
  end.

(** [str(n)] for a natural number: its decimal digits. *)
Definition str (n : nat) : string :=
  NilEmpty.string_of_uint (Nat.to_uint n).

Fixpoint zeros (k : nat) : string :=
  match k with
  | O => ""
  | S k' => String "0"%char (zeros k')
  end.

(** [f"{n:06d}"] for a natural number: decimal digits, padded with
    zeros on the left up to width six, never truncated. *)
Definition format_06d (n : nat) : string :=
  let digits := str n in
  zeros (6 - String.length digits) +:+ digits.

(** The last character of a string, if any. *)
Fixpoint last_char (s : string) : option ascii :=
  match s with
  | EmptyString => None
  | String c EmptyString => Some c
  | String _ s' => last_char s'
  end.

(** [s.startswith('/')] and [s.endswith('/')] *)
Definition starts_with_sep (s : string) : bool :=
  match s with
  | String c _ => Ascii.eqb c "/"
  | EmptyString => false
  end.

Definition ends_with_sep (s : string) : bool :=
  match last_char s with
  | Some c => Ascii.eqb c "/"
  | None => false
  end.

(** [os.path.join(a, b)] on POSIX for two components:
<<
    if b.startswith(sep): path = b
    elif not path or path.endswith(sep): path += b
    else: path += sep + b
>> *)
Definition path_join (a b : string) : string :=
  if starts_with_sep b then b
  else if String.eqb a "" || ends_with_sep a then a +:+ b
  else a +:+ "/" +:+ b.

(** Truthiness of an optional string argument: [None] and [""] are
    falsy. *)
Definition truthy (o : option string) : bool :=
  match o with
  | None => false
  | Some EmptyString => false
  | Some _ => true
  end.

End Py.

(** ** The simulator, as the scripts see it *)

Module Sim.

(** [carla.WorldSettings], restricted to the two fields the scripts
    touch.  [fixed_delta_seconds = None] is the variable time step. *)
Record Settings := mkSettings {
  synchronous_mode : bool;
  fixed_delta_seconds : option Q;
}.

(** A fresh episode: asynchronous, variable time step. *)
Definition default_settings : Settings :=
  {| synchronous_mode := false; fixed_delta_seconds := None |}.

Definition Image := nat.
Definition ActorId := Z.

(** The camera actor returned by [world.spawn_actor]. *)
Inductive CameraHandle := TheCamera.

(** A vehicle handle as returned by [world.get_actors().filter(...)].
    A field that is [None] is a call that raises (the actor was
    destroyed on the server in the meantime). *)
Record Vehicle := mkVehicle {
  id : ActorId;
  get_transform : option (Q * Q);   (* location.x, location.y *)
  get_velocity : option (Q * Q);    (* x, y *)
}.

(** What the outside world does.  Steps are the points where the
    script hands control to the server or to the clock: one per
    [world.tick()] and one per [time.sleep(...)]. *)
Record Env := mkEnv {
  tick_fails : nat -> bool;         (* the tick taken as step k raises *)
  replay_fails : string -> bool;    (* client.replay_file raises on this path *)
  images : nat -> list Image;       (* buffers the camera delivers during step k *)
  vehicles : nat -> list Vehicle;   (* the vehicle actors once c steps were taken *)
  now : nat -> Q;                   (* time.time() once c steps were taken *)
  path_exists : string -> bool;     (* os.path.exists *)
  abspath : string -> string;       (* os.path.abspath *)
}.

(** The callbacks handed to [camera.listen]. *)
Inductive Callback :=
| OnImage                           (* on_image: keep the buffer in the holder *)
| SaveImage (output_dir : string)   (* save_image of the replay driver *)
| RecorderSaveImage (sync : bool) (save_dir : string).  (* save_image of record_images *)

Inductive Msg :=
| UsingSynchronous (frames : Z)
| UsingAsynchronous (seconds : Py.Num)
| RecordingFrames (target : Z)
| RecordingSeconds (seconds : Py.Num)
| RecordingTo (seconds : Py.Num) (dir : string)
| RecordingProgress (frames : nat)
| RecordingCompleted (frames : nat)
| CapturedSoFar (frames : nat)
| CapturedOf (frames : nat) (target : Py.Num)
| CapturedTotal (frames : nat)
| LogFileNotFound (path : string)
| StartingReplay (path : string)
| WaitingForReplay
| CapturingFrames (target : Py.Num) (dir : string)
| WaitingForVehicles
| StillWaiting (attempts : nat)
| NoVehiclesFound
| FoundVehicles (n : nat)
| ExtractingFrames (target : Py.Num)
| ExtractingSeconds (target : Py.Num)
| ProcessedOf (frames : nat) (target : Py.Num)
| ProcessedTotal (frames : nat)
| DataSavedTo (path : string)
| FollowingFrames (vehicle : ActorId) (target : Py.Num) (dir : string)
| FollowingSeconds (vehicle : ActorId) (target : Py.Num) (dir : string)
| CheckingLogFile (path : string)
| LogFileMissing (path : string)
| LogFileSize (path : string)
| Replaying (path : string)
| ReplayStarted
| ReplayWillRun (seconds : Py.Num)
| ReplayRunning
| ReplayStoppedByUser
| ReplayCompleted
| ErrorStartingReplay
| ServerCannotAccessFile.

(** A line of [vehicle_data.txt]. *)
Inductive Line :=
| FrameHeader (n : nat)                       (* "--- Frame {n} ---" *)
| VehicleLine (v : ActorId) (pos vel : Q * Q). (* "Vehicle {id}: pos=(..) vel=(..)" *)

(** What an observer of the run sees, in order. *)
Inductive Event :=
| Print (m : Msg)
| LoadWorld (town : string)
| ApplySettings (s : Settings)
| ReplayFile (path : string) (start duration : Py.Num) (follow : Z)
| Tick
| Sleep (seconds : Q)
| SpawnVehicle
| SetAutopilot
| SpawnCamera (sensor_tick : Q) (attach_to : option ActorId)
| Listen (cb : Callback)
| SaveToDisk (filename : string) (img : Image)
| MakeDirs (dir : string)
| OpenForWrite (path : string)
| FileWrite (l : Line)
| CameraStop
| Destroy (what : string).

(** The client-side state together with the part of the server state
    the scripts can observe. *)
Record State := mkState {
  session : Settings;               (* the session-wide settings on the server *)
  objects : list Settings;          (* settings objects held by the script, by reference *)
  clock : nat;                      (* steps taken so far *)
  listener : option Callback;       (* the callback registered with the camera *)
  frame_count : nat;
  captured_image : option Image;    (* the single-slot holder *)
  camera : option CameraHandle;
  start_time : option Q;
  trace : list Event;
}.

Definition initial (s : Settings) : State :=
  {| session := s; objects := []; clock := 0; listener := None;
     frame_count := 0; captured_image := None; camera := None;
     start_time := None; trace := [] |}.

Definition set_session (x : Settings) (s : State) : State :=
  mkState x (objects s) (clock s) (listener s) (frame_count s)
          (captured_image s) (camera s) (start_time s) (trace s).
Definition set_objects (x : list Settings) (s : State) : State :=
  mkState (session s) x (clock s) (listener s) (frame_count s)
          (captured_image s) (camera s) (start_time s) (trace s).
Definition set_clock (x : nat) (s : State) : State :=
  mkState (session s) (objects s) x (listener s) (frame_count s)
          (captured_image s) (camera s) (start_time s) (trace s).
Definition set_listener (x : option Callback) (s : State) : State :=
  mkState (session s) (objects s) (clock s) x (frame_count s)
          (captured_image s) (camera s) (start_time s) (trace s).
Definition set_frame_count (x : nat) (s : State) : State :=
  mkState (session s) (objects s) (clock s) (listener s) x
          (captured_image s) (camera s) (start_time s) (trace s).
Definition set_captured_image (x : option Image) (s : State) : State :=
  mkState (session s) (objects s) (clock s) (listener s) (frame_count s)
          x (camera s) (start_time s) (trace s).
Definition set_camera (x : option CameraHandle) (s : State) : State :=
  mkState (session s) (objects s) (clock s) (listener s) (frame_count s)
          (captured_image s) x (start_time s) (trace s).
Definition set_start_time (x : option Q) (s : State) : State :=
  mkState (session s) (objects s) (clock s) (listener s) (frame_count s)
          (captured_image s) (camera s) x (trace s).
Definition emit (e : Event) (s : State) : State :=
  mkState (session s) (objects s) (clock s) (listener s) (frame_count s)
          (captured_image s) (camera s) (start_time s) (trace s ++ [e]).

(** *** The monad *)

Inductive Exn :=
| RuntimeError      (* raised by the client library *)
| IndexError        (* indexing an empty sequence *)
| KeyboardInterrupt.  (* Ctrl+C; not an [Exception] *)

Inductive Outcome (A : Type) :=
| Returned (a : A)
| Raised (e : Exn)
| Running.          (* a loop wanted another iteration when the fuel ran out *)
Arguments Returned {A} a.
Arguments Raised {A} e.
Arguments Running {A}.

Definition M (A : Type) : Type := State -> Outcome A * State.

Definition ret {A} (a : A) : M A := fun s => (Returned a, s).
Definition raise {A} (e : Exn) : M A := fun s => (Raised e, s).
Definition bind {A B} (m : M A) (k : A -> M B) : M B :=
  fun s =>
    match m s with
    | (Returned a, s') => k a s'
    | (Raised e, s') => (Raised e, s')
    | (Running, s') => (Running, s')
    end.

(** [try: m finally: h].  The handler runs after a return and after
    an exception; an exception of the handler replaces the outcome. *)
Definition finally {A} (m : M A) (h : M unit) : M A :=
  fun s =>
    match m s with
    | (Running, s') => (Running, s')
    | (r, s') =>
        match h s' with
        | (Returned _, s'') => (r, s'')
        | (Raised e, s'') => (Raised e, s'')
        | (Running, s'') => (Running, s'')
        end
    end.

Definition get {A} (f : State -> A) : M A := fun s => (Returned (f s), s).
Definition modify (f : State -> State) : M unit := fun s => (Returned tt, f s).
Definition when (b : bool) (m : M unit) : M unit := if b then m else ret tt.

(** Whether the exception derives from [Exception]. *)
Definition is_Exception (e : Exn) : bool :=
  match e with
  | KeyboardInterrupt => false
  | _ => true
  end.

(** [try: m except Exception: h].  [KeyboardInterrupt] goes through. *)
Definition catch (m : M unit) (h : M unit) : M unit :=
  fun s =>
    match m s with
    | (Raised e, s') => if is_Exception e then h s' else (Raised e, s')
    | r => r
    end.

(** [try: m except KeyboardInterrupt: h]. *)
Definition catch_interrupt (m : M unit) (h : M unit) : M unit :=
  fun s =>
    match m s with
    | (Raised KeyboardInterrupt, s') => h s'
    | r => r
    end.

End Sim.

Declare Scope sim_scope.
Delimit Scope sim_scope with sim.
Notation "x <- m ;; k" := (Sim.bind m (fun x => k))
  (at level 100, m at next level, right associativity) : sim_scope.
Notation "m ;; k" := (Sim.bind m (fun _ => k))
  (at level 100, right associativity) : sim_scope.

Module Ops.
Import Sim.
Local Open Scope sim_scope.

(** The frame file of sequence number [n] in directory [dir]:
    [os.path.join(dir, f"frame_{n:06d}.jpg")]. *)
Definition frame_filename (dir : string) (n : nat) : string :=
  Py.path_join dir ("frame_" +:+ Py.format_06d n +:+ ".jpg").

Definition print (m : Msg) : M unit := modify (emit (Print m)).
Definition event (e : Event) : M unit := modify (emit e).

(** [for _ in range(n): m] *)
Fixpoint for_range (n : nat) (m : M unit) : M unit :=
  match n with
  | O => ret tt
  | S n' => m ;; for_range n' m
  end.

(** [for x in l: f(x)] *)
Fixpoint for_each {A} (l : list A) (f : A -> M unit) : M unit :=
  match l with
  | [] => ret tt
  | x :: l' => f x ;; for_each l' f
  end.

(** *** Settings objects

    [world.get_settings()] hands out a new object initialised from the
    session; assignments to its attributes change that object only;
    [world.apply_settings(o)] copies the object into the session. *)
Definition get_settings : M nat :=
  fun s => (Returned (length (objects s)),
            set_objects (objects s ++ [session s]) s).

Definition assign_synchronous_mode (o : nat) (b : bool) : M unit :=
  modify (fun s =>
    set_objects
      (alter (fun x => mkSettings b (fixed_delta_seconds x)) o (objects s)) s).

Definition assign_fixed_delta_seconds (o : nat) (d : option Q) : M unit :=
  modify (fun s =>
    set_objects
      (alter (fun x => mkSettings (synchronous_mode x) d) o (objects s)) s).

Definition apply_settings (o : nat) : M unit :=
  fun s =>
    match objects s !! o with
    | Some x => (Returned tt, emit (ApplySettings x) (set_session x s))
    | None => (Raised RuntimeError, s)
    end.

(** [client.load_world(town)]: a new episode with default settings. *)
Definition load_world (town : string) : M unit :=
  modify (fun s => emit (LoadWorld town) (set_session default_settings s)).

(** *** The camera callbacks of the scripts *)

(** [on_image] (replay_with_sensors.py, lines 90-92 and 251-253). *)
Definition on_image (image : Image) (s : State) : State :=
  set_captured_image (Some image) s.

(** [save_image] of the replay driver (lines 107-115 and 268-276). *)
Definition save_image (output_dir : string) (image : Image) (s : State) : State :=
  let s1 := emit (SaveToDisk (frame_filename output_dir (frame_count s)) image) s in
  let s2 := set_frame_count (frame_count s1 + 1) s1 in
  if frame_count s2 mod 20 =? 0
  then emit (Print (RecordingProgress (frame_count s2))) s2
  else s2.

(** [save_image] of record_images.py (lines 61-71). *)
Definition recorder_save_image (sync : bool) (save_dir : string)
    (image : Image) (s : State) : State :=
  if sync then set_captured_image (Some image) s
  else
    let s1 := emit (SaveToDisk (frame_filename save_dir (frame_count s)) image) s in
    let s2 := set_frame_count (frame_count s1 + 1) s1 in
    if frame_count s2 mod 20 =? 0
    then emit (Print (CapturedSoFar (frame_count s2))) s2
    else s2.

Definition run_callback (cb : Callback) : Image -> State -> State :=
  match cb with
  | OnImage => on_image
  | SaveImage output_dir => save_image output_dir
  | RecorderSaveImage sync save_dir => recorder_save_image sync save_dir
  end.

(** The buffers of one step reach the registered callback one by one. *)
Definition deliver (imgs : list Image) (s : State) : State :=
  match listener s with
  | None => s
  | Some cb => fold_left (fun st img => run_callback cb img st) imgs s
  end.

Section WithEnv.
Variable env : Env.

(** [world.tick()]: blocks until the server has completed one step;
    the camera's buffers for that step reach the callback meanwhile. *)
Definition world_tick : M unit :=
  fun s =>
    let k := clock s in
    let s1 := emit Tick (set_clock (S k) s) in
    if tick_fails env k then (Raised RuntimeError, s1)
    else (Returned tt, deliver (images env k) s1).

(** [time.sleep(d)] *)
Definition sleep (d : Q) : M unit :=
  fun s =>
    let k := clock s in
    (Returned tt, deliver (images env k) (emit (Sleep d) (set_clock (S k) s))).

(** [time.time()] *)
Definition time_time : M Q := get (fun s => now env (clock s)).

(** [world.get_actors().filter('vehicle.*')] *)
Definition get_vehicles : M (list Vehicle) :=
  get (fun s => vehicles env (clock s)).

(** [client.replay_file(path, start, duration, follow_id)] *)
Definition replay_file (path : string) (start duration : Py.Num) (follow : Z)
    : M unit :=
  fun s =>
    let s1 := emit (ReplayFile path start duration follow) s in
    if replay_fails env path then (Raised RuntimeError, s1)
    else (Returned tt, s1).

(** The lock-step capture loop (record_images.py lines 81-89,
    replay_with_sensors.py lines 97-105 and 258-266):
<<
    while frame_count < target:
        world.tick()
        if captured_image is not None:
            filename = os.path.join(dir, f"frame_{frame_count:06d}.jpg")
            captured_image.save_to_disk(filename, ...)
            frame_count += 1
            captured_image = None
            if frame_count % 20 == 0: print(...)
>> *)
Definition drain_holder (dir : string) (target : Py.Num) : M unit :=
  fun s =>
    match captured_image s with
    | Some img =>
        let s1 := emit (SaveToDisk (frame_filename dir (frame_count s)) img) s in
        let s2 := set_frame_count (frame_count s1 + 1) s1 in
        let s3 := set_captured_image None s2 in
        when (frame_count s3 mod 20 =? 0)
             (print (CapturedOf (frame_count s3) target)) s3
    | None => (Returned tt, s)
    end.

Fixpoint sync_capture_loop (fuel : nat) (dir : string) (target : Py.Num)
    : M unit :=
  fun s =>
    if Py.ltb (Py.Int (Z.of_nat (frame_count s))) target then
      match fuel with
      | O => (Running, s)
      | S fuel' =>
          (world_tick ;;
           drain_holder dir target ;;
           sync_capture_loop fuel' dir target) s
      end
    else (Returned tt, s).

(** [while time.time() - start_time < target: time.sleep(0.1)] *)
Fixpoint async_wait_loop (fuel : nat) (start : Q) (target : Py.Num) : M unit :=
  fun s =>
    if Py.ltb (Py.Float (Qminus (now env (clock s)) start)) target then
      match fuel with
      | O => (Running, s)
      | S fuel' => (sleep (1 # 10) ;; async_wait_loop fuel' start target) s
      end
    else (Returned tt, s).

End WithEnv.
End Ops.

(** ** record_images.py *)

Module record_images.
Import Sim Ops.
Local Open Scope sim_scope.

Definition SAVE_DIR : string := "output_images".
Definition RECORD_TIME : Z := 5.
Definition FPS : Z := 20.
Definition SYNCHRONOUS_MODE : bool := true.

Section WithEnv.
Variable env : Env.

(** The wall-clock loop of lines 95-100. *)
Fixpoint async_record_loop (fuel : nat) (start : Q) : M unit :=
  fun s =>
    if Py.ltb (Py.Float (Qminus (now env (clock s)) start)) (Py.Int RECORD_TIME) then
      match fuel with
      | O => (Running, s)
      | S fuel' =>
          (sleep env (1 # 10) ;;
           fc <- get frame_count ;;
           when ((0 <? fc) && (fc mod 20 =? 0)) (print (RecordingProgress fc)) ;;
           async_record_loop fuel' start) s
      end
    else (Returned tt, s).

(** [main()].  [fuel] bounds the iterations of the recording loop. *)
Definition main (fuel : nat) : M unit :=
  load_world "Town03" ;;
  (* Store original settings *)
  original_settings <- get_settings ;;
  (if SYNCHRONOUS_MODE then
     settings <- get_settings ;;
     assign_synchronous_mode settings true ;;
     assign_fixed_delta_seconds settings (Some (Qmake 1 (Z.to_pos FPS))) ;;
     apply_settings settings ;;
     print (UsingSynchronous (RECORD_TIME * FPS))
   else
     settings <- get_settings ;;
     assign_synchronous_mode settings false ;;
     apply_settings settings ;;
     print (UsingAsynchronous (Py.Int RECORD_TIME))) ;;
  (* Spawn vehicle and camera *)
  event SpawnVehicle ;;
  event (SpawnCamera (if SYNCHRONOUS_MODE then 0 else Qmake 1 (Z.to_pos FPS))
                     None) ;;
  (* Setup recording *)
  event (MakeDirs SAVE_DIR) ;;
  modify (set_frame_count 0) ;;
  modify (set_captured_image None) ;;
  event (Listen (RecorderSaveImage SYNCHRONOUS_MODE SAVE_DIR)) ;;
  modify (set_listener (Some (RecorderSaveImage SYNCHRONOUS_MODE SAVE_DIR))) ;;
  event SetAutopilot ;;
  (if SYNCHRONOUS_MODE then
     let target_frames := (RECORD_TIME * FPS)%Z in
     print (RecordingFrames target_frames) ;;
     sync_capture_loop env fuel SAVE_DIR (Py.Int target_frames)
   else
     print (RecordingSeconds (Py.Int RECORD_TIME)) ;;
     start_time <- time_time env ;;
     async_record_loop fuel start_time) ;;
  fc <- get frame_count ;;
  print (RecordingCompleted fc) ;;
  (* Cleanup *)
  event CameraStop ;;
  event (Destroy "camera") ;;
  event (Destroy "vehicle") ;;
  (* Restore original settings *)
  apply_settings original_settings.

End WithEnv.
End record_images.

(** ** src/playback/replay_with_sensors.py *)

Module replay_with_sensors.
Import Sim Ops.
Local Open Scope sim_scope.

Definition FPS : Z := 20.
Definition max_wait_attempts : nat := 50.

Definition is_empty {A} (l : list A) : bool :=
  match l with
  | [] => true
  | _ :: _ => false
  end.

Section WithEnv.
Variable env : Env.

(** [run_replay(client, log_file, capture_func, duration, sync_mode)].
    [capture_func] receives [(target, sync_mode)]; the world it is
    passed in the source is the state of the monad. *)
Definition run_replay (log_file : string)
    (capture_func : Py.Num -> bool -> M unit)
    (duration : Py.Num) (sync_mode : bool) : M unit :=
  let log_file := abspath env log_file in
  if negb (path_exists env log_file) then
    print (LogFileNotFound log_file)
  else
    print (StartingReplay log_file) ;;
    (* Setup world and mode settings *)
    settings <- get_settings ;;
    let original_settings := settings in   (* a second name for the same object *)
    (if sync_mode then
       assign_synchronous_mode settings true ;;
       assign_fixed_delta_seconds settings (Some (Qmake 1 (Z.to_pos FPS))) ;;
       apply_settings settings ;;
       print (UsingSynchronous (Py.int (Py.mul duration (Py.Int FPS))))
     else
       assign_synchronous_mode settings false ;;
       apply_settings settings ;;
       print (UsingAsynchronous duration)) ;;
    (* Start replay *)
    replay_file env log_file (Py.Int 0) (Py.Int 0) 0 ;;
    print WaitingForReplay ;;
    (if sync_mode then for_range 10 (world_tick env)
     else sleep env 1) ;;
    finally
      (if sync_mode then
         let target_frames := Py.Int (Py.int (Py.mul duration (Py.Int FPS))) in
         capture_func target_frames sync_mode
       else
         capture_func duration sync_mode)
      (* Restore original settings *)
      (apply_settings original_settings).

(** [create_camera(world, transform, sync_mode, attach_to)] *)
Definition create_camera (sync_mode : bool) (attach_to : option ActorId)
    : M CameraHandle :=
  event (SpawnCamera (if sync_mode then 0 else Qmake 1 (Z.to_pos FPS)) attach_to) ;;
  ret TheCamera.

Definition listen (cb : Callback) : M unit :=
  event (Listen cb) ;;
  modify (set_listener (Some cb)).

(** [if camera: camera.destroy()] *)
Definition destroy_camera : M unit :=
  cam <- get camera ;;
  match cam with
  | Some _ => event (Destroy "camera")
  | None => ret tt
  end.

(** [capture_frames], the closure of [camera_mode]. *)
Definition capture_frames (fuel : nat) (output_dir : string)
    (target : Py.Num) (sync_mode : bool) : M unit :=
  cam <- create_camera sync_mode None ;;
  modify (set_camera (Some cam)) ;;
  t0 <- time_time env ;;
  modify (set_start_time (Some t0)) ;;
  if sync_mode then
    listen OnImage ;;
    print (CapturingFrames target output_dir) ;;
    sync_capture_loop env fuel output_dir target
  else
    listen (SaveImage output_dir) ;;
    print (RecordingTo target output_dir) ;;
    async_wait_loop env fuel t0 target.

(** [camera_mode(client, log_file, output_dir, duration, sync_mode)] *)
Definition camera_mode (fuel : nat) (log_file output_dir : string)
    (duration : Py.Num) (sync_mode : bool) : M unit :=
  let output_dir := abspath env output_dir in
  event (MakeDirs output_dir) ;;
  modify (set_frame_count 0) ;;
  modify (set_camera None) ;;
  modify (set_captured_image None) ;;
  modify (set_start_time None) ;;
  finally
    (run_replay log_file (capture_frames fuel output_dir) duration sync_mode)
    destroy_camera ;;
  fc <- get frame_count ;;
  print (CapturedTotal fc).

(** The bootstrap wait of [extract_data] (lines 150-158) and of
    [follow_vehicle] (lines 232-240):
<<
    while not vehicles and wait_attempts < max_wait_attempts:
        if sync_mode: world.tick()
        else: time.sleep(0.1)
        vehicles = world.get_actors().filter('vehicle.*')
        wait_attempts += 1
        if wait_attempts % 10 == 0: print(...)
>>
    It returns the final values of [vehicles] and [wait_attempts]. *)
Fixpoint wait_for_vehicles (fuel : nat) (sync_mode : bool)
    (vehicles : list Vehicle) (wait_attempts : nat)
    : M (list Vehicle * nat) :=
  if is_empty vehicles && (wait_attempts <? max_wait_attempts) then
    match fuel with
    | O => fun s => (Running, s)
    | S fuel' =>
        (if sync_mode then world_tick env else sleep env (1 # 10)) ;;
        vehicles <- get_vehicles env ;;
        let wait_attempts := wait_attempts + 1 in
        when (wait_attempts mod 10 =? 0) (print (StillWaiting wait_attempts)) ;;
        wait_for_vehicles fuel' sync_mode vehicles wait_attempts
    end
  else ret (vehicles, wait_attempts).

(** The body of [for vehicle in vehicles:] with its [try ... except:
    pass]: a read that raises leaves no line. *)
Definition report_vehicle (vehicle : Vehicle) : M unit :=
  match get_transform vehicle with
  | None => ret tt
  | Some t =>
      match get_velocity vehicle with
      | None => ret tt
      | Some v => event (FileWrite (VehicleLine (id vehicle) t v))
      end
  end.

(** One block of the telemetry file: header, then the vehicles. *)
Definition write_frame_block (vehicles : list Vehicle) : M unit :=
  fc <- get frame_count ;;
  event (FileWrite (FrameHeader fc)) ;;
  for_each vehicles report_vehicle ;;
  modify (set_frame_count (fc + 1)).

(** Lines 169-184. *)
Fixpoint sync_extract_loop (fuel : nat) (target : Py.Num) : M unit :=
  fun s =>
    if Py.ltb (Py.Int (Z.of_nat (frame_count s))) target then
      match fuel with
      | O => (Running, s)
      | S fuel' =>
          (world_tick env ;;
           vehicles <- get_vehicles env ;;
           write_frame_block vehicles ;;
           fc <- get frame_count ;;
           when (fc mod 20 =? 0) (print (ProcessedOf fc target)) ;;
           sync_extract_loop fuel' target) s
      end
    else (Returned tt, s).

(** Lines 187-204. *)
Fixpoint async_extract_loop (fuel : nat) (start : Q) (target : Py.Num)
    : M unit :=
  fun s =>
    if Py.ltb (Py.Float (Qminus (now env (clock s)) start)) target then
      match fuel with
      | O => (Running, s)
      | S fuel' =>
          (vehicles <- get_vehicles env ;;
           write_frame_block vehicles ;;
           fc <- get frame_count ;;
           when (fc mod 20 =? 0) (print (RecordingProgress fc)) ;;
           sleep env (Qmake 1 (Z.to_pos FPS)) ;;
           async_extract_loop fuel' start target) s
      end
    else (Returned tt, s).

(** [extract_data], the closure of [data_mode].  [wait_fuel] bounds
    the bootstrap wait, [fuel] the extraction loop. *)
Definition extract_data (wait_fuel fuel : nat) (output_file : string)
    (target : Py.Num) (sync_mode : bool) : M unit :=
  t0 <- time_time env ;;
  modify (set_start_time (Some t0)) ;;
  print WaitingForVehicles ;;
  r <- wait_for_vehicles wait_fuel sync_mode [] 0 ;;
  let vehicles := fst r in
  if is_empty vehicles then
    print NoVehiclesFound
  else
    print (FoundVehicles (length vehicles)) ;;
    event (OpenForWrite output_file) ;;
    if sync_mode then
      print (ExtractingFrames target) ;;
      sync_extract_loop fuel target
    else
      print (ExtractingSeconds target) ;;
      async_extract_loop fuel t0 target.

(** [data_mode(client, log_file, duration, output_dir, sync_mode)] *)
Definition data_mode (wait_fuel fuel : nat) (log_file : string)
    (duration : Py.Num) (output_dir : string) (sync_mode : bool) : M unit :=
  let output_dir := abspath env output_dir in
  event (MakeDirs output_dir) ;;
  let output_file := Py.path_join output_dir "vehicle_data.txt" in
  modify (set_frame_count 0) ;;
  modify (set_start_time None) ;;
  run_replay log_file (extract_data wait_fuel fuel output_file) duration sync_mode ;;
  fc <- get frame_count ;;
  print (ProcessedTotal fc) ;;
  print (DataSavedTo output_file).

(** [vehicles[0]] *)
Definition first_vehicle (vehicles : list Vehicle) : M Vehicle :=
  match vehicles with
  | [] => raise IndexError
  | v :: _ => ret v
  end.

(** [follow_vehicle], the closure of [follow_mode]. *)
Definition follow_vehicle (wait_fuel fuel : nat) (output_dir : string)
    (target : Py.Num) (sync_mode : bool) : M unit :=
  print WaitingForVehicles ;;
  r <- wait_for_vehicles wait_fuel sync_mode [] 0 ;;
  let vehicles := fst r in
  if is_empty vehicles then
    print NoVehiclesFound
  else
    target_vehicle <- first_vehicle vehicles ;;
    cam <- create_camera sync_mode (Some (id target_vehicle)) ;;
    modify (set_camera (Some cam)) ;;
    t0 <- time_time env ;;
    modify (set_start_time (Some t0)) ;;
    if sync_mode then
      listen OnImage ;;
      print (FollowingFrames (id target_vehicle) target output_dir) ;;
      sync_capture_loop env fuel output_dir target
    else
      listen (SaveImage output_dir) ;;
      print (FollowingSeconds (id target_vehicle) target output_dir) ;;
      async_wait_loop env fuel t0 target.

(** [follow_mode(client, log_file, duration, output_dir, sync_mode)] *)
Definition follow_mode (wait_fuel fuel : nat) (log_file : string)
    (duration : Py.Num) (output_dir : string) (sync_mode : bool) : M unit :=
  let output_dir := abspath env output_dir in
  event (MakeDirs output_dir) ;;
  modify (set_frame_count 0) ;;
  modify (set_camera None) ;;
  modify (set_captured_image None) ;;
  modify (set_start_time None) ;;
  finally
    (run_replay log_file (follow_vehicle wait_fuel fuel output_dir) duration sync_mode)
    destroy_camera ;;
  fc <- get frame_count ;;
  print (CapturedTotal fc).

End WithEnv.
End replay_with_sensors.

(** ** src/recording/record_replay_logs.py *)

Module record_replay_logs.
Import Sim Ops.
Local Open Scope sim_scope.

Section WithEnv.
Variable env : Env.

(** The user at the console: [interrupted k] says that Ctrl+C arrives
    during the sleep taken as step [k].  [replay_log] is the one
    function of the scripts that handles [KeyboardInterrupt], and its
    sleeps are the ones that can be interrupted here. *)
Variable interrupted : nat -> bool.

(** [time.sleep(d)] at the console *)
Definition time_sleep (d : Q) : M unit :=
  fun s =>
    if interrupted (clock s)
    then (Raised KeyboardInterrupt, emit (Sleep d) (set_clock (S (clock s)) s))
    else sleep env d s.

(** [replay_log(client, log_filename, start_time, duration, follow_id)] *)
Definition replay_log (log_filename : string) (start_time duration : Py.Num)
    (follow_id : Z) : M unit :=
  let log_filename := abspath env log_filename in
  print (CheckingLogFile log_filename) ;;
  if negb (path_exists env log_filename) then
    print (LogFileMissing log_filename)
  else
    print (LogFileSize log_filename) ;;
    print (Replaying log_filename) ;;
    catch
      (replay_file env log_filename start_time duration follow_id ;;
       print ReplayStarted ;;
       (* Wait for replay to finish or run for specified duration *)
       (if Py.ltb (Py.Int 0) duration then
          print (ReplayWillRun duration) ;;
          time_sleep (Py.to_Q duration)
        else
          print ReplayRunning ;;
          catch_interrupt
            (time_sleep 30)
            (print ReplayStoppedByUser)) ;;
       print ReplayCompleted)
      (print ErrorStartingReplay ;;
       print ServerCannotAccessFile).

End WithEnv.
End record_replay_logs.

(** ** src/utils/ffmpeg_video.py *)

Module ffmpeg_video.

Definition SAVE_DIR : string := "output_images".
Definition FPS : nat := 20.

(** A filesystem entry: a plain file with its size in bytes, or a
    directory with the names it contains. *)
Inductive Node :=
| File (size : Z)
| Dir (names : list string).

(** How [subprocess.run(cmd, capture_output=True, text=True, check=True)]
    ends. *)
Inductive RunResult :=
| Exited (returncode : Z) (stderr : string)  (* the process ran and exited *)
| NotInstalled                               (* FileNotFoundError: no such executable *)
| OtherFailure.                              (* any other exception of the launch *)

(** The external encoder: given the argument list and the filesystem,
    how the launch ends and what the filesystem is afterwards. *)
Definition Encoder : Type :=
  list string -> gmap string Node -> RunResult * gmap string Node.

Inductive Msg :=
| DirectoryDoesNotExist (dir : string)
| NoImageFilesFound (dir : string)
| FoundImages (n : nat)
| VideoCreated (file : string)
| VideoSize (entry : Node)
| FfmpegFailed (returncode : Z)
| ErrorOutput (stderr : string)
| FfmpegNotFound.

Inductive Event :=
| Print (m : Msg)
| Run (cmd : list string).

(** The module globals that are reassigned, the filesystem, and what
    the run printed and launched, in order. *)
Record State := mkState {
  BITRATE : string;
  VIDEO_FILE : string;
  fs : gmap string Node;
  out : list Event;
}.

Definition initial (files : gmap string Node) : State :=
  {| BITRATE := "5M"; VIDEO_FILE := "carla_output.mp4"; fs := files; out := [] |}.

Definition set_BITRATE (x : string) (st : State) : State :=
  mkState x (VIDEO_FILE st) (fs st) (out st).
Definition set_VIDEO_FILE (x : string) (st : State) : State :=
  mkState (BITRATE st) x (fs st) (out st).
Definition set_fs (x : gmap string Node) (st : State) : State :=
  mkState (BITRATE st) (VIDEO_FILE st) x (out st).
Definition emit (e : Event) (st : State) : State :=
  mkState (BITRATE st) (VIDEO_FILE st) (fs st) (out st ++ [e]).
Definition print (m : Msg) : State -> State := emit (Print m).

(** How a call ends: it returns its success flag, or an exception it
    does not handle leaves it. *)
Inductive Completion :=
| Return (success : bool)
| Propagates.

(** [os.path.exists] *)
Definition path_exists (files : gmap string Node) (p : string) : bool :=
  match files !! p with
  | Some _ => true
  | None => false
  end.

(** A name matches ['frame_*.jpg']: it starts with [frame_] and what
    follows ends with [.jpg]. *)
Definition matches_frame_pattern (name : string) : bool :=
  String.prefix "frame_" name &&
  (let rest := String.substring 6 (String.length name - 6) name in
   (4 <=? String.length rest) &&
   String.eqb (String.substring (String.length rest - 4) 4 rest) ".jpg").

(** [glob.glob(os.path.join(dir, 'frame_*.jpg'))] *)
Definition glob_frames (files : gmap string Node) (dir : string) : list string :=
  match files !! dir with
  | Some (Dir names) =>
      map (Py.path_join dir) (filter (fun n => matches_frame_pattern n = true) names)
  | _ => []
  end.

(** The argument list of lines 27-34. *)
Definition ffmpeg_cmd (st : State) : list string :=
  [ "ffmpeg"; "-y";
    "-framerate"; Py.str FPS;
    "-i"; Py.path_join SAVE_DIR "frame_%06d.jpg";
    "-b:v"; BITRATE st;
    "-r"; Py.str FPS;
    VIDEO_FILE st ].

Section WithEncoder.
Variable encoder : Encoder.

(** [subprocess.run(cmd, ...)] *)
Definition subprocess_run (cmd : list string) (st : State) : RunResult * State :=
  let st1 := emit (Run cmd) st in
  let (r, files) := encoder cmd (fs st1) in
  (r, set_fs files st1).

(** [create_video()] *)
Definition create_video (st : State) : Completion * State :=
  if negb (path_exists (fs st) SAVE_DIR) then
    (Return false, print (DirectoryDoesNotExist SAVE_DIR) st)
  else
    (* Check if we have image files *)
    let image_files := glob_frames (fs st) SAVE_DIR in
    match image_files with
    | [] => (Return false, print (NoImageFilesFound SAVE_DIR) st)
    | _ :: _ =>
        let st := print (FoundImages (length image_files)) st in
        let cmd := ffmpeg_cmd st in
        match subprocess_run cmd st with
        | (Exited returncode stderr, st) =>
            if (returncode =? 0)%Z then
              let st := print (VideoCreated (VIDEO_FILE st)) st in
              (* Show file size *)
              let st :=
                match fs st !! VIDEO_FILE st with
                | Some entry => print (VideoSize entry) st
                | None => st
                end in
              (Return true, st)
            else
              (* subprocess.CalledProcessError *)
              let st := print (FfmpegFailed returncode) st in
              let st := print (ErrorOutput stderr) st in
              (Return false, st)
        | (NotInstalled, st) =>
            (* FileNotFoundError *)
            (Return false, print FfmpegNotFound st)
        | (OtherFailure, st) => (Propagates, st)
        end
    end.

(** [create_video_with_bitrate(bitrate, output_name)] *)
Definition create_video_with_bitrate (bitrate : string)
    (output_name : option string) (st : State) : Completion * State :=
  let original_bitrate := BITRATE st in
  let original_video := VIDEO_FILE st in
  let st := set_BITRATE bitrate st in
  let st :=
    match output_name with
    | Some name => if Py.truthy output_name then set_VIDEO_FILE name st else st
    | None => st
    end in
  match create_video st with
  | (Return success, st) =>
      (* Restore original settings *)
      let st := set_BITRATE original_bitrate st in
      let st := set_VIDEO_FILE original_video st in
      (Return success, st)
  | (Propagates, st) => (Propagates, st)
  end.

End WithEncoder.
End ffmpeg_video.

(** ** src/recording/record_replay_logs.py: recording and inspection

    [record_log] and [get_log_info] talk to the recorder of the server
    and to the filesystem, and never tick.  They are programs over a
    state of their own: the filesystem, the recorder of the server, and
    what was printed and requested, in order.  Here every call into the
    client library or the operating system that can raise is allowed to:
    how it ends is read from [World]. *)

Declare Scope log_scope.
Delimit Scope log_scope with log.

Module log_recorder.

(** What the operating system and the server answer. *)
Record World := mkWorld {
  abspath : string -> string;               (* os.path.abspath *)
  dirname : string -> string;               (* os.path.dirname *)
  makedirs_denied : string -> bool;         (* creating this directory raises *)
  access_W_OK : string -> bool;             (* os.access(path, os.W_OK) *)
  dir_size : string -> Z;                   (* os.path.getsize of a directory *)
  start_recorder_fails : string -> bool;    (* client.start_recorder(path) raises *)
  stop_recorder_fails : bool;               (* client.stop_recorder() raises *)
  recorder_file : string -> option Z;       (* size of the file a started recorder puts
                                               at the path, if the script can see it *)
  blueprints : string -> list string;       (* blueprint_library.filter(pattern) *)
  spawn_points : list nat;                  (* world.get_map().get_spawn_points() *)
  spawn_actor : string -> nat -> option Z;  (* the id of the new actor; None: raises *)
  show_recorder_file_info : string -> option string;  (* None: raises *)
}.

Inductive Msg :=
| StartingRecording (duration : Z)
| RecordingTo (path : string)
| DirectoryExists (answer : bool)
| DirectoryWritable (answer : bool)
| WillBeOverwritten (path : string)
| StartingRecorder
| RecorderStarted
| ErrorStartingRecorder
| VehicleSpawned (id : Z)
| RecordingFor (duration : Z)
| RecordingProgress (seconds duration : Z)
| StoppingRecorder
| RecorderStopped
| ErrorStoppingRecorder
| RecordingSaved (path : string)
| FileSize (bytes : Z)
| FileIsEmpty
| RecordingNotCreated (path : string)
| DirectoryContents (dir : string)
| Item (name : string)
| ErrorListingDirectory
| CheckingLogFile (path : string)
| LogFileNotOnFilesystem (path : string)
| FileExists (bytes : Z)
| LogFileInformation
| Info (text : string)
| ErrorGettingLogInfo
| ServerCannotAccessHint.

Inductive Event :=
| Print (m : Msg)
| MakeDirs (dir : string)
| StartRecorder (path : string)
| StopRecorder
| SpawnActor (blueprint : string) (spawn_point : nat)
| SetAutopilot (vehicle : Z) (enabled : bool)
| Sleep (seconds : Z)
| ShowRecorderFileInfo (path : string) (show_all : bool).

Record State := mkState {
  fs : gmap string ffmpeg_video.Node;   (* the filesystem of the script *)
  recording : option string;            (* the file the recorder of the server writes to *)
  out : list Event;
}.

Definition initial (files : gmap string ffmpeg_video.Node) : State :=
  {| fs := files; recording := None; out := [] |}.

Definition set_fs (x : gmap string ffmpeg_video.Node) (s : State) : State :=
  mkState x (recording s) (out s).
Definition set_recording (x : option string) (s : State) : State :=
  mkState (fs s) x (out s).
Definition emit (e : Event) (s : State) : State :=
  mkState (fs s) (recording s) (out s ++ [e]).

Inductive Exn :=
| OSError          (* raised by the operating system *)
| IndexError       (* indexing an empty sequence *)
| RuntimeError.    (* raised by the client library *)

Inductive Result (A : Type) :=
| Returns (a : A)
| Raises (e : Exn).
Arguments Returns {A} a.
Arguments Raises {A} e.

Definition M (A : Type) : Type := State -> Result A * State.

Definition ret {A} (a : A) : M A := fun s => (Returns a, s).
Definition raise {A} (e : Exn) : M A := fun s => (Raises e, s).
Definition bind {A B} (m : M A) (k : A -> M B) : M B :=
  fun s =>
    match m s with
    | (Returns a, s') => k a s'
    | (Raises e, s') => (Raises e, s')
    end.

Notation "x <- m ;; k" := (bind m (fun x => k))
  (at level 100, m at next level, right associativity) : log_scope.
Notation "m ;; k" := (bind m (fun _ => k))
  (at level 100, right associativity) : log_scope.
Local Open Scope log_scope.

(** [try: m except Exception as e: h] *)
Definition try_except {A} (m : M A) (h : M A) : M A :=
  fun s =>
    match m s with
    | (Raises _, s') => h s'
    | r => r
    end.

Definition get {A} (f : State -> A) : M A := fun s => (Returns (f s), s).
Definition modify (f : State -> State) : M unit := fun s => (Returns tt, f s).
Definition when (b : bool) (m : M unit) : M unit := if b then m else ret tt.
Definition event (e : Event) : M unit := modify (emit e).
Definition print (m : Msg) : M unit := event (Print m).

Fixpoint for_each {A} (xs : list A) (body : A -> M unit) : M unit :=
  match xs with
  | [] => ret tt
  | x :: xs' => body x ;; for_each xs' body
  end.

(** [range(n)] *)
Definition range (n : Z) : list Z := map Z.of_nat (seq 0 (Z.to_nat n)).

(** [xs[0]] *)
Definition first {A} (xs : list A) : M A :=
  match xs with
  | [] => raise IndexError
  | x :: _ => ret x
  end.

(** [os.path.exists(path)] *)
Definition exists_ (path : string) : M bool :=
  get (fun s => ffmpeg_video.path_exists (fs s) path).

(** [time.sleep(seconds)] *)
Definition sleep (seconds : Z) : M unit := event (Sleep seconds).

Section WithWorld.
Variable w : World.

(** [os.makedirs(dir, exist_ok=True)]: nothing to do for a directory
    that exists; an error when the path is a file, or when the
    directory cannot be created. *)
Definition makedirs (dir : string) : M unit :=
  event (MakeDirs dir) ;;
  files <- get fs ;;
  match files !! dir with
  | Some (ffmpeg_video.Dir _) => ret tt
  | Some (ffmpeg_video.File _) => raise OSError
  | None =>
      if makedirs_denied w dir then raise OSError
      else modify (set_fs (<[dir := ffmpeg_video.Dir []]> files))
  end.

(** [os.path.getsize(path)] of a path that exists *)
Definition getsize (path : string) : M Z :=
  files <- get fs ;;
  match files !! path with
  | Some (ffmpeg_video.File size) => ret size
  | Some (ffmpeg_video.Dir _) => ret (dir_size w path)
  | None => raise OSError
  end.

(** [os.listdir(dir)] *)
Definition listdir (dir : string) : M (list string) :=
  files <- get fs ;;
  match files !! dir with
  | Some (ffmpeg_video.Dir names) => ret names
  | _ => raise OSError
  end.

(** [client.start_recorder(path)]: once started, the recorder writes
    the file; the script looks at it again only after the stop. *)
Definition start_recorder (path : string) : M unit :=
  event (StartRecorder path) ;;
  if start_recorder_fails w path then raise RuntimeError
  else
    modify (set_recording (Some path)) ;;
    match recorder_file w path with
    | Some size =>
        files <- get fs ;;
        modify (set_fs (<[path := ffmpeg_video.File size]> files))
    | None => ret tt
    end.

(** [client.stop_recorder()] *)
Definition stop_recorder : M unit :=
  event StopRecorder ;;
  if stop_recorder_fails w then raise RuntimeError
  else modify (set_recording None).

(** [world.spawn_actor(blueprint, spawn_point)] *)
Definition spawn (blueprint : string) (spawn_point : nat) : M Z :=
  event (SpawnActor blueprint spawn_point) ;;
  match spawn_actor w blueprint spawn_point with
  | Some id => ret id
  | None => raise RuntimeError
  end.

(** [client.show_recorder_file_info(path, show_all)] *)
Definition recorder_file_info (path : string) (show_all : bool) : M string :=
  event (ShowRecorderFileInfo path show_all) ;;
  match show_recorder_file_info w path with
  | Some info => ret info
  | None => raise RuntimeError
  end.

(** Lines 52-68: the check that the file was created. *)
Definition report_recording (log_filename : string) : M unit :=
  created <- exists_ log_filename ;;
  if created then
    file_size <- getsize log_filename ;;
    print (RecordingSaved log_filename) ;;
    print (FileSize file_size) ;;
    when (file_size =? 0)%Z (print FileIsEmpty)
  else
    print (RecordingNotCreated log_filename) ;;
    (* List directory contents to debug *)
    let dir_path := dirname w log_filename in
    print (DirectoryContents dir_path) ;;
    try_except
      (names <- listdir dir_path ;;
       for_each names (fun item => print (Item item)))
      (print ErrorListingDirectory).

(** [record_log(client, world, duration, log_filename)] *)
Definition record_log (duration : Z) (log_filename : string) : M unit :=
  (* Ensure absolute path and create directory if needed *)
  let log_filename := abspath w log_filename in
  makedirs (dirname w log_filename) ;;
  print (StartingRecording duration) ;;
  print (RecordingTo log_filename) ;;
  dir_exists <- exists_ (dirname w log_filename) ;;
  print (DirectoryExists dir_exists) ;;
  print (DirectoryWritable (access_W_OK w (dirname w log_filename))) ;;
  (* Check if file already exists *)
  file_exists <- exists_ log_filename ;;
  when file_exists (print (WillBeOverwritten log_filename)) ;;
  (* Start recording *)
  print StartingRecorder ;;
  started <- try_except
               (start_recorder log_filename ;;
                print RecorderStarted ;;
                ret true)
               (print ErrorStartingRecorder ;;
                ret false) ;;
  if negb started then ret tt    (* the [return] of the handler *)
  else
    (* Spawn a vehicle for some activity *)
    vehicle_bp <- first (blueprints w "vehicle.tesla.model3") ;;
    spawn_point <- first (spawn_points w) ;;
    vehicle <- spawn vehicle_bp spawn_point ;;
    event (SetAutopilot vehicle true) ;;
    print (VehicleSpawned vehicle) ;;
    (* Record for specified duration *)
    print (RecordingFor duration) ;;
    for_each (range duration) (fun i =>
      sleep 1 ;;
      print (RecordingProgress (i + 1) duration)) ;;
    (* Stop recording - let CARLA handle vehicle cleanup *)
    print StoppingRecorder ;;
    try_except
      (stop_recorder ;;
       print RecorderStopped)
      (print ErrorStoppingRecorder) ;;
    (* Check if file was actually created *)
    report_recording log_filename.

(** [get_log_info(client, log_filename)] *)
Definition get_log_info (log_filename : string) : M unit :=
  (* Ensure absolute path *)
  let log_filename := abspath w log_filename in
  print (CheckingLogFile log_filename) ;;
  found <- exists_ log_filename ;;
  if negb found then
    print (LogFileNotOnFilesystem log_filename)
  else
    file_size <- getsize log_filename ;;
    print (FileExists file_size) ;;
    try_except
      (info <- recorder_file_info log_filename true ;;
       print LogFileInformation ;;
       print (Info info))
      (print ErrorGettingLogInfo ;;
       print ServerCannotAccessHint).

End WithWorld.
End log_recorder.

(** * Specification vocabulary *)

(** ** The video assembler *)

Module VideoSpec.
Import ffmpeg_video.

(** The directory holds no frame file: it is absent, or not a
    directory, or none of its names matches the frame pattern. *)
Definition no_frames (files : gmap string Node) (dir : string) : Prop :=
  forall names, files !! dir = Some (Dir names) ->
  forall n, n ∈ names -> matches_frame_pattern n = false.

(** The encoder launches among the events of a run. *)
Fixpoint launches (evs : list Event) : list (list string) :=
  match evs with
  | [] => []
  | Run cmd :: evs' => cmd :: launches evs'
  | Print _ :: evs' => launches evs'
  end.

(** The messages among the events of a run. *)
Fixpoint printed (evs : list Event) : list Msg :=
  match evs with
  | [] => []
  | Print m :: evs' => m :: printed evs'
  | Run _ :: evs' => printed evs'
  end.

(** The state in which [create_video] runs under the overrides of
    [create_video_with_bitrate]. *)
Definition overridden (bitrate : string) (output_name : option string)
    (st : State) : State :=
  mkState bitrate
          (match output_name with
           | Some (String c n) => String c n
           | _ => VIDEO_FILE st
           end)
          (fs st) (out st).

(** A filesystem with the frame directory and two frames in it. *)
Definition two_frames : gmap string Node :=
  {[ SAVE_DIR := Dir ["frame_000000.jpg"; "frame_000001.jpg"; "notes.txt"] ]}.

(** The same with a third frame and an older output file. *)
Definition three_frames : gmap string Node :=
  {[ SAVE_DIR := Dir ["frame_000000.jpg"; "frame_000001.jpg"; "frame_000002.jpg"];
     "carla_output.mp4" := File 7 ]}.

(** A filesystem whose frame directory holds no frame. *)
Definition empty_dir : gmap string Node :=
  {[ SAVE_DIR := Dir ["notes.txt"; "frame_1.png"] ]}.

(** Encoders: one that writes the output file, one that is missing,
    one that exits with status 1. *)
Definition working_encoder : Encoder :=
  fun cmd files =>
    match last cmd with
    | Some o => (Exited 0 "", <[o := File 1024]> files)
    | None => (Exited 0 "", files)
    end.
Definition missing_encoder : Encoder := fun _ files => (NotInstalled, files).
Definition failing_encoder : Encoder :=
  fun _ files => (Exited 1 "frame_%06d.jpg: No such file or directory", files).

End VideoSpec.

(** ** The capture loops *)

Module CaptureSpec.
Import Sim Ops.

(** The registered callback is one that only fills the single-slot
    holder: the lock-step configuration of the three capture loops. *)
Definition holding (s : State) : Prop :=
  listener s = Some OnImage \/
  exists save_dir, listener s = Some (RecorderSaveImage true save_dir).

(** The state right after a [world.tick()] that returned. *)
Definition after_tick (env : Env) (s : State) : State :=
  deliver (images env (clock s)) (emit Tick (set_clock (S (clock s)) s)).

(** The files written, in order. *)
Fixpoint saved (evs : list Event) : list (string * Image) :=
  match evs with
  | [] => []
  | SaveToDisk filename img :: evs' => (filename, img) :: saved evs'
  | _ :: evs' => saved evs'
  end.

(** The lines written to the telemetry file, in order. *)
Fixpoint written (evs : list Event) : list Line :=
  match evs with
  | [] => []
  | FileWrite l :: evs' => l :: written evs'
  | _ :: evs' => written evs'
  end.

(** The steps (ticks and sleeps) among the events. *)
Fixpoint polls (evs : list Event) : nat :=
  match evs with
  | [] => 0
  | Tick :: evs' => S (polls evs')
  | Sleep _ :: evs' => S (polls evs')
  | _ :: evs' => polls evs'
  end.

(** Step [k] delivers at least one buffer. *)
Definition delivering (env : Env) (k : nat) : bool :=
  match images env k with
  | [] => false
  | _ :: _ => true
  end.

(** How many of the [n] steps from [c] on deliver a buffer. *)
Fixpoint deliveries (env : Env) (c n : nat) : nat :=
  match n with
  | O => 0
  | S n' => (if delivering env c then 1 else 0) + deliveries env (S c) n'
  end.

(** The events of a run of lock-step iterations: every iteration is one
    tick, followed at once by the write of that tick's frame if there
    is one (and by the progress message every twentieth frame); no
    write is separated from its tick by another tick. *)
Inductive lockstep_trace : list Event -> Prop :=
| lockstep_done : lockstep_trace []
| lockstep_idle evs :
    lockstep_trace evs -> lockstep_trace (Tick :: evs)
| lockstep_save filename img evs :
    lockstep_trace evs -> lockstep_trace (Tick :: SaveToDisk filename img :: evs)
| lockstep_save_report filename img m evs :
    lockstep_trace evs ->
    lockstep_trace (Tick :: SaveToDisk filename img :: Print m :: evs).



(** Sample environments.  A server on which every tick returns and the
    camera delivers one buffer per step (the buffer of step [k] is
    [k]); one whose camera never delivers; one whose camera skips every
    other step. *)
Definition base_env : Env :=
  {| tick_fails := fun _ => false;
     replay_fails := fun _ => false;
     images := fun k => [k];
     vehicles := fun _ => [];
     now := fun k => inject_Z (Z.of_nat k);
     path_exists := fun _ => true;
     abspath := fun p => Py.path_join "/work" p |}.

Definition with_images (f : nat -> list Image) (env : Env) : Env :=
  mkEnv (tick_fails env) (replay_fails env) f (vehicles env) (now env)
        (path_exists env) (abspath env).

Definition starved_env : Env := with_images (fun _ => []) base_env.
Definition skipping_env : Env :=
  with_images (fun k => if Nat.even k then [] else [k]) base_env.

(** The state in which a lock-step loop starts: the holder callback is
    registered, the holder is empty, no frame was counted yet. *)
Definition listening : State :=
  set_listener (Some OnImage) (initial default_settings).

End CaptureSpec.

(** ** Replay, bootstrap wait and telemetry *)

Module ReplaySpec.
Import Sim Ops CaptureSpec.

(** The line a vehicle leaves in a block: none when one of its reads
    raises. *)
Definition report (v : Vehicle) : option Line :=
  match get_transform v, get_velocity v with
  | Some t, Some vel => Some (VehicleLine (id v) t vel)
  | _, _ => None
  end.


Definition vehicle_lines (vs : list Vehicle) : list Line := omap report vs.

(** The block of step [n]. *)
Definition block (n : nat) (vs : list Vehicle) : list Line :=
  FrameHeader n :: vehicle_lines vs.

(** Appending events to the trace, one after the other. *)
Definition emit_all (evs : list Event) (s : State) : State :=
  fold_left (fun st e => emit e st) evs s.


(** A computation that leaves the session settings and the settings
    objects of the script alone. *)
Definition keeps_settings {A} (m : M A) : Prop :=
  forall s, objects (snd (m s)) = objects s /\ session (snd (m s)) = session s.



(** Sample vehicles: one that reports, one destroyed on the server. *)
Definition car (n : Z) : Vehicle :=
  {| id := n; get_transform := Some (inject_Z n, 0%Q); get_velocity := Some (1%Q, 0%Q) |}.
Definition wreck (n : Z) : Vehicle :=
  {| id := n; get_transform := None; get_velocity := None |}.

Definition with_vehicles (f : nat -> list Vehicle) (env : Env) : Env :=
  mkEnv (tick_fails env) (replay_fails env) (images env) f (now env)
        (path_exists env) (abspath env).
Definition with_tick_fails (f : nat -> bool) (env : Env) : Env :=
  mkEnv f (replay_fails env) (images env) (vehicles env) (now env)
        (path_exists env) (abspath env).
Definition with_path_exists (f : string -> bool) (env : Env) : Env :=
  mkEnv (tick_fails env) (replay_fails env) (images env) (vehicles env) (now env)
        f (abspath env).

(** Three cars; the second one is destroyed while step 12 is read. *)
Definition traffic_env : Env :=
  with_vehicles
    (fun c => if c =? 12 then [car 1; wreck 2; car 3] else [car 1; car 2; car 3])
    base_env.


(** No log file on disk. *)
Definition no_log_env : Env := with_path_exists (fun _ => false) base_env.

(** The server stops answering at its fourteenth step. *)
Definition stalling_env : Env := with_tick_fails (fun k => k =? 13) base_env.

End ReplaySpec.

(** ** Session settings *)

Module SettingsSpec.
Import Sim Ops.

(** The settings object [o] of the script holds [x], and [x] is what
    the session runs with. *)
Definition settled (o : nat) (x : Settings) (s : State) : Prop :=
  objects s !! o = Some x /\ session s = x.

(** The settings of a lock-step replay. *)
Definition lockstep_settings : Settings :=
  {| synchronous_mode := true; fixed_delta_seconds := Some (1 # 20)%Q |}.

(** A computation that leaves the session on the object it runs with. *)
Definition settles {A} (o : nat) (x : Settings) (m : M A) : Prop :=
  forall s, settled o x s -> settled o x (snd (m s)).

End SettingsSpec.

(** ** Further vocabulary: the video assembler *)

Module VideoExtraSpec.
Import ffmpeg_video VideoSpec.

(** An encoder whose launch fails with an exception [create_video] does
    not handle. *)
Definition broken_encoder : Encoder := fun _ files => (OtherFailure, files).

(** The name of the frame file of sequence number [n] inside its
    directory. *)
Definition frame_name (n : nat) : string :=
  "frame_" +:+ Py.format_06d n +:+ ".jpg".

(** A frame directory as the recorder leaves it after three frames. *)
Definition recorded_dir : gmap string Node :=
  {[ SAVE_DIR := Dir [frame_name 0; frame_name 1; frame_name 2] ]}.

End VideoExtraSpec.

(** ** Further vocabulary: the capture loops *)

Module CaptureExtraSpec.
Import Sim Ops CaptureSpec ReplaySpec.

(** The registered callback writes every buffer at once: the
    wall-clock configuration. *)
Definition saving_to (dir : string) (s : State) : Prop :=
  listener s = Some (SaveImage dir) \/
  listener s = Some (RecorderSaveImage false dir).

(** A camera that delivers three buffers per step. *)
Definition bursting_env : Env :=
  with_images (fun k => [3 * k; 3 * k + 1; 3 * k + 2]) base_env.

(** A replay whose vehicles appear once four steps were taken. *)
Definition late_traffic_env : Env :=
  with_vehicles (fun c => if c <? 4 then [] else [car 1; car 2]) base_env.

(** The state in which a wall-clock capture runs. *)
Definition saving : State :=
  set_listener (Some (SaveImage "out")) (initial default_settings).

End CaptureExtraSpec.

(** ** Further vocabulary: session settings *)

Module SettingsExtraSpec.
Import Sim Ops SettingsSpec.

(** Once the object [o] holds [x]: a computation that, when it returns,
    leaves the session on [x], and otherwise leaves the session as it
    found it. *)
Definition restores {A} (o : nat) (x : Settings) (m : M A) : Prop :=
  forall s,
    objects s !! o = Some x ->
    match fst (m s) with
    | Returned _ => session (snd (m s)) = x
    | _ => session (snd (m s)) = session s
    end.

(** What [main] of the recorder does once its recording loop is over. *)
Definition recorder_epilogue (original_settings : nat) : M unit :=
  bind (get frame_count) (fun fc =>
  bind (print (RecordingCompleted fc)) (fun _ =>
  bind (event CameraStop) (fun _ =>
  bind (event (Destroy "camera")) (fun _ =>
  bind (event (Destroy "vehicle")) (fun _ =>
  apply_settings original_settings))))).

(** A session that was left in lock-step mode by an earlier script. *)
Definition lockstep_session : State := initial lockstep_settings.

End SettingsExtraSpec.

(** ** Further vocabulary: replay *)

Module ReplayExtraSpec.
Import Sim Ops CaptureSpec ReplaySpec.

Definition with_replay_fails (f : string -> bool) (env : Env) : Env :=
  mkEnv (tick_fails env) f (images env) (vehicles env) (now env)
        (path_exists env) (abspath env).

(** A server that cannot read the log file it is asked to replay. *)
Definition unreadable_log_env : Env := with_replay_fails (fun _ => true) base_env.

(** The settings [run_replay] applies before it requests the replay. *)
Definition applied_settings (sync_mode : bool) (s : State) : Settings :=
  if sync_mode then mkSettings true (Some (1 # 20)%Q)
  else mkSettings false (fixed_delta_seconds (session s)).

End ReplayExtraSpec.

(** ** The camera actor *)

Module CameraSpec.
Import Sim Ops.

(** Cameras spawned and cameras destroyed, counted on the trace. *)
Fixpoint spawned (evs : list Event) : nat :=
  match evs with
  | [] => 0
  | SpawnCamera _ _ :: evs' => S (spawned evs')
  | _ :: evs' => spawned evs'
  end.

Fixpoint destroyed (evs : list Event) : nat :=
  match evs with
  | [] => 0
  | Destroy what :: evs' =>
      (if String.eqb what "camera" then 1 else 0) + destroyed evs'
  | _ :: evs' => destroyed evs'
  end.

(** A computation that has nothing to do with cameras. *)
Definition camera_free {A} (m : M A) : Prop :=
  forall s,
    camera (snd (m s)) = camera s /\
    spawned (trace (snd (m s))) = spawned (trace s) /\
    destroyed (trace (snd (m s))) = destroyed (trace s).

(** Where a state stands with respect to an earlier one that held no
    camera: still none, or one camera spawned since and held. *)
Definition camera_since (s0 s : State) : Prop :=
  destroyed (trace s) = destroyed (trace s0) /\
  ((camera s = None /\ spawned (trace s) = spawned (trace s0)) \/
   (camera s = Some TheCamera /\ spawned (trace s) = S (spawned (trace s0)))).

(** A computation that, started without a camera, spawns at most one
    and keeps hold of it. *)
Definition holds_its_camera {A} (m : M A) : Prop :=
  forall s, camera s = None -> camera_since s (snd (m s)).

End CameraSpec.

(** ** Further vocabulary: telemetry *)

Module TelemetryExtraSpec.
Import Sim Ops CaptureSpec ReplaySpec.

(** The telemetry of [n] wall-clock iterations taken from clock [c]
    on, the first of them numbered [fc]: the block of each iteration
    lists the vehicles present before its sleep. *)
Fixpoint wallclock_telemetry (env : Env) (c fc n : nat) : list Line :=
  match n with
  | O => []
  | S n' => block fc (vehicles env c) ++ wallclock_telemetry env (S c) (S fc) n'
  end.

End TelemetryExtraSpec.

(** ** Following a vehicle *)

Module FollowSpec.
Import Sim Ops CaptureSpec ReplaySpec.

(** A computation that, run while no callback is registered, registers
    none, and leaves the holder, the frame counter and the files
    alone. *)
Definition idle {A} (m : M A) : Prop :=
  forall s,
    listener s = None ->
    listener (snd (m s)) = None /\
    captured_image (snd (m s)) = captured_image s /\
    frame_count (snd (m s)) = frame_count s /\
    saved (trace (snd (m s))) = saved (trace s).

(** Traffic that appears at the third step, led by vehicle 7. *)
Definition convoy_env : Env :=
  with_vehicles (fun c => if c <? 3 then [] else [car 7; car 1]) base_env.

End FollowSpec.

(** ** Wall-clock capture *)

Module WallclockSpec.
Import Sim Ops CaptureSpec ReplaySpec.

(** The buffers the camera delivers during the [n] steps from [c] on,
    in arrival order. *)
Definition buffers (env : Env) (c n : nat) : list Image :=
  flat_map (images env) (seq c n).

End WallclockSpec.

(** ** Recording and inspecting a log *)

Module LogSpec.
Import log_recorder.

(** The events of a run that satisfy [p], counted. *)
Definition count (p : Event -> bool) (evs : list Event) : nat :=
  length (List.filter p evs).

Definition is_start (e : Event) : bool :=
  match e with StartRecorder _ => true | _ => false end.
Definition is_stop (e : Event) : bool :=
  match e with StopRecorder => true | _ => false end.
Definition is_spawn (e : Event) : bool :=
  match e with SpawnActor _ _ => true | _ => false end.
Definition is_query (e : Event) : bool :=
  match e with ShowRecorderFileInfo _ _ => true | _ => false end.

(** The seconds a run slept, in total. *)
Fixpoint slept (evs : list Event) : Z :=
  match evs with
  | [] => 0%Z
  | Sleep seconds :: evs' => (seconds + slept evs')%Z
  | _ :: evs' => slept evs'
  end.

(** Events among which nothing is slept and no recorder or spawn
    request is made. *)
Definition quiet (evs : list Event) : Prop :=
  slept evs = 0%Z /\ count is_start evs = 0 /\ count is_spawn evs = 0 /\
  count is_stop evs = 0.

(** What was printed, in order. *)
Definition printed (evs : list Event) : list Msg :=
  omap (fun e => match e with Print m => Some m | _ => None end) evs.

(** [os.makedirs(dir, exist_ok=True)] goes through. *)
Definition makedirs_ok (w : World) (files : gmap string ffmpeg_video.Node)
    (dir : string) : bool :=
  match files !! dir with
  | Some (ffmpeg_video.Dir _) => true
  | Some (ffmpeg_video.File _) => false
  | None => negb (makedirs_denied w dir)
  end.

(** The filesystem once [dir] was made. *)
Definition with_dir (dir : string) (files : gmap string ffmpeg_video.Node)
    : gmap string ffmpeg_video.Node :=
  match files !! dir with
  | None => <[dir := ffmpeg_video.Dir []]> files
  | Some _ => files
  end.

(** The filesystem once the recorder was started on [path]. *)
Definition recorded (w : World) (path : string)
    (files : gmap string ffmpeg_video.Node) : gmap string ffmpeg_video.Node :=
  match recorder_file w path with
  | Some size => <[path := ffmpeg_video.File size]> files
  | None => files
  end.

(** What [record_log] prints and requests before it asks the server to
    start the recorder, on a filesystem that was [files]. *)
Definition prologue (w : World) (duration : Z) (path : string)
    (files : gmap string ffmpeg_video.Node) : list Event :=
  let dir := dirname w path in
  MakeDirs dir ::
  map Print
    ([StartingRecording duration; RecordingTo path; DirectoryExists true;
      DirectoryWritable (access_W_OK w dir)]
     ++ (if ffmpeg_video.path_exists (with_dir dir files) path
         then [WillBeOverwritten path] else [])
     ++ [StartingRecorder]).

(** The vehicle [record_log] spawns, when the spawn goes through. *)
Definition spawned_vehicle (w : World) : option Z :=
  match blueprints w "vehicle.tesla.model3", spawn_points w with
  | bp :: _, sp :: _ => spawn_actor w bp sp
  | _, _ => None
  end.

(** How the spawn of [record_log] ends when it does not go through. *)
Definition spawn_error (w : World) : Exn :=
  match blueprints w "vehicle.tesla.model3", spawn_points w with
  | _ :: _, _ :: _ => RuntimeError
  | _, _ => IndexError
  end.

(** A host where everything works: the server writes a file of 2048
    bytes wherever it is asked to record. *)
Definition working_world : World :=
  {| abspath := fun p => "/work/" +:+ p;
     dirname := fun _ => "/work";
     makedirs_denied := fun _ => false;
     access_W_OK := fun _ => true;
     dir_size := fun _ => 4096%Z;
     start_recorder_fails := fun _ => false;
     stop_recorder_fails := false;
     recorder_file := fun _ => Some 2048%Z;
     blueprints := fun _ => ["vehicle.tesla.model3"];
     spawn_points := [0; 1; 2];
     spawn_actor := fun _ _ => Some 24%Z;
     show_recorder_file_info := fun _ => Some "Version: 1" |}.

Definition with_start_recorder_fails (f : string -> bool) (w : World) : World :=
  mkWorld (abspath w) (dirname w) (makedirs_denied w) (access_W_OK w) (dir_size w)
          f (stop_recorder_fails w) (recorder_file w) (blueprints w)
          (spawn_points w) (spawn_actor w) (show_recorder_file_info w).
Definition with_stop_recorder_fails (b : bool) (w : World) : World :=
  mkWorld (abspath w) (dirname w) (makedirs_denied w) (access_W_OK w) (dir_size w)
          (start_recorder_fails w) b (recorder_file w) (blueprints w)
          (spawn_points w) (spawn_actor w) (show_recorder_file_info w).
Definition with_recorder_file (f : string -> option Z) (w : World) : World :=
  mkWorld (abspath w) (dirname w) (makedirs_denied w) (access_W_OK w) (dir_size w)
          (start_recorder_fails w) (stop_recorder_fails w) f (blueprints w)
          (spawn_points w) (spawn_actor w) (show_recorder_file_info w).
Definition with_spawn_points (l : list nat) (w : World) : World :=
  mkWorld (abspath w) (dirname w) (makedirs_denied w) (access_W_OK w) (dir_size w)
          (start_recorder_fails w) (stop_recorder_fails w) (recorder_file w)
          (blueprints w) l (spawn_actor w) (show_recorder_file_info w).
Definition with_show_recorder_file_info (f : string -> option string) (w : World)
    : World :=
  mkWorld (abspath w) (dirname w) (makedirs_denied w) (access_W_OK w) (dir_size w)
          (start_recorder_fails w) (stop_recorder_fails w) (recorder_file w)
          (blueprints w) (spawn_points w) (spawn_actor w) f.

(** A server that records inside a container of its own: the script
    never sees the file. *)
Definition container_world : World := with_recorder_file (fun _ => None) working_world.

(** A map without spawn points. *)
Definition empty_map_world : World := with_spawn_points [] working_world.

(** A working directory that holds the log of an earlier run. *)
Definition work_dir : gmap string ffmpeg_video.Node :=
  {[ "/work" := ffmpeg_video.Dir ["recording.log"];
     "/work/recording.log" := ffmpeg_video.File 512%Z ]}.

End LogSpec.

(** * Lemmas *)

Section VideoLemmas.
Import ffmpeg_video VideoSpec.

Lemma launches_app evs1 evs2 : launches (evs1 ++ evs2) = launches evs1 ++ launches evs2.
Proof.
  induction evs1 as [|[m|cmd] evs1 IH]; simpl; [reflexivity|exact IH|].
  now rewrite IH.
Qed.

Lemma glob_frames_nil files dir : no_frames files dir -> glob_frames files dir = [].
Proof.
  unfold no_frames, glob_frames. intros H.
  destruct (files !! dir) as [[sz|names]|]; try reflexivity.
  specialize (H names eq_refl).
  assert (Hf : filter (fun n => matches_frame_pattern n = true) names = []).
  { induction names as [|n ns IH]; [reflexivity|].
    rewrite filter_cons_False.
    - apply IH. intros m Hin. apply H. set_solver.
    - rewrite H by set_solver. discriminate. }
  rewrite Hf. reflexivity.
Qed.

Lemma no_frames_empty_dir : no_frames empty_dir SAVE_DIR.
Proof.
  intros names H. vm_compute in H. injection H as <-.
  intros n Hn. apply list_elem_of_In in Hn. simpl in Hn.
  destruct Hn as [<-|[<-|[]]]; reflexivity.
Defined.

Lemma no_frames_absent : no_frames ∅ SAVE_DIR.
Proof. intros names H. vm_compute in H. discriminate H. Defined.

(** What [create_video] does once frames were found, by the way the
    launch ends. *)
Lemma create_video_launch encoder st :
  path_exists (fs st) SAVE_DIR = true ->
  glob_frames (fs st) SAVE_DIR <> [] ->
  exists r st',
    create_video encoder st = (r, st') /\
    launches (out st') = launches (out st) ++ [ffmpeg_cmd st].
Proof.
  intros He Hg. unfold create_video. rewrite He. simpl.
  destruct (glob_frames (fs st) SAVE_DIR) as [|f fl] eqn:E; [congruence|].
  unfold subprocess_run. simpl.
  destruct (encoder _ _) as [[rc err| |] files']; simpl.
  - destruct (rc =? 0)%Z; simpl.
    + destruct (files' !! VIDEO_FILE st); simpl; eexists _, _; split; try reflexivity;
        simpl; rewrite !launches_app; simpl; rewrite !app_nil_r; reflexivity.
    + eexists _, _; split; [reflexivity|]. simpl.
      rewrite !launches_app; simpl; rewrite !app_nil_r; reflexivity.
  - eexists _, _; split; [reflexivity|]. simpl.
    rewrite !launches_app; simpl; rewrite !app_nil_r; reflexivity.
  - eexists _, _; split; [reflexivity|]. simpl.
    rewrite !launches_app; simpl; rewrite !app_nil_r; reflexivity.
Qed.

(** In every run the encoder is launched at most once, and then with
    [ffmpeg_cmd]. *)
Lemma create_video_launches encoder st :
  launches (out (snd (create_video encoder st))) = launches (out st) \/
  launches (out (snd (create_video encoder st))) = launches (out st) ++ [ffmpeg_cmd st].
Proof.
  destruct (path_exists (fs st) SAVE_DIR) eqn:He.
  - destruct (glob_frames (fs st) SAVE_DIR) as [|f fl] eqn:E.
    + left. unfold create_video. rewrite He, E. simpl.
      rewrite launches_app. simpl. apply app_nil_r.
    + right. destruct (create_video_launch encoder st He) as (r & st' & -> & H).
      * rewrite E. discriminate.
      * exact H.
  - left. unfold create_video. rewrite He. simpl.
    rewrite launches_app. simpl. apply app_nil_r.
Qed.
End VideoLemmas.

Section CaptureLemmas.
Import Sim Ops CaptureSpec.

Lemma saved_app evs1 evs2 : saved (evs1 ++ evs2) = saved evs1 ++ saved evs2.
Proof.
  induction evs1 as [|e evs1 IH]; [reflexivity|].
  destruct e; simpl; rewrite ?IH; reflexivity.
Qed.

Lemma set_captured_image_same s : set_captured_image (captured_image s) s = s.
Proof. destruct s; reflexivity. Qed.

(** Under a holding callback the buffers of a step only overwrite the
    holder: the last one stays. *)
Lemma deliver_holding imgs s :
  holding s ->
  deliver imgs s =
  set_captured_image
    (match last imgs with Some img => Some img | None => captured_image s end) s.
Proof.
  intros Hh. unfold deliver.
  assert (Hcb : exists cb, listener s = Some cb /\
                 forall img st, run_callback cb img st = set_captured_image (Some img) st).
  { destruct Hh as [H|[d H]]; rewrite H; eexists; split; reflexivity. }
  destruct Hcb as (cb & -> & Hcb). clear Hh.
  revert s. induction imgs as [|img imgs IH]; intros s; simpl.
  - symmetry. apply set_captured_image_same.
  - rewrite Hcb, IH. destruct imgs as [|img' imgs]; [reflexivity|].
    change (last (img :: img' :: imgs)) with (last (img' :: imgs)).
    destruct (last (img' :: imgs)) eqn:E; [reflexivity|].
    apply last_None in E. discriminate E.
Qed.

Lemma sync_capture_loop_step env fuel dir target s :
  Py.ltb (Py.Int (Z.of_nat (frame_count s))) target = true ->
  tick_fails env (clock s) = false ->
  sync_capture_loop env (S fuel) dir target s =
  bind (drain_holder dir target) (fun _ => sync_capture_loop env fuel dir target)
       (after_tick env s).
Proof.
  intros H1 H2. cbn [sync_capture_loop]. rewrite H1. unfold bind at 1.
  unfold world_tick. rewrite H2. reflexivity.
Qed.

Lemma sync_capture_loop_done env fuel dir target s :
  Py.ltb (Py.Int (Z.of_nat (frame_count s))) target = false ->
  sync_capture_loop env fuel dir target s = (Returned tt, s).
Proof. intros H. destruct fuel; cbn [sync_capture_loop]; rewrite H; reflexivity. Qed.

Lemma drain_holder_empty dir target s :
  captured_image s = None -> drain_holder dir target s = (Returned tt, s).
Proof. intros H. unfold drain_holder. rewrite H. reflexivity. Qed.

Lemma drain_holder_full dir target s img :
  captured_image s = Some img ->
  exists s2 report,
    drain_holder dir target s = (Returned tt, s2) /\
    frame_count s2 = frame_count s + 1 /\
    captured_image s2 = None /\
    clock s2 = clock s /\
    listener s2 = listener s /\
    session s2 = session s /\
    trace s2 = trace s ++ SaveToDisk (frame_filename dir (frame_count s)) img :: report /\
    (report = [] \/ exists m, report = [Print m]).
Proof.
  intros H. unfold drain_holder. rewrite H. cbv zeta.
  match goal with |- context [when ?b _ _] => destruct b end;
    unfold when, print, modify, ret.
  - eexists _, [_]. repeat split; try reflexivity; [|eauto].
    cbn [trace emit set_captured_image set_frame_count].
    rewrite <- app_assoc. reflexivity.
  - eexists _, []. repeat split; try reflexivity. eauto.
Qed.

(** *** Frame file names *)









(** *** The lock-step loop *)

Lemma after_tick_holding env s :
  holding s ->
  after_tick env s =
  set_captured_image
    (match last (images env (clock s)) with
     | Some img => Some img
     | None => captured_image s
     end)
    (emit Tick (set_clock (S (clock s)) s)).
Proof. intros H. unfold after_tick. rewrite deliver_holding; [reflexivity|exact H]. Qed.

Lemma delivering_last env k :
  delivering env k = match last (images env k) with Some _ => true | None => false end.
Proof.
  unfold delivering. destruct (images env k) as [|i l] eqn:E; [reflexivity|].
  destruct (last (i :: l)) eqn:El; [reflexivity|].
  apply last_None in El. discriminate.
Qed.

Lemma ltb_frame_count (fc N : nat) :
  Py.ltb (Py.Int (Z.of_nat fc)) (Py.Int (Z.of_nat N)) = (fc <? N).
Proof.
  simpl. destruct (Nat.ltb_spec fc N); [apply Z.ltb_lt|apply Z.ltb_ge]; lia.
Qed.

(** The loop reaches its target as soon as enough ticks have delivered
    a frame. *)
Lemma sync_capture_loop_total env dir N :
  forall T fuel s,
    holding s ->
    captured_image s = None ->
    frame_count s <= N ->
    (forall k, clock s <= k < clock s + T -> tick_fails env k = false) ->
    N <= frame_count s + deliveries env (clock s) T ->
    T <= fuel ->
    exists s' new,
      sync_capture_loop env fuel dir (Py.Int (Z.of_nat N)) s = (Returned tt, s') /\
      trace s' = trace s ++ new /\
      map fst (saved new) = map (frame_filename dir) (seq (frame_count s) (N - frame_count s)) /\
      lockstep_trace new /\
      frame_count s' = N /\
      clock s' <= clock s + T /\
      captured_image s' = None /\
      session s' = session s.
Proof.
  induction T as [|T IH]; intros fuel s Hh Hc Hle Hticks Hdel Hfuel.
  - simpl in Hdel. assert (frame_count s = N) by lia.
    exists s, []. rewrite sync_capture_loop_done by (rewrite ltb_frame_count; apply Nat.ltb_ge; lia).
    replace (N - frame_count s) with 0 by lia.
    repeat split; auto using app_nil_r; try constructor; lia.
  - destruct (Nat.eq_dec (frame_count s) N) as [Heq|Hne].
    { exists s, []. rewrite sync_capture_loop_done by (rewrite ltb_frame_count; apply Nat.ltb_ge; lia).
      replace (N - frame_count s) with 0 by lia.
      repeat split; auto using app_nil_r; try constructor; lia. }
    destruct fuel as [|fuel]; [lia|].
    rewrite sync_capture_loop_step;
      [|rewrite ltb_frame_count; apply Nat.ltb_lt; lia|apply Hticks; lia].
    rewrite after_tick_holding by exact Hh.
    simpl in Hdel. rewrite delivering_last in Hdel.
    destruct (last (images env (clock s))) as [img|] eqn:El.
    + (* the tick delivered a frame *)
      set (s1 := set_captured_image (Some img) (emit Tick (set_clock (S (clock s)) s))).
      destruct (drain_holder_full dir (Py.Int (Z.of_nat N)) s1 img eq_refl)
        as (s2 & report & Hd & Hfc & Hci & Hck & Hl & Hse & Htr & Hrep).
      unfold bind. rewrite Hd.
      assert (Hh2 : holding s2) by (unfold holding; rewrite Hl; exact Hh).
      assert (Hle2 : frame_count s2 <= N) by (rewrite Hfc; simpl; lia).
      assert (Ht2 : forall k, clock s2 <= k < clock s2 + T -> tick_fails env k = false).
      { intros k Hk. apply Hticks. rewrite Hck in Hk. simpl in Hk. lia. }
      assert (Hd2 : N <= frame_count s2 + deliveries env (clock s2) T).
      { rewrite Hfc, Hck. simpl. lia. }
      assert (Hf2 : T <= fuel) by lia.
      destruct (IH fuel s2 Hh2 Hci Hle2 Ht2 Hd2 Hf2)
        as (s' & new & Hrun & Htr' & Hnames & Hord & Hfc' & Hck' & Hci' & Hse').
      exists s', (Tick :: SaveToDisk (frame_filename dir (frame_count s)) img :: report ++ new).
      split; [exact Hrun|]. split.
      { rewrite Htr', Htr. simpl. rewrite <- !app_assoc. reflexivity. }
      split.
      { simpl. rewrite saved_app.
          assert (saved report = []) as -> by (destruct Hrep as [->|[m ->]]; reflexivity).
          simpl. rewrite Hnames, Hfc. simpl.
          replace (N - frame_count s) with (S (N - (frame_count s + 1))) by lia.
          simpl. rewrite Nat.add_1_r. reflexivity. }
        split.
        { destruct Hrep as [->|[m ->]]; simpl; constructor; exact Hord. }
        rewrite Hck in Hck'. rewrite Hse' , Hse. simpl in *.
        repeat split; auto; lia.
    + (* the tick delivered nothing *)
      rewrite Hc.
      set (s1 := set_captured_image None (emit Tick (set_clock (S (clock s)) s))).
      unfold bind. rewrite drain_holder_empty by reflexivity.
      assert (Ht1 : forall k, clock s1 <= k < clock s1 + T -> tick_fails env k = false).
      { intros k Hk. apply Hticks. simpl in Hk. lia. }
      assert (Hd1 : N <= frame_count s1 + deliveries env (clock s1) T) by (simpl; lia).
      assert (Hf1 : T <= fuel) by lia.
      destruct (IH fuel s1 Hh eq_refl Hle Ht1 Hd1 Hf1)
        as (s' & new & Hrun & Htr' & Hnames & Hord & Hfc' & Hck' & Hci' & Hse').
      exists s', (Tick :: new).
        split; [exact Hrun|]. split.
        { rewrite Htr'. simpl. rewrite <- app_assoc. reflexivity. }
        simpl in *. repeat split; auto; try lia. constructor; exact Hord.
Qed.



(** A camera that never delivers keeps the loop ticking: after [n]
    iterations it has ticked [n] times and is where it started. *)
Lemma sync_capture_loop_starved env dir target :
  forall n s,
    Py.ltb (Py.Int (Z.of_nat (frame_count s))) target = true ->
    captured_image s = None ->
    (forall k, clock s <= k -> images env k = [] /\ tick_fails env k = false) ->
    exists s',
      sync_capture_loop env n dir target s = (Running, s') /\
      frame_count s' = frame_count s /\
      clock s' = clock s + n /\
      trace s' = trace s ++ replicate n Tick /\
      saved (trace s') = saved (trace s).
Proof.
  induction n as [|n IH]; intros s Hlt Hc Henv.
  - exists s. cbn [sync_capture_loop]. rewrite Hlt.
    repeat split; auto. simpl. now rewrite app_nil_r.
  - destruct (Henv (clock s) (Nat.le_refl _)) as [Hi Ht].
    rewrite sync_capture_loop_step by assumption.
    unfold after_tick, bind. rewrite Hi.
    assert (Hd : forall st, deliver [] st = st).
    { intros st. unfold deliver. destruct (listener st); reflexivity. }
    rewrite Hd. rewrite drain_holder_empty by exact Hc.
    set (s1 := emit Tick (set_clock (S (clock s)) s)).
    destruct (IH s1 Hlt Hc) as (s' & Hrun & Hfc & Hck & Htr & Hsv).
    { intros k Hk. apply Henv. simpl in Hk. lia. }
    exists s'. split; [exact Hrun|]. simpl in *.
    repeat split; [exact Hfc|lia| |].
    + rewrite Htr, <- app_assoc. reflexivity.
    + rewrite Hsv, saved_app. simpl. apply app_nil_r.
Qed.
End CaptureLemmas.

Section ReplayLemmas.
Import Sim Ops CaptureSpec ReplaySpec replay_with_sensors.

Lemma polls_app evs1 evs2 : polls (evs1 ++ evs2) = polls evs1 + polls evs2.
Proof.
  induction evs1 as [|e evs1 IH]; [reflexivity|].
  destruct e; simpl; rewrite ?IH; reflexivity.
Qed.

Lemma written_app evs1 evs2 : written (evs1 ++ evs2) = written evs1 ++ written evs2.
Proof.
  induction evs1 as [|e evs1 IH]; [reflexivity|].
  destruct e; simpl; rewrite ?IH; reflexivity.
Qed.

(** A callback neither ticks nor sleeps, and does not touch the clock. *)
Lemma run_callback_polls cb img s :
  clock (run_callback cb img s) = clock s /\
  polls (trace (run_callback cb img s)) = polls (trace s).
Proof.
  destruct cb as [|d|[|] d]; simpl; auto.
  - unfold save_image.
    match goal with |- context [if ?b then _ else _] => destruct b end;
      simpl; rewrite ?polls_app; simpl; split; auto; lia.
  - unfold recorder_save_image.
    match goal with |- context [if ?b then _ else _] => destruct b end;
      simpl; rewrite ?polls_app; simpl; split; auto; lia.
Qed.

Lemma deliver_polls imgs s :
  clock (deliver imgs s) = clock s /\
  polls (trace (deliver imgs s)) = polls (trace s).
Proof.
  unfold deliver. destruct (listener s) as [cb|]; [|auto].
  revert s. induction imgs as [|img imgs IH]; intros s; simpl; [auto|].
  destruct (IH (run_callback cb img s)) as [-> ->]. apply run_callback_polls.
Qed.



(** *** Computations that never raise [IndexError] *)












End ReplayLemmas.

Section TelemetryLemmas.
Import Sim Ops CaptureSpec ReplaySpec replay_with_sensors.

Lemma emit_all_app evs1 evs2 s : emit_all (evs1 ++ evs2) s = emit_all evs2 (emit_all evs1 s).
Proof. apply fold_left_app. Qed.

Lemma emit_all_trace evs : forall s, trace (emit_all evs s) = trace s ++ evs.
Proof.
  induction evs as [|e evs IH]; intros s; simpl; [now rewrite app_nil_r|].
  change (trace (emit_all evs (emit e s)) = trace s ++ e :: evs).
  rewrite IH. simpl. now rewrite <- app_assoc.
Qed.

Lemma emit_all_frame evs :
  forall s,
    frame_count (emit_all evs s) = frame_count s /\
    clock (emit_all evs s) = clock s /\
    listener (emit_all evs s) = listener s /\
    session (emit_all evs s) = session s.
Proof.
  induction evs as [|e evs IH]; intros s; simpl; [auto|].
  change (fold_left (fun st e0 => emit e0 st) evs (emit e s))
    with (emit_all evs (emit e s)).
  destruct (IH (emit e s)) as (-> & -> & -> & ->). auto.
Qed.

Lemma report_vehicle_spec v s :
  report_vehicle v s =
  (Returned tt, emit_all (map FileWrite (vehicle_lines [v])) s).
Proof.
  unfold report_vehicle, vehicle_lines. simpl. unfold report.
  destruct (get_transform v) as [t|]; [|reflexivity].
  destruct (get_velocity v) as [vel|]; reflexivity.
Qed.

Lemma vehicle_lines_cons v vs :
  vehicle_lines (v :: vs) = vehicle_lines [v] ++ vehicle_lines vs.
Proof. unfold vehicle_lines. simpl. destruct (report v); reflexivity. Qed.


Lemma for_each_report_vehicle vs :
  forall s,
    for_each vs report_vehicle s =
    (Returned tt, emit_all (map FileWrite (vehicle_lines vs)) s).
Proof.
  induction vs as [|v vs IH]; intros s; [reflexivity|].
  cbn [for_each]. unfold bind. rewrite report_vehicle_spec, IH.
  rewrite (vehicle_lines_cons v vs), map_app, emit_all_app. reflexivity.
Qed.

Lemma write_frame_block_spec vs s :
  write_frame_block vs s =
  (Returned tt,
   set_frame_count (frame_count s + 1)
     (emit_all (map FileWrite (block (frame_count s) vs)) s)).
Proof.
  unfold write_frame_block, bind, get, event, modify.
  rewrite for_each_report_vehicle. reflexivity.
Qed.



Lemma written_map_FileWrite ls : written (map FileWrite ls) = ls.
Proof. induction ls as [|l ls IH]; simpl; [reflexivity|now rewrite IH]. Qed.

Lemma deliver_no_listener imgs s : listener s = None -> deliver imgs s = s.
Proof. intros H. unfold deliver. now rewrite H. Qed.


(** *** Computations that never raise *)




End TelemetryLemmas.

Section WallclockTelemetryLemmas.
Import Sim Ops CaptureSpec ReplaySpec TelemetryExtraSpec replay_with_sensors.


End WallclockTelemetryLemmas.

Section SettingsLemmas.
Import Sim Ops CaptureSpec ReplaySpec SettingsSpec replay_with_sensors.

Lemma ks_ret {A} (a : A) : keeps_settings (ret a).
Proof. intros s. split; reflexivity. Qed.

Lemma ks_bind {A B} (m : M A) (k : A -> M B) :
  keeps_settings m -> (forall a, keeps_settings (k a)) -> keeps_settings (bind m k).
Proof.
  intros Hm Hk s. unfold bind. specialize (Hm s).
  destruct (m s) as [[a|e|] s1]; simpl in *; [|exact Hm|exact Hm].
  destruct (Hk a s1) as [-> ->]. exact Hm.
Qed.

Lemma ks_finally {A} (m : M A) (h : M unit) :
  keeps_settings m -> keeps_settings h -> keeps_settings (finally m h).
Proof.
  intros Hm Hh s. unfold finally. specialize (Hm s).
  destruct (m s) as [[a|e|] s1]; simpl in *; [| |exact Hm];
    specialize (Hh s1); destruct (h s1) as [[[]|e'|] s2]; simpl in *;
    destruct Hh as [-> ->]; exact Hm.
Qed.

Lemma ks_get {A} (f : State -> A) : keeps_settings (get f).
Proof. intros s. split; reflexivity. Qed.

Lemma ks_event e : keeps_settings (event e).
Proof. intros s. split; reflexivity. Qed.

Lemma ks_print m : keeps_settings (print m).
Proof. intros s. split; reflexivity. Qed.

Lemma ks_when b m : keeps_settings m -> keeps_settings (when b m).
Proof. destruct b; [auto|intros _; apply ks_ret]. Qed.

Lemma run_callback_settings cb img s :
  objects (run_callback cb img s) = objects s /\
  session (run_callback cb img s) = session s.
Proof.
  destruct cb as [|d|[|] d]; simpl; auto.
  - unfold save_image.
    match goal with |- context [if ?b then _ else _] => destruct b end; auto.
  - unfold recorder_save_image.
    match goal with |- context [if ?b then _ else _] => destruct b end; auto.
Qed.

Lemma deliver_settings imgs s :
  objects (deliver imgs s) = objects s /\ session (deliver imgs s) = session s.
Proof.
  unfold deliver. destruct (listener s) as [cb|]; [|auto].
  revert s. induction imgs as [|img imgs IH]; intros s; simpl; [auto|].
  destruct (IH (run_callback cb img s)) as [-> ->]. apply run_callback_settings.
Qed.

Lemma ks_world_tick env : keeps_settings (world_tick env).
Proof.
  intros s. unfold world_tick. destruct (tick_fails env (clock s)); simpl; [auto|].
  apply (deliver_settings _ (emit Tick (set_clock (S (clock s)) s))).
Qed.

Lemma ks_sleep env d : keeps_settings (sleep env d).
Proof.
  intros s. unfold sleep. simpl.
  apply (deliver_settings _ (emit (Sleep d) (set_clock (S (clock s)) s))).
Qed.

Lemma ks_replay_file env p a b c : keeps_settings (replay_file env p a b c).
Proof. intros s. unfold replay_file. destruct (replay_fails env p); split; reflexivity. Qed.

Lemma ks_for_range n m : keeps_settings m -> keeps_settings (for_range n m).
Proof.
  intros Hm. induction n as [|n IH]; [apply ks_ret|].
  simpl. apply ks_bind; [exact Hm|intros _; exact IH].
Qed.

Lemma ks_drain_holder dir target : keeps_settings (drain_holder dir target).
Proof.
  intros s. unfold drain_holder. destruct (captured_image s); [|auto].
  cbv zeta. match goal with |- context [when ?b _ _] => destruct b end; auto.
Qed.

Lemma ks_sync_capture_loop env dir target fuel :
  keeps_settings (sync_capture_loop env fuel dir target).
Proof.
  induction fuel as [|fuel IH]; intros s; cbn [sync_capture_loop];
    destruct (Py.ltb _ _); auto.
  apply ks_bind; [apply ks_world_tick|]. intros _.
  apply ks_bind; [apply ks_drain_holder|]. intros _. exact IH.
Qed.

Lemma ks_async_wait_loop env start target fuel :
  keeps_settings (async_wait_loop env fuel start target).
Proof.
  induction fuel as [|fuel IH]; intros s; cbn [async_wait_loop];
    destruct (Py.ltb _ _); auto.
  apply ks_bind; [apply ks_sleep|]. intros _. exact IH.
Qed.

Lemma ks_modify f :
  (forall s, objects (f s) = objects s /\ session (f s) = session s) ->
  keeps_settings (modify f).
Proof. intros H s. apply H. Qed.

Lemma ks_capture_frames env fuel output_dir target sync_mode :
  keeps_settings (capture_frames env fuel output_dir target sync_mode).
Proof.
  unfold capture_frames, create_camera, listen, time_time.
  repeat (first [ apply ks_bind; [|intros ?]
                | apply ks_event | apply ks_print | apply ks_get | apply ks_ret
                | apply ks_modify; intros ?; split; reflexivity ]).
  destruct sync_mode;
    repeat (first [ apply ks_bind; [|intros ?]
                  | apply ks_event | apply ks_print | apply ks_get | apply ks_ret
                  | apply ks_sync_capture_loop | apply ks_async_wait_loop
                  | apply ks_modify; intros ?; split; reflexivity ]).
Qed.

(** *** Steps that leave the session on the object it was given *)

Lemma settles_keeps {A} (m : M A) o x : keeps_settings m -> settles o x m.
Proof.
  intros Hm s [Ho Hs]. unfold settled. destruct (Hm s) as [-> ->]. split; assumption.
Qed.

Lemma settles_bind {A B} (m : M A) (k : A -> M B) o x :
  settles o x m -> (forall a, settles o x (k a)) -> settles o x (bind m k).
Proof.
  intros Hm Hk s Hs. unfold bind. specialize (Hm s Hs).
  destruct (m s) as [[a|e|] s1]; cbn [snd] in *; [|exact Hm|exact Hm].
  apply Hk. exact Hm.
Qed.

Lemma settles_apply_settings o x : settles o x (apply_settings o).
Proof.
  intros s [Ho Hs]. unfold apply_settings. rewrite Ho. split; [exact Ho|reflexivity].
Qed.

Lemma settles_finally {A} (m : M A) (h : M unit) o x :
  settles o x m -> settles o x h -> settles o x (finally m h).
Proof.
  intros Hm Hh s Hs. unfold finally. specialize (Hm s Hs).
  destruct (m s) as [[a|e|] s1]; cbn [snd] in *; [| |exact Hm];
    specialize (Hh s1 Hm); destruct (h s1) as [[[]|e'|] s2]; exact Hh.
Qed.

Lemma bind_returned {A B} (m : M A) (k : A -> M B) s a s1 :
  m s = (Returned a, s1) -> bind m k s = k a s1.
Proof. intros H. unfold bind. rewrite H. reflexivity. Qed.

(** The settings block of a lock-step [run_replay], run on the object
    [get_settings] has just handed out. *)
Lemma lockstep_block o objs x0 msg s :
  objects s = objs ++ [x0] ->
  o = length objs ->
  exists s',
    bind (assign_synchronous_mode o true) (fun _ =>
    bind (assign_fixed_delta_seconds o (Some (Qmake 1 (Z.to_pos FPS)))) (fun _ =>
    bind (apply_settings o) (fun _ => print msg))) s = (Returned tt, s') /\
    settled o lockstep_settings s'.
Proof.
  intros Hobj ->.
  unfold bind, assign_synchronous_mode, assign_fixed_delta_seconds, modify, apply_settings.
  cbn [objects set_objects]. rewrite Hobj.
  rewrite !alter_app_r_alt by reflexivity. rewrite Nat.sub_diag. cbn [alter list_alter].
  rewrite lookup_app_r by reflexivity. rewrite Nat.sub_diag. cbn [lookup list_lookup].
  eexists. split; [reflexivity|]. split; cbn.
  - rewrite lookup_app_r by reflexivity. rewrite Nat.sub_diag. reflexivity.
  - reflexivity.
Qed.

(** However a lock-step [run_replay] ends once the log file was found,
    the session is left with the lock-step settings: the object applied
    at the end is the one that was modified. *)
Lemma run_replay_leaves_lockstep env log_file capture_func duration s :
  path_exists env (abspath env log_file) = true ->
  (forall target sync_mode, keeps_settings (capture_func target sync_mode)) ->
  session (snd (run_replay env log_file capture_func duration true s))
    = lockstep_settings.
Proof.
  intros He Hcap. unfold run_replay. rewrite He. cbn [negb].
  rewrite (bind_returned (print _) _ s tt _ eq_refl).
  rewrite (bind_returned get_settings _ _ _ _ eq_refl). cbv zeta.
  match goal with
  | |- context [bind (bind (assign_synchronous_mode ?o true) _) ?k ?st] =>
      destruct (lockstep_block o (objects (emit (Print (StartingReplay (abspath env log_file))) s))
                  (session s)
                  (UsingSynchronous (Py.int (Py.mul duration (Py.Int FPS)))) st
                  eq_refl eq_refl) as (s5 & Hblock & Hs5);
      rewrite (bind_returned _ k st tt s5 Hblock)
  end.
  match type of Hs5 with
  | settled ?o _ _ =>
      match goal with
      | |- session (snd (?m ?st)) = _ =>
          enough (Hfin : settles o lockstep_settings m) by exact (proj2 (Hfin st Hs5))
      end
  end.
  apply settles_bind; [apply settles_keeps, ks_replay_file|].
  intros _. apply settles_bind; [apply settles_keeps, ks_print|]. intros _.
  apply settles_bind; [apply settles_keeps, ks_for_range, ks_world_tick|]. intros _.
  apply settles_finally; [apply settles_keeps, Hcap|apply settles_apply_settings].
Qed.
(** In particular for the camera mode, whatever the server does. *)
Lemma camera_replay_leaves_lockstep env fuel log_file output_dir duration s :
  path_exists env (abspath env log_file) = true ->
  session (snd (run_replay env log_file (capture_frames env fuel output_dir)
                  duration true s))
    = lockstep_settings.
Proof.
  intros He. apply run_replay_leaves_lockstep; [exact He|].
  intros target sync_mode. apply ks_capture_frames.
Qed.
End SettingsLemmas.

Section VideoExtraLemmas.
Import ffmpeg_video VideoSpec VideoExtraSpec.

(** [create_video] reads the configuration and never assigns it. *)
Lemma create_video_keeps_config encoder st :
  BITRATE (snd (create_video encoder st)) = BITRATE st /\
  VIDEO_FILE (snd (create_video encoder st)) = VIDEO_FILE st.
Proof.
  unfold create_video.
  destruct (path_exists (fs st) SAVE_DIR); simpl; [|auto].
  destruct (glob_frames (fs st) SAVE_DIR) as [|f fl]; simpl; [auto|].
  unfold subprocess_run. simpl.
  destruct (encoder _ _) as [[rc err| |] files']; simpl; auto.
  destruct (rc =? 0)%Z; simpl; auto.
  destruct (files' !! VIDEO_FILE st); simpl; auto.
Qed.

Lemma overridden_spec bitrate output_name st :
  (match output_name with
   | Some name =>
       if Py.truthy output_name
       then set_VIDEO_FILE name (set_BITRATE bitrate st)
       else set_BITRATE bitrate st
   | None => set_BITRATE bitrate st
   end) = overridden bitrate output_name st.
Proof. destruct output_name as [[|c n]|]; reflexivity. Qed.

Lemma substring_all s : String.substring 0 (String.length s) s = s.
Proof. induction s as [|c s IH]; simpl; [reflexivity|now rewrite IH]. Qed.

Lemma substring_skip s t n :
  String.substring (String.length s) n (s +:+ t) = String.substring 0 n t.
Proof. induction s as [|c s IH]; simpl; [reflexivity|exact IH]. Qed.

Lemma string_length_app s t :
  String.length (s +:+ t) = String.length s + String.length t.
Proof. induction s as [|c s IH]; simpl; [reflexivity|now rewrite IH]. Qed.

Lemma prefix_app s t : String.prefix s (s +:+ t) = true.
Proof.
  induction s as [|c s IH]; simpl; [destruct t; reflexivity|].
  destruct (Ascii.ascii_dec c c) as [_|Hne]; [exact IH|congruence].
Qed.

Lemma frame_name_matches n : matches_frame_pattern (frame_name n) = true.
Proof.
  unfold matches_frame_pattern, frame_name.
  set (x := Py.format_06d n).
  assert (Hrest : String.substring 6 (String.length ("frame_" +:+ x +:+ ".jpg") - 6)
                    ("frame_" +:+ x +:+ ".jpg") = x +:+ ".jpg").
  { simpl. change ("" +:+ x +:+ ".jpg") with (x +:+ ".jpg").
    rewrite Nat.sub_0_r. apply substring_all. }
  cbv zeta. rewrite Hrest.
  assert (Hpre : String.prefix "frame_" ("frame_" +:+ x +:+ ".jpg") = true)
    by apply prefix_app.
  rewrite Hpre, string_length_app. cbn [String.length andb].
  replace (String.length x + 4 - 4) with (String.length x) by lia.
  rewrite substring_skip.
  replace (4 <=? String.length x + 4) with true by (symmetry; apply Nat.leb_le; lia).
  reflexivity.
Qed.

(** What the wrapper leaves on the console and launches is what
    [create_video] does under the overrides. *)
Lemma create_video_with_bitrate_out encoder bitrate output_name st :
  out (snd (create_video_with_bitrate encoder bitrate output_name st))
  = out (snd (create_video encoder (overridden bitrate output_name st))).
Proof.
  unfold create_video_with_bitrate. rewrite overridden_spec.
  destruct (create_video encoder (overridden bitrate output_name st)) as [[b|] st1];
    reflexivity.
Qed.
End VideoExtraLemmas.

Section CaptureExtraLemmas.
Import Sim Ops CaptureSpec ReplaySpec CaptureExtraSpec replay_with_sensors.

(** One buffer through a saving callback. *)
Lemma saving_callback_step cb dir img s :
  cb = SaveImage dir \/ cb = RecorderSaveImage false dir ->
  saved (trace (run_callback cb img s))
    = saved (trace s) ++ [(frame_filename dir (frame_count s), img)] /\
  frame_count (run_callback cb img s) = frame_count s + 1 /\
  clock (run_callback cb img s) = clock s.
Proof.
  intros [-> | ->]; cbn [run_callback]; unfold save_image, recorder_save_image; cbv zeta;
    match goal with |- context [if ?b then _ else _] => destruct b end;
    cbn [trace frame_count clock emit set_frame_count];
    rewrite ?saved_app; simpl; rewrite ?app_nil_r; auto.
Qed.

Lemma saving_callback_fold cb dir imgs :
  cb = SaveImage dir \/ cb = RecorderSaveImage false dir ->
  forall s,
    let s' := fold_left (fun st img => run_callback cb img st) imgs s in
    saved (trace s')
      = saved (trace s)
        ++ combine (map (frame_filename dir) (seq (frame_count s) (length imgs))) imgs /\
    frame_count s' = frame_count s + length imgs /\
    clock s' = clock s.
Proof.
  intros Hcb. induction imgs as [|img imgs IH]; intros s; cbn zeta.
  - simpl. rewrite app_nil_r. auto.
  - cbn [fold_left].
    destruct (IH (run_callback cb img s)) as (H1 & H2 & H3).
    destruct (saving_callback_step cb dir img s Hcb) as (G1 & G2 & G3).
    rewrite H1, H2, H3, G1, G2, G3. cbn [length seq map combine].
    rewrite <- app_assoc, Nat.add_1_r. repeat split; simpl; lia.
Qed.

(** One polling attempt that does not fail. *)
Lemma poll_step_ok (env : Env) (sync_mode : bool) (s : State) :
  (sync_mode = true -> tick_fails env (clock s) = false) ->
  exists s',
    (if sync_mode then world_tick env else sleep env (1 # 10)%Q) s = (Returned tt, s') /\
    clock s' = S (clock s).
Proof.
  intros Hok. destruct sync_mode; unfold world_tick, sleep.
  - rewrite Hok by reflexivity. eexists. split; [reflexivity|].
    now rewrite (proj1 (deliver_polls _ _)).
  - eexists. split; [reflexivity|]. now rewrite (proj1 (deliver_polls _ _)).
Qed.

Lemma wait_for_vehicles_sighting env sync_mode vs :
  vs <> [] ->
  forall n fuel wa s,
    wa + S n <= max_wait_attempts ->
    (forall j, j < n -> vehicles env (clock s + S j) = []) ->
    vehicles env (clock s + S n) = vs ->
    (sync_mode = true -> forall j, j <= n -> tick_fails env (clock s + j) = false) ->
    S n <= fuel ->
    exists s',
      wait_for_vehicles env fuel sync_mode [] wa s = (Returned (vs, wa + S n), s') /\
      clock s' = clock s + S n.
Proof.
  intros Hvs. induction n as [|n IH]; intros fuel wa s Hwa Hnone Hsome Hticks Hfuel;
    (destruct fuel as [|fuel]; [lia|]); cbn [wait_for_vehicles];
    (replace (wa <? max_wait_attempts) with true by (symmetry; apply Nat.ltb_lt; lia));
    cbn [is_empty andb];
    (destruct (poll_step_ok env sync_mode s) as (s1 & Hp & Hck);
      [intros E; rewrite <- (Nat.add_0_r (clock s)); apply (Hticks E); lia|]);
    unfold bind at 1; rewrite Hp;
    unfold bind at 1; unfold get_vehicles, get;
    (assert (Hw : exists s2,
               when ((wa + 1) mod 10 =? 0) (print (StillWaiting (wa + 1))) s1
                 = (Returned tt, s2) /\ clock s2 = clock s1)
      by (unfold when; destruct ((wa + 1) mod 10 =? 0); eexists; split; reflexivity));
    destruct Hw as (s2 & Hw & Hck2); unfold bind; rewrite Hw.
  - rewrite Hck, <- Nat.add_1_r, Hsome.
    exists s2. split; [|lia].
    destruct vs as [|v vs']; [congruence|].
    destruct fuel; reflexivity.
  - rewrite Hck, <- Nat.add_1_r, (Hnone 0) by lia.
    destruct (IH fuel (wa + 1) s2) as (s' & Hrun & Hck'); try lia.
    + intros j Hj. rewrite Hck2, Hck. replace (S (clock s) + S j) with (clock s + S (S j)) by lia.
      apply Hnone. lia.
    + rewrite Hck2, Hck. replace (S (clock s) + S n) with (clock s + S (S n)) by lia.
      exact Hsome.
    + intros E j Hj. rewrite Hck2, Hck.
      replace (S (clock s) + j) with (clock s + S j) by lia. apply (Hticks E). lia.
    + exists s'. split; [|lia]. rewrite Hrun. do 3 f_equal. lia.
Qed.
End CaptureExtraLemmas.

Section SettingsExtraLemmas.
Import Sim Ops CaptureSpec ReplaySpec SettingsSpec SettingsExtraSpec replay_with_sensors.

Lemma restores_bind {A B} (m : M A) (k : A -> M B) o x :
  keeps_settings m -> (forall a, restores o x (k a)) -> restores o x (bind m k).
Proof.
  intros Hm Hk s Ho. unfold bind. destruct (Hm s) as [Hobj Hses].
  destruct (m s) as [[a|e|] s1]; cbn [fst snd] in *; try exact Hses.
  specialize (Hk a s1). rewrite Hobj in Hk. specialize (Hk Ho).
  destruct (fst (k a s1)); rewrite Hk; congruence.
Qed.

Lemma restores_apply_settings o x : restores o x (apply_settings o).
Proof. intros s Ho. unfold apply_settings. rewrite Ho. reflexivity. Qed.

Lemma restores_recorder_epilogue o x : restores o x (recorder_epilogue o).
Proof.
  unfold recorder_epilogue.
  apply restores_bind; [apply ks_get|]. intros fc.
  apply restores_bind; [apply ks_print|]. intros _.
  repeat (apply restores_bind; [apply ks_event|]; intros _).
  apply restores_apply_settings.
Qed.

(** The settings block of a lock-step run, with the store it leaves. *)
Lemma lockstep_block_store o objs x0 msg s :
  objects s = objs ++ [x0] ->
  o = length objs ->
  exists s',
    bind (assign_synchronous_mode o true) (fun _ =>
    bind (assign_fixed_delta_seconds o (Some (Qmake 1 (Z.to_pos FPS)))) (fun _ =>
    bind (apply_settings o) (fun _ => print msg))) s = (Returned tt, s') /\
    objects s' = objs ++ [lockstep_settings] /\
    session s' = lockstep_settings /\
    clock s' = clock s /\ listener s' = listener s /\
    frame_count s' = frame_count s /\ captured_image s' = captured_image s /\
    saved (trace s') = saved (trace s).
Proof.
  intros Hobj ->.
  unfold bind, assign_synchronous_mode, assign_fixed_delta_seconds, modify, apply_settings.
  cbn [objects set_objects]. rewrite Hobj.
  rewrite !alter_app_r_alt by reflexivity. rewrite Nat.sub_diag. cbn [alter list_alter].
  rewrite lookup_app_r by reflexivity. rewrite Nat.sub_diag. cbn [lookup list_lookup].
  eexists. split; [reflexivity|]. cbn.
  rewrite !saved_app. simpl. rewrite !app_nil_r. repeat split.
Qed.

(** The settings block of a wall-clock [run_replay]. *)
Lemma wallclock_block o objs x0 msg s :
  objects s = objs ++ [x0] ->
  o = length objs ->
  exists s',
    bind (assign_synchronous_mode o false) (fun _ =>
    bind (apply_settings o) (fun _ => print msg)) s = (Returned tt, s') /\
    settled o (mkSettings false (fixed_delta_seconds x0)) s'.
Proof.
  intros Hobj ->.
  unfold bind, assign_synchronous_mode, modify, apply_settings.
  cbn [objects set_objects]. rewrite Hobj.
  rewrite !alter_app_r_alt by reflexivity. rewrite Nat.sub_diag. cbn [alter list_alter].
  rewrite lookup_app_r by reflexivity. rewrite Nat.sub_diag. cbn [lookup list_lookup].
  eexists. split; [reflexivity|]. split; cbn.
  - rewrite lookup_app_r by reflexivity. rewrite Nat.sub_diag. reflexivity.
  - reflexivity.
Qed.

Lemma run_replay_leaves_wallclock env log_file capture_func duration s :
  path_exists env (abspath env log_file) = true ->
  (forall target sync_mode, keeps_settings (capture_func target sync_mode)) ->
  session (snd (run_replay env log_file capture_func duration false s))
    = mkSettings false (fixed_delta_seconds (session s)).
Proof.
  intros He Hcap. unfold run_replay. rewrite He. cbn [negb].
  rewrite (bind_returned (print _) _ s tt _ eq_refl).
  rewrite (bind_returned get_settings _ _ _ _ eq_refl). cbv zeta.
  match goal with
  | |- context [bind (bind (assign_synchronous_mode ?o false) _) ?k ?st] =>
      destruct (wallclock_block o (objects (emit (Print (StartingReplay (abspath env log_file))) s))
                  (session s) (UsingAsynchronous duration) st
                  eq_refl eq_refl) as (s5 & Hblock & Hs5);
      rewrite (bind_returned _ k st tt s5 Hblock)
  end.
  match type of Hs5 with
  | settled ?o ?x _ =>
      match goal with
      | |- session (snd (?m ?st)) = _ =>
          enough (Hfin : settles o x m) by exact (proj2 (Hfin st Hs5))
      end
  end.
  apply settles_bind; [apply settles_keeps, ks_replay_file|].
  intros _. apply settles_bind; [apply settles_keeps, ks_print|]. intros _.
  apply settles_bind; [apply settles_keeps, ks_sleep|]. intros _.
  apply settles_finally; [apply settles_keeps, Hcap|apply settles_apply_settings].
Qed.
End SettingsExtraLemmas.

Section RecorderLemmas.
Import Sim Ops CaptureSpec ReplaySpec SettingsSpec SettingsExtraSpec.

Lemma bind_bind_returned {A B C} (m : M A) (k1 : A -> M B) (k2 : B -> M C) s a s1 :
  m s = (Returned a, s1) -> bind (bind m k1) k2 s = bind (k1 a) k2 s1.
Proof. intros H. unfold bind. rewrite H. reflexivity. Qed.

(** [main] of the recorder up to its recording loop: the state in which
    the loop starts, and what remains to be done after it. *)
Lemma main_reaches_loop env fuel s :
  exists s0,
    record_images.main env fuel s
      = bind (sync_capture_loop env fuel record_images.SAVE_DIR (Py.Int 100))
             (fun _ => recorder_epilogue (length (objects s))) s0 /\
    objects s0 !! length (objects s) = Some default_settings /\
    session s0 = lockstep_settings /\
    holding s0 /\
    captured_image s0 = None /\
    frame_count s0 = 0 /\
    clock s0 = clock s /\
    saved (trace s0) = saved (trace s).
Proof.
  unfold record_images.main.
  rewrite (bind_returned (load_world _) _ s tt _ eq_refl).
  rewrite (bind_returned get_settings _ _ _ _ eq_refl).
  set (s1 := set_objects _ _).
  assert (Hblock : exists s3,
    bind get_settings (fun settings =>
      bind (assign_synchronous_mode settings true) (fun _ =>
      bind (assign_fixed_delta_seconds settings
              (Some (Qmake 1 (Z.to_pos record_images.FPS)))) (fun _ =>
      bind (apply_settings settings) (fun _ =>
      print (UsingSynchronous (record_images.RECORD_TIME * record_images.FPS)))))) s1
    = (Returned tt, s3) /\
    objects s3 = (objects s ++ [default_settings]) ++ [lockstep_settings] /\
    session s3 = lockstep_settings /\
    clock s3 = clock s /\ listener s3 = listener s /\
    saved (trace s3) = saved (trace s)).
  { rewrite (bind_returned get_settings _ _ _ _ eq_refl).
    destruct (lockstep_block_store (length (objects s1)) (objects s ++ [default_settings])
                default_settings
                (UsingSynchronous (record_images.RECORD_TIME * record_images.FPS))
                (set_objects (objects s1 ++ [session s1]) s1) eq_refl eq_refl)
      as (s3 & Hrun & Hobj & Hses & Hck & Hl & _ & _ & Hsv).
    exists s3. split; [exact Hrun|]. repeat split; try assumption.
    rewrite Hsv. subst s1. cbn. rewrite saved_app. simpl. apply app_nil_r. }
  destruct Hblock as (s3 & Hblock & Hobj & Hses & Hck & Hl & Hsv).
  change (if record_images.SYNCHRONOUS_MODE then ?a else ?b) with a.
  rewrite (bind_returned _ _ s1 tt s3 Hblock).
  repeat (rewrite (bind_returned (event _) _ _ tt _ eq_refl)
          || rewrite (bind_returned (modify _) _ _ tt _ eq_refl)).
  rewrite (bind_bind_returned (print _) _ _ _ tt _ eq_refl).
  eexists. split; [reflexivity|]. cbn.
  rewrite Hobj, Hses, Hck, !saved_app, Hsv. simpl. rewrite !app_nil_r.
  repeat split.
  - rewrite <- app_assoc. apply list_lookup_middle. reflexivity.
  - right. eexists. reflexivity.
Qed.
End RecorderLemmas.

Section CameraModeLemmas.
Import Sim Ops CaptureSpec ReplaySpec SettingsSpec SettingsExtraSpec replay_with_sensors.

(** Ticks taken while no callback is registered: the buffers of these
    steps reach nobody. *)
Lemma warm_up_ticks env :
  forall n s,
    listener s = None ->
    (forall k, clock s <= k < clock s + n -> tick_fails env k = false) ->
    exists s',
      for_range n (world_tick env) s = (Returned tt, s') /\
      clock s' = clock s + n /\
      listener s' = None /\
      frame_count s' = frame_count s /\
      captured_image s' = captured_image s /\
      objects s' = objects s /\
      saved (trace s') = saved (trace s).
Proof.
  induction n as [|n IH]; intros s Hl Hticks.
  - exists s. repeat split; auto.
  - cbn [for_range]. unfold bind, world_tick.
    rewrite (Hticks (clock s)) by lia.
    rewrite deliver_no_listener by exact Hl.
    destruct (IH (emit Tick (set_clock (S (clock s)) s))) as
      (s' & Hrun & Hck & Hl' & Hfc & Hci & Hobj & Hsv).
    + exact Hl.
    + intros k Hk. apply Hticks. simpl in Hk. lia.
    + exists s'. split; [exact Hrun|]. simpl in *.
      rewrite Hsv, saved_app. simpl. rewrite app_nil_r. repeat split; auto; lia.
Qed.

(** A lock-step [run_replay] with the camera capture, on a server that
    answers and delivers. *)
Lemma run_replay_captures env fuel T N log_file dir duration s :
  path_exists env (abspath env log_file) = true ->
  replay_fails env (abspath env log_file) = false ->
  Py.int (Py.mul duration (Py.Int FPS)) = Z.of_nat N ->
  listener s = None ->
  captured_image s = None ->
  frame_count s = 0 ->
  (forall k, clock s <= k < clock s + 10 + T -> tick_fails env k = false) ->
  N <= deliveries env (clock s + 10) T ->
  T <= fuel ->
  exists s',
    run_replay env log_file (capture_frames env fuel dir) duration true s
      = (Returned tt, s') /\
    map fst (saved (trace s'))
      = map fst (saved (trace s)) ++ map (frame_filename dir) (seq 0 N) /\
    frame_count s' = N.
Proof.
  intros He Hr HN Hl Hci Hfc Hticks Hdel Hfuel.
  unfold run_replay. rewrite He. cbn [negb].
  rewrite (bind_returned (print _) _ s tt _ eq_refl).
  rewrite (bind_returned get_settings _ _ _ _ eq_refl). cbv zeta.
  match goal with
  | |- context [bind (bind (assign_synchronous_mode ?o true) _) ?k ?st] =>
      destruct (lockstep_block_store o
                  (objects (emit (Print (StartingReplay (abspath env log_file))) s))
                  (session s)
                  (UsingSynchronous (Py.int (Py.mul duration (Py.Int FPS)))) st
                  eq_refl eq_refl)
        as (s5 & Hblock & Hobj5 & _ & Hck5 & Hl5 & Hfc5 & Hci5 & Hsv5);
      rewrite (bind_returned _ k st tt s5 Hblock)
  end.
  cbn in Hck5, Hl5, Hfc5, Hci5, Hsv5, Hobj5.
  rewrite saved_app in Hsv5. simpl in Hsv5. rewrite app_nil_r in Hsv5.
  assert (Hrf : replay_file env (abspath env log_file) (Py.Int 0) (Py.Int 0) 0%Z s5
                = (Returned tt, emit (ReplayFile (abspath env log_file) (Py.Int 0) (Py.Int 0) 0%Z) s5)).
  { unfold replay_file. rewrite Hr. reflexivity. }
  rewrite (bind_returned _ _ s5 tt _ Hrf).
  rewrite (bind_returned (print _) _ _ tt _ eq_refl).
  set (s6 := emit (Print WaitingForReplay) _).
  destruct (warm_up_ticks env 10 s6) as (s7 & Hwarm & Hck7 & Hl7 & Hfc7 & Hci7 & Hobj7 & Hsv7).
  { subst s6. cbn. congruence. }
  { intros k Hk. apply Hticks. subst s6. cbn in Hk. lia. }
  rewrite (bind_returned _ _ s6 tt s7 Hwarm).
  rewrite HN. unfold finally, capture_frames, create_camera, listen, time_time.
  repeat (rewrite (bind_bind_returned (event _) _ _ _ tt _ eq_refl)
          || rewrite (bind_returned (event _) _ _ tt _ eq_refl)
          || rewrite (bind_returned (modify _) _ _ tt _ eq_refl)
          || rewrite (bind_returned (ret _) _ _ _ _ eq_refl)
          || rewrite (bind_returned (get _) _ _ _ _ eq_refl)
          || rewrite (bind_returned (print _) _ _ tt _ eq_refl)).
  match goal with
  | |- context [sync_capture_loop env fuel dir (Py.Int (Z.of_nat N)) ?st] =>
      set (s8 := st)
  end.
  assert (Hck8 : clock s8 = clock s + 10).
  { subst s8 s6. cbn in *. lia. }
  assert (Hsv8 : saved (trace s8) = saved (trace s)).
  { subst s8. cbn. rewrite !saved_app. simpl. rewrite !app_nil_r, Hsv7.
    subst s6. cbn. rewrite !saved_app. simpl. rewrite !app_nil_r. exact Hsv5. }
  assert (Hobj8 : objects s8 = objects s ++ [lockstep_settings]).
  { subst s8. cbn. rewrite Hobj7. subst s6. cbn. exact Hobj5. }
  destruct (sync_capture_loop_total env dir N T fuel s8) as
    (s9 & new & Hrun & Htr & Hnames & _ & Hfc9 & _ & _ & _).
  { left. reflexivity. }
  { subst s8 s6. cbn in *. congruence. }
  { subst s8 s6. cbn in *. lia. }
  { intros k Hk. apply Hticks. lia. }
  { rewrite Hck8. subst s8 s6. cbn in *. lia. }
  { exact Hfuel. }
  rewrite Hrun.
  assert (Hobj9 : objects s9 !! length (objects s) = Some lockstep_settings).
  { pose proof (ks_sync_capture_loop env dir (Py.Int (Z.of_nat N)) fuel s8) as [H _].
    rewrite Hrun in H. cbn [snd] in H. rewrite H, Hobj8.
    apply list_lookup_middle. reflexivity. }
  unfold apply_settings. cbn [objects emit]. rewrite Hobj9.
  eexists. split; [reflexivity|]. cbn.
  rewrite saved_app. simpl. rewrite app_nil_r, Htr, saved_app, map_app, Hnames, Hsv8.
  assert (Hfc8 : frame_count s8 = 0) by (subst s8 s6; cbn in *; lia).
  rewrite Hfc8, Nat.sub_0_r. split; [reflexivity|exact Hfc9].
Qed.
End CameraModeLemmas.

Section ReplayExtraLemmas.
Import Sim Ops CaptureSpec ReplaySpec SettingsSpec ReplayExtraSpec replay_with_sensors.

Lemma run_callback_extends cb img s :
  exists evs, trace (run_callback cb img s) = trace s ++ evs.
Proof.
  destruct cb as [|d|[|] d]; cbn [run_callback]; unfold on_image, save_image,
    recorder_save_image; cbv zeta;
    try (exists []; cbn; now rewrite app_nil_r);
    match goal with |- context [if ?b then _ else _] => destruct b end;
    cbn; rewrite <- ?app_assoc; eauto.
Qed.

Lemma deliver_extends imgs s :
  exists evs, trace (deliver imgs s) = trace s ++ evs.
Proof.
  unfold deliver. destruct (listener s) as [cb|]; [|exists []; now rewrite app_nil_r].
  revert s. induction imgs as [|img imgs IH]; intros s; simpl.
  - exists []. now rewrite app_nil_r.
  - destruct (IH (run_callback cb img s)) as [evs2 ->].
    destruct (run_callback_extends cb img s) as [evs1 ->].
    exists (evs1 ++ evs2). now rewrite app_assoc.
Qed.

(** The settings blocks of [run_replay], with what they leave on the
    trace. *)
Lemma lockstep_block_trace o objs x0 msg s :
  objects s = objs ++ [x0] ->
  o = length objs ->
  exists s',
    bind (assign_synchronous_mode o true) (fun _ =>
    bind (assign_fixed_delta_seconds o (Some (Qmake 1 (Z.to_pos FPS)))) (fun _ =>
    bind (apply_settings o) (fun _ => print msg))) s = (Returned tt, s') /\
    trace s' = trace s ++ [ApplySettings lockstep_settings; Print msg].
Proof.
  intros Hobj ->.
  unfold bind, assign_synchronous_mode, assign_fixed_delta_seconds, modify, apply_settings.
  cbn [objects set_objects]. rewrite Hobj.
  rewrite !alter_app_r_alt by reflexivity. rewrite Nat.sub_diag. cbn [alter list_alter].
  rewrite lookup_app_r by reflexivity. rewrite Nat.sub_diag. cbn [lookup list_lookup].
  eexists. split; [reflexivity|]. cbn. now rewrite <- app_assoc.
Qed.

Lemma wallclock_block_trace o objs x0 msg s :
  objects s = objs ++ [x0] ->
  o = length objs ->
  exists s',
    bind (assign_synchronous_mode o false) (fun _ =>
    bind (apply_settings o) (fun _ => print msg)) s = (Returned tt, s') /\
    trace s' = trace s ++ [ApplySettings (mkSettings false (fixed_delta_seconds x0)); Print msg].
Proof.
  intros Hobj ->.
  unfold bind, assign_synchronous_mode, modify, apply_settings.
  cbn [objects set_objects]. rewrite Hobj.
  rewrite !alter_app_r_alt by reflexivity. rewrite Nat.sub_diag. cbn [alter list_alter].
  rewrite lookup_app_r by reflexivity. rewrite Nat.sub_diag. cbn [lookup list_lookup].
  eexists. split; [reflexivity|]. cbn. now rewrite <- app_assoc.
Qed.
End ReplayExtraLemmas.

Section CameraLemmas.
Import Sim Ops CaptureSpec ReplaySpec CameraSpec replay_with_sensors.

Lemma spawned_app evs1 evs2 : spawned (evs1 ++ evs2) = spawned evs1 + spawned evs2.
Proof.
  induction evs1 as [|e evs1 IH]; [reflexivity|].
  destruct e; simpl; rewrite ?IH; reflexivity.
Qed.

Lemma destroyed_app evs1 evs2 : destroyed (evs1 ++ evs2) = destroyed evs1 + destroyed evs2.
Proof.
  induction evs1 as [|e evs1 IH]; [reflexivity|].
  destruct e; simpl; rewrite ?IH; try reflexivity. lia.
Qed.

Lemma cf_ret {A} (a : A) : camera_free (ret a).
Proof. intros s. repeat split. Qed.

Lemma cf_bind {A B} (m : M A) (k : A -> M B) :
  camera_free m -> (forall a, camera_free (k a)) -> camera_free (bind m k).
Proof.
  intros Hm Hk s. unfold bind. specialize (Hm s).
  destruct (m s) as [[a|e|] s1]; cbn [snd] in *; [|exact Hm|exact Hm].
  destruct (Hk a s1) as (-> & -> & ->). exact Hm.
Qed.

Lemma cf_get {A} (f : State -> A) : camera_free (get f).
Proof. intros s. repeat split. Qed.

Lemma cf_emit e :
  spawned [e] = 0 -> destroyed [e] = 0 -> camera_free (modify (emit e)).
Proof.
  intros H1 H2 s. cbn. rewrite spawned_app, destroyed_app, H1, H2. repeat split; lia.
Qed.

Lemma cf_print m : camera_free (print m).
Proof. apply cf_emit; reflexivity. Qed.

Lemma cf_when b m : camera_free m -> camera_free (when b m).
Proof. destruct b; [auto|intros _; apply cf_ret]. Qed.

Lemma cf_modify f :
  (forall s, camera (f s) = camera s /\ trace (f s) = trace s) ->
  camera_free (modify f).
Proof. intros H s. cbn. destruct (H s) as [-> ->]. repeat split. Qed.

Lemma run_callback_camera cb img s :
  camera (run_callback cb img s) = camera s /\
  spawned (trace (run_callback cb img s)) = spawned (trace s) /\
  destroyed (trace (run_callback cb img s)) = destroyed (trace s).
Proof.
  destruct cb as [|d|[|] d]; cbn [run_callback]; unfold on_image, save_image,
    recorder_save_image; cbv zeta; try (repeat split; fail);
    match goal with |- context [if ?b then _ else _] => destruct b end;
    cbn; rewrite ?spawned_app, ?destroyed_app; simpl; repeat split; lia.
Qed.

Lemma deliver_camera imgs s :
  camera (deliver imgs s) = camera s /\
  spawned (trace (deliver imgs s)) = spawned (trace s) /\
  destroyed (trace (deliver imgs s)) = destroyed (trace s).
Proof.
  unfold deliver. destruct (listener s) as [cb|]; [|auto].
  revert s. induction imgs as [|img imgs IH]; intros s; simpl; [auto|].
  destruct (IH (run_callback cb img s)) as (-> & -> & ->). apply run_callback_camera.
Qed.

Lemma cf_world_tick env : camera_free (world_tick env).
Proof.
  intros s. unfold world_tick. destruct (tick_fails env (clock s)); cbn [snd].
  - cbn. rewrite spawned_app, destroyed_app. simpl. repeat split; lia.
  - destruct (deliver_camera (images env (clock s)) (emit Tick (set_clock (S (clock s)) s)))
      as (-> & -> & ->).
    cbn. rewrite spawned_app, destroyed_app. simpl. repeat split; lia.
Qed.

Lemma cf_sleep env d : camera_free (sleep env d).
Proof.
  intros s. unfold sleep. cbn [snd].
  destruct (deliver_camera (images env (clock s)) (emit (Sleep d) (set_clock (S (clock s)) s)))
    as (-> & -> & ->).
  cbn. rewrite spawned_app, destroyed_app. simpl. repeat split; lia.
Qed.

Lemma cf_replay_file env p a b c : camera_free (replay_file env p a b c).
Proof.
  intros s. unfold replay_file. destruct (replay_fails env p); cbn;
    rewrite spawned_app, destroyed_app; simpl; repeat split; lia.
Qed.

Lemma cf_for_range n m : camera_free m -> camera_free (for_range n m).
Proof.
  intros Hm. induction n as [|n IH]; [apply cf_ret|].
  simpl. apply cf_bind; [exact Hm|intros _; exact IH].
Qed.

Lemma cf_get_settings : camera_free get_settings.
Proof. intros s. repeat split. Qed.

Lemma cf_apply_settings o : camera_free (apply_settings o).
Proof.
  intros s. unfold apply_settings. destruct (objects s !! o); cbn; [|auto].
  rewrite spawned_app, destroyed_app. simpl. repeat split; lia.
Qed.

Lemma cf_drain_holder dir target : camera_free (drain_holder dir target).
Proof.
  intros s. unfold drain_holder. destruct (captured_image s); [|repeat split].
  cbv zeta. match goal with |- context [when ?b _ _] => destruct b end;
    cbn; rewrite ?spawned_app, ?destroyed_app; simpl; repeat split; lia.
Qed.

Lemma cf_sync_capture_loop env dir target fuel :
  camera_free (sync_capture_loop env fuel dir target).
Proof.
  induction fuel as [|fuel IH]; intros s; cbn [sync_capture_loop];
    destruct (Py.ltb _ _); try (repeat split; fail).
  apply cf_bind; [apply cf_world_tick|]. intros _.
  apply cf_bind; [apply cf_drain_holder|]. intros _. exact IH.
Qed.

Lemma cf_async_wait_loop env start target fuel :
  camera_free (async_wait_loop env fuel start target).
Proof.
  induction fuel as [|fuel IH]; intros s; cbn [async_wait_loop];
    destruct (Py.ltb _ _); try (repeat split; fail).
  apply cf_bind; [apply cf_sleep|]. intros _. exact IH.
Qed.

Lemma cf_wait_for_vehicles env sync_mode fuel :
  forall vs wa, camera_free (wait_for_vehicles env fuel sync_mode vs wa).
Proof.
  induction fuel as [|fuel IH]; intros vs wa; cbn [wait_for_vehicles];
    destruct (is_empty vs && (wa <? max_wait_attempts));
    try apply cf_ret; try (intros s; repeat split; fail).
  apply cf_bind; [destruct sync_mode; [apply cf_world_tick|apply cf_sleep]|].
  intros _. apply cf_bind; [apply cf_get|]. intros vs1.
  apply cf_bind; [apply cf_when, cf_print|]. intros _. apply IH.
Qed.

(** *** Holding the camera *)

Lemma hc_camera_free {A} (m : M A) : camera_free m -> holds_its_camera m.
Proof.
  intros Hm s Hc. destruct (Hm s) as (H1 & H2 & H3).
  split; [exact H3|]. left. split; congruence.
Qed.

Lemma camera_since_free {A} (m : M A) s0 s :
  camera_free m -> camera_since s0 s -> camera_since s0 (snd (m s)).
Proof.
  intros Hm [Hd Hs]. destruct (Hm s) as (H1 & H2 & H3).
  unfold camera_since. rewrite H1, H2, H3. split; assumption.
Qed.

Lemma hc_bind {A B} (m : M A) (k : A -> M B) :
  camera_free m -> (forall a, holds_its_camera (k a)) -> holds_its_camera (bind m k).
Proof.
  intros Hm Hk s Hc. unfold bind. destruct (Hm s) as (H1 & H2 & H3).
  destruct (m s) as [[a|e|] s1]; cbn [snd] in *;
    try (split; [exact H3|left; split; congruence]).
  destruct (Hk a s1) as [Hd Hs]; [congruence|].
  unfold camera_since. rewrite <- H2, <- H3. split; assumption.
Qed.

Lemma hc_finally {A} (m : M A) (h : M unit) :
  holds_its_camera m -> camera_free h -> holds_its_camera (finally m h).
Proof.
  intros Hm Hh s Hc. unfold finally. specialize (Hm s Hc).
  destruct (m s) as [[a|e|] s1]; cbn [snd] in *; [| |exact Hm];
    pose proof (camera_since_free h s s1 Hh Hm) as H;
    destruct (h s1) as [[[]|e'|] s2]; exact H.
Qed.

(** Spawning the camera and taking hold of it, then camera-free work. *)
Lemma hc_spawn (sync_mode : bool) (attach_to : option ActorId) (rest : M unit) :
  camera_free rest ->
  holds_its_camera
    (bind (create_camera sync_mode attach_to) (fun cam =>
     bind (modify (set_camera (Some cam))) (fun _ => rest))).
Proof.
  intros Hrest s Hc.
  unfold create_camera. 
  rewrite (bind_bind_returned (event _) _ _ s tt _ eq_refl).
  rewrite (bind_returned (ret _) _ _ _ _ eq_refl).
  rewrite (bind_returned (modify _) _ _ tt _ eq_refl).
  match goal with |- camera_since _ (snd (rest ?st)) => set (s1 := st) end.
  apply (camera_since_free rest s s1 Hrest).
  subst s1. split; cbn.
  - rewrite destroyed_app. simpl. lia.
  - right. split; [reflexivity|]. rewrite spawned_app. simpl. lia.
Qed.

Lemma hc_capture_frames env fuel output_dir target sync_mode :
  holds_its_camera (capture_frames env fuel output_dir target sync_mode).
Proof.
  unfold capture_frames. apply hc_spawn.
  apply cf_bind; [apply cf_get|]. intros t0.
  apply cf_bind; [apply cf_modify; intros s; split; reflexivity|]. intros _.
  destruct sync_mode; unfold listen.
  - apply cf_bind; [apply cf_bind; [apply cf_emit; reflexivity|]|].
    { intros _. apply cf_modify. intros s; split; reflexivity. }
    intros _. apply cf_bind; [apply cf_print|]. intros _. apply cf_sync_capture_loop.
  - apply cf_bind; [apply cf_bind; [apply cf_emit; reflexivity|]|].
    { intros _. apply cf_modify. intros s; split; reflexivity. }
    intros _. apply cf_bind; [apply cf_print|]. intros _. apply cf_async_wait_loop.
Qed.

Lemma hc_follow_vehicle env wait_fuel fuel output_dir target sync_mode :
  holds_its_camera (follow_vehicle env wait_fuel fuel output_dir target sync_mode).
Proof.
  unfold follow_vehicle.
  apply hc_bind; [apply cf_print|]. intros _.
  apply hc_bind; [apply cf_wait_for_vehicles|]. intros [vs wa]. cbn [fst].
  destruct vs as [|v vs]; cbn [is_empty first_vehicle]; [apply hc_camera_free, cf_print|].
  apply hc_bind; [apply cf_ret|]. intros target_vehicle.
  apply hc_spawn.
  apply cf_bind; [apply cf_get|]. intros t0.
  apply cf_bind; [apply cf_modify; intros s; split; reflexivity|]. intros _.
  destruct sync_mode; unfold listen.
  - apply cf_bind; [apply cf_bind; [apply cf_emit; reflexivity|]|].
    { intros _. apply cf_modify. intros s; split; reflexivity. }
    intros _. apply cf_bind; [apply cf_print|]. intros _. apply cf_sync_capture_loop.
  - apply cf_bind; [apply cf_bind; [apply cf_emit; reflexivity|]|].
    { intros _. apply cf_modify. intros s; split; reflexivity. }
    intros _. apply cf_bind; [apply cf_print|]. intros _. apply cf_async_wait_loop.
Qed.

Lemma hc_run_replay env log_file capture_func duration sync_mode :
  (forall target mode, holds_its_camera (capture_func target mode)) ->
  holds_its_camera (run_replay env log_file capture_func duration sync_mode).
Proof.
  intros Hcap. unfold run_replay.
  destruct (negb (path_exists env (abspath env log_file))); [apply hc_camera_free, cf_print|].
  apply hc_bind; [apply cf_print|]. intros _.
  apply hc_bind; [apply cf_get_settings|]. intros o. cbv zeta.
  apply hc_bind.
  { destruct sync_mode;
      repeat (apply cf_bind; [|intros _]);
      try apply cf_print; try apply cf_apply_settings;
      apply cf_modify; intros s; split; reflexivity. }
  intros _. apply hc_bind; [apply cf_replay_file|]. intros _.
  apply hc_bind; [apply cf_print|]. intros _.
  apply hc_bind.
  { destruct sync_mode; [apply cf_for_range, cf_world_tick|apply cf_sleep]. }
  intros _. apply hc_finally; [|apply cf_apply_settings].
  destruct sync_mode; apply Hcap.
Qed.
End CameraLemmas.

Section FollowLemmas.
Import Sim Ops CaptureSpec ReplaySpec FollowSpec replay_with_sensors.

Lemma idle_ret {A} (a : A) : idle (ret a).
Proof. intros s Hl. auto. Qed.

Lemma idle_bind {A B} (m : M A) (k : A -> M B) :
  idle m -> (forall a, idle (k a)) -> idle (bind m k).
Proof.
  intros Hm Hk s Hl. unfold bind. specialize (Hm s Hl).
  destruct (m s) as [[a| |] s1]; cbn [snd] in *; [|exact Hm|exact Hm].
  destruct Hm as (H1 & H2 & H3 & H4).
  destruct (Hk a s1 H1) as (G1 & G2 & G3 & G4).
  rewrite G2, G3, G4. auto.
Qed.

Lemma idle_get {A} (f : State -> A) : idle (get f).
Proof. intros s Hl. auto. Qed.

Lemma idle_print m : idle (print m).
Proof.
  intros s Hl. unfold print, event, modify. cbn. rewrite saved_app. simpl.
  rewrite app_nil_r. auto.
Qed.

Lemma idle_when b m : idle m -> idle (when b m).
Proof. intros H. destruct b; [exact H|apply idle_ret]. Qed.

Lemma idle_world_tick env : idle (world_tick env).
Proof.
  intros s Hl. unfold world_tick.
  destruct (tick_fails env (clock s)); cbn [snd];
    rewrite ?deliver_no_listener by exact Hl;
    cbn; rewrite saved_app; simpl; rewrite app_nil_r; auto.
Qed.

Lemma idle_sleep env d : idle (sleep env d).
Proof.
  intros s Hl. unfold sleep. cbn [snd].
  rewrite deliver_no_listener by exact Hl.
  cbn. rewrite saved_app. simpl. rewrite app_nil_r. auto.
Qed.

Lemma idle_wait_for_vehicles env sync_mode fuel :
  forall vs wa, idle (wait_for_vehicles env fuel sync_mode vs wa).
Proof.
  induction fuel as [|fuel IH]; intros vs wa; cbn [wait_for_vehicles];
    destruct (is_empty vs && (wa <? max_wait_attempts)); try apply idle_ret.
  - intros s Hl. auto.
  - apply idle_bind; [destruct sync_mode; [apply idle_world_tick|apply idle_sleep]|].
    intros _. apply idle_bind; [apply idle_get|]. intros vs'.
    apply idle_bind; [apply idle_when, idle_print|]. intros _. apply IH.
Qed.

End FollowLemmas.

Section WallclockLemmas.
Import Sim Ops CaptureSpec ReplaySpec CaptureExtraSpec WallclockSpec replay_with_sensors.

Lemma run_callback_listener cb img s : listener (run_callback cb img s) = listener s.
Proof.
  destruct cb as [|d|[|] d]; cbn [run_callback]; unfold on_image, save_image,
    recorder_save_image; cbv zeta; try reflexivity;
    match goal with |- context [if ?b then _ else _] => destruct b end; reflexivity.
Qed.

Lemma fold_callback_listener cb imgs :
  forall s, listener (fold_left (fun st img => run_callback cb img st) imgs s) = listener s.
Proof.
  induction imgs as [|img imgs IH]; intros s; cbn [fold_left]; [reflexivity|].
  rewrite IH. apply run_callback_listener.
Qed.

Lemma combine_append {A B} (l1 l2 : list A) (k1 k2 : list B) :
  length l1 = length k1 ->
  combine (l1 ++ l2) (k1 ++ k2) = combine l1 k1 ++ combine l2 k2.
Proof.
  revert k1. induction l1 as [|a l1 IH]; intros [|b k1] H; try discriminate; cbn.
  - reflexivity.
  - f_equal. apply IH. cbn in H. lia.
Qed.

(** One sleep with a saving callback registered. *)
Lemma sleep_saves env d dir s :
  saving_to dir s ->
  exists s1,
    sleep env d s = (Returned tt, s1) /\
    saving_to dir s1 /\
    clock s1 = S (clock s) /\
    frame_count s1 = frame_count s + length (images env (clock s)) /\
    saved (trace s1)
      = saved (trace s)
        ++ combine (map (frame_filename dir)
                        (seq (frame_count s) (length (images env (clock s)))))
                   (images env (clock s)).
Proof.
  intros Hs. unfold sleep. eexists. split; [reflexivity|].
  set (s0 := emit (Sleep d) (set_clock (S (clock s)) s)).
  assert (Hcb : exists cb, listener s0 = Some cb /\
                           (cb = SaveImage dir \/ cb = RecorderSaveImage false dir)).
  { destruct Hs as [H|H]; eexists; (split; [exact H|auto]). }
  destruct Hcb as (cb & Hl & Hcb).
  unfold deliver. rewrite Hl.
  destruct (saving_callback_fold cb dir (images env (clock s)) Hcb s0) as (H1 & H2 & H3).
  split; [|split; [|split]].
  - unfold saving_to. rewrite fold_callback_listener, Hl.
    destruct Hcb as [-> | ->]; auto.
  - rewrite H3. reflexivity.
  - rewrite H2. reflexivity.
  - rewrite H1. subst s0. cbn. rewrite saved_app. simpl. rewrite app_nil_r. reflexivity.
Qed.

End WallclockLemmas.

Section LogLemmas.
Import log_recorder LogSpec.
Local Open Scope log_scope.

Lemma count_app p evs1 evs2 : count p (evs1 ++ evs2) = count p evs1 + count p evs2.
Proof. unfold count. rewrite List.filter_app, length_app. reflexivity. Qed.

Lemma slept_app evs1 evs2 : slept (evs1 ++ evs2) = (slept evs1 + slept evs2)%Z.
Proof.
  induction evs1 as [|e evs1 IH]; [reflexivity|].
  destruct e; simpl; rewrite ?IH; lia.
Qed.

Lemma printed_app evs1 evs2 : printed (evs1 ++ evs2) = printed evs1 ++ printed evs2.
Proof. apply omap_app. Qed.

Lemma printed_map_Print msgs : printed (map Print msgs) = msgs.
Proof. induction msgs as [|m msgs IH]; [reflexivity|]. cbn. f_equal. exact IH. Qed.

Lemma count_map_Print p msgs :
  (forall m, p (Print m) = false) -> count p (map Print msgs) = 0.
Proof.
  intros Hp. unfold count.
  induction msgs as [|m msgs IH]; [reflexivity|]. simpl. rewrite Hp. exact IH.
Qed.

Lemma bind_returns {A B} (m : M A) (k : A -> M B) s a s1 :
  m s = (Returns a, s1) -> bind m k s = k a s1.
Proof. intros H. unfold bind. rewrite H. reflexivity. Qed.

Lemma bind_raises {A B} (m : M A) (k : A -> M B) s e s1 :
  m s = (Raises e, s1) -> bind m k s = (Raises e, s1).
Proof. intros H. unfold bind. rewrite H. reflexivity. Qed.

(** *** The operating system and the server *)

Lemma makedirs_returns w dir s :
  makedirs_ok w (fs s) dir = true ->
  makedirs w dir s
    = (Returns tt, mkState (with_dir dir (fs s)) (recording s) (out s ++ [MakeDirs dir])).
Proof.
  unfold makedirs_ok, with_dir, makedirs, bind, event, modify, get. cbn.
  destruct (fs s !! dir) as [[size|names]|]; cbn; try discriminate; [reflexivity|].
  destruct (makedirs_denied w dir); [discriminate|reflexivity].
Qed.

Lemma makedirs_raises w dir s :
  makedirs_ok w (fs s) dir = false ->
  makedirs w dir s = (Raises OSError, emit (MakeDirs dir) s).
Proof.
  unfold makedirs_ok, makedirs, bind, event, modify, get. cbn.
  destruct (fs s !! dir) as [[size|names]|]; cbn; try discriminate; [reflexivity|].
  destruct (makedirs_denied w dir); [reflexivity|discriminate].
Qed.

Lemma with_dir_exists dir files :
  ffmpeg_video.path_exists (with_dir dir files) dir = true.
Proof.
  unfold ffmpeg_video.path_exists, with_dir.
  destruct (files !! dir) eqn:E; [rewrite E; reflexivity|].
  rewrite lookup_insert_eq. reflexivity.
Qed.

Lemma with_dir_keeps dir files p node :
  files !! p = Some node -> with_dir dir files !! p = Some node.
Proof.
  intros H. unfold with_dir. destruct (files !! dir) eqn:E; [exact H|].
  rewrite lookup_insert_ne; [exact H|]. intros ->. congruence.
Qed.

Lemma start_recorder_returns w path s :
  start_recorder_fails w path = false ->
  start_recorder w path s
    = (Returns tt, mkState (recorded w path (fs s)) (Some path)
                           (out s ++ [StartRecorder path])).
Proof.
  intros H. unfold start_recorder, recorded, bind, event, modify, get. cbn. rewrite H.
  cbn. destruct (recorder_file w path); reflexivity.
Qed.

Lemma start_recorder_raises w path s :
  start_recorder_fails w path = true ->
  start_recorder w path s = (Raises RuntimeError, emit (StartRecorder path) s).
Proof.
  intros H. unfold start_recorder, bind, event, modify. cbn. rewrite H. reflexivity.
Qed.

(** *** The recording loop *)

Lemma recording_loop duration xs s :
  for_each xs (fun i => sleep 1 ;; print (RecordingProgress (i + 1) duration)) s
    = (Returns tt,
       mkState (fs s) (recording s)
         (out s ++ flat_map (fun i => [Sleep 1; Print (RecordingProgress (i + 1) duration)])
                            xs)).
Proof.
  revert s. induction xs as [|x xs IH]; intros s.
  - cbn. rewrite app_nil_r. destruct s; reflexivity.
  - cbn [for_each flat_map]. unfold bind at 1. unfold bind at 1.
    unfold sleep, print, event, modify. rewrite IH. cbn.
    rewrite <- !app_assoc. reflexivity.
Qed.

Lemma loop_count p duration xs :
  (forall z, p (Sleep z) = false) ->
  (forall m, p (Print m) = false) ->
  count p (flat_map (fun i => [Sleep 1; Print (RecordingProgress (i + 1) duration)]) xs)
    = 0.
Proof.
  intros Hs Hp. unfold count.
  induction xs as [|x xs IH]; [reflexivity|]. simpl. rewrite Hs, Hp. exact IH.
Qed.

Lemma loop_slept duration xs :
  slept (flat_map (fun i => [Sleep 1; Print (RecordingProgress (i + 1) duration)]) xs)
    = Z.of_nat (length xs).
Proof.
  induction xs as [|x xs IH]; [reflexivity|].
  cbn [flat_map length app slept]. rewrite IH. lia.
Qed.

Lemma range_length n : Z.of_nat (length (range n)) = Z.max 0 n.
Proof. unfold range. rewrite length_map, length_seq. lia. Qed.

(** *** The final report *)

Lemma items_printed names s :
  for_each names (fun item => print (Item item)) s
    = (Returns tt,
       mkState (fs s) (recording s) (out s ++ map (fun n => Print (Item n)) names)).
Proof.
  revert s. induction names as [|n names IH]; intros s.
  - cbn. rewrite app_nil_r. destruct s; reflexivity.
  - cbn [for_each map]. unfold bind at 1. unfold print, event, modify. rewrite IH. cbn.
    rewrite <- app_assoc. reflexivity.
Qed.

Lemma report_recording_returns w path s :
  exists msgs,
    report_recording w path s
      = (Returns tt, mkState (fs s) (recording s) (out s ++ map Print msgs)) /\
    match fs s !! path with
    | Some node =>
        exists size,
          size = match node with
                 | ffmpeg_video.File n => n
                 | ffmpeg_video.Dir _ => dir_size w path
                 end /\
          msgs = [RecordingSaved path; FileSize size]
                 ++ (if (size =? 0)%Z then [FileIsEmpty] else [])
    | None =>
        exists listing,
          msgs = RecordingNotCreated path :: DirectoryContents (dirname w path) :: listing
    end.
Proof.
  unfold report_recording, exists_, getsize, bind, get, ffmpeg_video.path_exists.
  destruct (fs s !! path) as [node|] eqn:E; cbn.
  - rewrite E. set (size := match node with
                            | ffmpeg_video.File n => n
                            | ffmpeg_video.Dir _ => dir_size w path
                            end).
    exists ([RecordingSaved path; FileSize size]
            ++ (if (size =? 0)%Z then [FileIsEmpty] else [])).
    split; [|exists size; split; reflexivity].
    destruct node as [n|names]; subst size; cbn;
      match goal with |- context [(?z =? 0)%Z] => destruct (z =? 0)%Z end;
      unfold when, print, event, modify, ret, emit; cbn; rewrite <- ?app_assoc; reflexivity.
  - unfold try_except, listdir, bind, get, print, event, modify. cbn.
    destruct (fs s !! dirname w path) as [[n|names]|] eqn:Ed; cbn.
    + exists [RecordingNotCreated path; DirectoryContents (dirname w path);
              ErrorListingDirectory].
      split; [unfold emit; cbn; rewrite <- !app_assoc; reflexivity|eauto].
    + pose proof (items_printed names) as Hi. unfold print, event, modify in Hi.
      rewrite Hi. cbn.
      exists (RecordingNotCreated path :: DirectoryContents (dirname w path)
              :: map Item names).
      split; [|eauto]. unfold emit. cbn. rewrite <- !app_assoc, map_map. reflexivity.
    + exists [RecordingNotCreated path; DirectoryContents (dirname w path);
              ErrorListingDirectory].
      split; [unfold emit; cbn; rewrite <- !app_assoc; reflexivity|eauto].
Qed.

(** *** The three ways through [record_log] *)

Lemma record_log_prologue w duration f s (k : bool -> M unit) :
  makedirs_ok w (fs s) (dirname w (abspath w f)) = true ->
  bind (makedirs w (dirname w (abspath w f))) (fun _ =>
  bind (print (StartingRecording duration)) (fun _ =>
  bind (print (RecordingTo (abspath w f))) (fun _ =>
  bind (exists_ (dirname w (abspath w f))) (fun dir_exists =>
  bind (print (DirectoryExists dir_exists)) (fun _ =>
  bind (print (DirectoryWritable (access_W_OK w (dirname w (abspath w f))))) (fun _ =>
  bind (exists_ (abspath w f)) (fun file_exists =>
  bind (when file_exists (print (WillBeOverwritten (abspath w f)))) (fun _ =>
  bind (print StartingRecorder) (fun _ =>
  bind (try_except
          (bind (start_recorder w (abspath w f)) (fun _ =>
           bind (print RecorderStarted) (fun _ => ret true)))
          (bind (print ErrorStartingRecorder) (fun _ => ret false))) k))))))))) s
  = bind (try_except
            (bind (start_recorder w (abspath w f)) (fun _ =>
             bind (print RecorderStarted) (fun _ => ret true)))
            (bind (print ErrorStartingRecorder) (fun _ => ret false))) k
      (mkState (with_dir (dirname w (abspath w f)) (fs s)) (recording s)
               (out s ++ prologue w duration (abspath w f) (fs s))).
Proof.
  intros Hm. rewrite (bind_returns _ _ _ _ _ (makedirs_returns _ _ _ Hm)).
  unfold prologue.
  set (p := abspath w f). set (d := dirname w p).
  unfold bind at 1. unfold print at 1. unfold event, modify at 1.
  unfold bind at 1. unfold print at 1. unfold event, modify at 1.
  unfold bind at 1. unfold exists_ at 1. unfold get at 1. cbn [fs emit].
  rewrite with_dir_exists.
  unfold bind at 1. unfold print at 1. unfold event, modify at 1.
  unfold bind at 1. unfold print at 1. unfold event, modify at 1.
  unfold bind at 1. unfold exists_ at 1. unfold get at 1. cbn [fs emit].
  destruct (ffmpeg_video.path_exists (with_dir d (fs s)) p).
  - unfold bind at 1. unfold when, print at 1. unfold event, modify at 1.
    unfold bind at 1. unfold print at 1. unfold event, modify at 1.
    unfold emit. cbn. rewrite <- !app_assoc. reflexivity.
  - unfold bind at 1. unfold when, ret at 1.
    unfold bind at 1. unfold print at 1. unfold event, modify at 1.
    unfold emit. cbn. rewrite <- !app_assoc. reflexivity.
Qed.

Lemma try_start_returns w path s :
  start_recorder_fails w path = false ->
  try_except
    (bind (start_recorder w path) (fun _ =>
     bind (print RecorderStarted) (fun _ => ret true)))
    (bind (print ErrorStartingRecorder) (fun _ => ret false)) s
  = (Returns true,
     mkState (recorded w path (fs s)) (Some path)
             (out s ++ [StartRecorder path; Print RecorderStarted])).
Proof.
  intros H. unfold try_except.
  rewrite (bind_returns _ _ _ _ _ (start_recorder_returns w path s H)).
  unfold bind, print, event, modify, ret, emit. cbn. rewrite <- app_assoc. reflexivity.
Qed.

Lemma try_start_raises w path s :
  start_recorder_fails w path = true ->
  try_except
    (bind (start_recorder w path) (fun _ =>
     bind (print RecorderStarted) (fun _ => ret true)))
    (bind (print ErrorStartingRecorder) (fun _ => ret false)) s
  = (Returns false,
     mkState (fs s) (recording s)
             (out s ++ [StartRecorder path; Print ErrorStartingRecorder])).
Proof.
  intros H. unfold try_except.
  rewrite (bind_raises _ _ _ _ _ (start_recorder_raises w path s H)).
  unfold bind, print, event, modify, ret, emit. cbn. rewrite <- app_assoc. reflexivity.
Qed.

Lemma try_stop_returns w s :
  try_except (bind (stop_recorder w) (fun _ => print RecorderStopped))
             (print ErrorStoppingRecorder) s
  = (Returns tt,
     mkState (fs s)
             (if stop_recorder_fails w then recording s else None)
             (out s ++ [StopRecorder;
                        Print (if stop_recorder_fails w
                               then ErrorStoppingRecorder else RecorderStopped)])).
Proof.
  unfold try_except, stop_recorder, bind, print, event, modify, raise, emit. cbn.
  destruct (stop_recorder_fails w); cbn; rewrite <- app_assoc; reflexivity.
Qed.

Lemma record_log_start_raises w duration f s :
  makedirs_ok w (fs s) (dirname w (abspath w f)) = true ->
  start_recorder_fails w (abspath w f) = true ->
  record_log w duration f s
    = (Returns tt,
       mkState (with_dir (dirname w (abspath w f)) (fs s)) (recording s)
               (out s ++ prologue w duration (abspath w f) (fs s)
                ++ [StartRecorder (abspath w f); Print ErrorStartingRecorder])).
Proof.
  intros Hm Hs. unfold record_log. cbv zeta.
  rewrite (record_log_prologue w duration f s _ Hm).
  rewrite (bind_returns _ _ _ _ _ (try_start_raises w _ _ Hs)).
  cbn. rewrite <- app_assoc. reflexivity.
Qed.

Lemma record_log_spawn_raises w duration f s :
  makedirs_ok w (fs s) (dirname w (abspath w f)) = true ->
  start_recorder_fails w (abspath w f) = false ->
  spawned_vehicle w = None ->
  exists evs,
    record_log w duration f s
      = (Raises (spawn_error w),
         mkState (recorded w (abspath w f) (with_dir (dirname w (abspath w f)) (fs s)))
                 (Some (abspath w f))
                 (out s ++ prologue w duration (abspath w f) (fs s)
                  ++ [StartRecorder (abspath w f); Print RecorderStarted] ++ evs)) /\
    (evs = [] \/ exists bp sp, evs = [SpawnActor bp sp]).
Proof.
  intros Hm Hs Hv. unfold record_log. cbv zeta.
  rewrite (record_log_prologue w duration f s _ Hm).
  rewrite (bind_returns _ _ _ _ _ (try_start_returns w _ _ Hs)).
  cbn [negb]. unfold spawned_vehicle in Hv. unfold spawn_error.
  destruct (blueprints w "vehicle.tesla.model3") as [|bp bps].
  { exists []. split; [|left; reflexivity].
    unfold bind, first, raise. cbn. rewrite <- !app_assoc. reflexivity. }
  destruct (spawn_points w) as [|sp sps].
  { exists []. split; [|left; reflexivity].
    unfold bind, first, raise, ret. cbn. rewrite <- !app_assoc. reflexivity. }
  exists [SpawnActor bp sp]. split; [|right; eauto].
  unfold bind, first, raise, ret, spawn, event, modify, emit. cbn. rewrite Hv.
  rewrite <- !app_assoc. reflexivity.
Qed.

Lemma record_log_recorded w duration f s bp bps sp sps vehicle :
  makedirs_ok w (fs s) (dirname w (abspath w f)) = true ->
  start_recorder_fails w (abspath w f) = false ->
  blueprints w "vehicle.tesla.model3" = bp :: bps ->
  spawn_points w = sp :: sps ->
  spawn_actor w bp sp = Some vehicle ->
  record_log w duration f s
    = report_recording w (abspath w f)
        (mkState (recorded w (abspath w f) (with_dir (dirname w (abspath w f)) (fs s)))
                 (if stop_recorder_fails w then Some (abspath w f) else None)
                 (out s ++ prologue w duration (abspath w f) (fs s)
                  ++ [StartRecorder (abspath w f); Print RecorderStarted;
                      SpawnActor bp sp; SetAutopilot vehicle true;
                      Print (VehicleSpawned vehicle); Print (RecordingFor duration)]
                  ++ flat_map (fun i => [Sleep 1; Print (RecordingProgress (i + 1) duration)])
                              (range duration)
                  ++ [Print StoppingRecorder; StopRecorder;
                      Print (if stop_recorder_fails w
                             then ErrorStoppingRecorder else RecorderStopped)])).
Proof.
  intros Hm Hs Hbp Hsp Hv. unfold record_log. cbv zeta.
  rewrite (record_log_prologue w duration f s _ Hm).
  rewrite (bind_returns _ _ _ _ _ (try_start_returns w _ _ Hs)).
  cbn [negb]. rewrite Hbp, Hsp.
  rewrite (bind_returns (first (bp :: bps)) _ _ bp _ eq_refl).
  rewrite (bind_returns (first (sp :: sps)) _ _ sp _ eq_refl).
  match goal with
  | |- bind (spawn w bp sp) _ ?st = _ =>
      rewrite (bind_returns (spawn w bp sp) _ st vehicle (emit (SpawnActor bp sp) st))
  end.
  2:{ unfold spawn, bind, event, modify, ret. cbn. rewrite Hv. reflexivity. }
  rewrite (bind_returns (event _) _ _ tt _ eq_refl).
  rewrite (bind_returns (print _) _ _ tt _ eq_refl).
  rewrite (bind_returns (print _) _ _ tt _ eq_refl).
  rewrite (bind_returns _ _ _ _ _ (recording_loop duration (range duration) _)).
  rewrite (bind_returns (print _) _ _ tt _ eq_refl).
  rewrite (bind_returns _ _ _ _ _ (try_stop_returns w _)).
  unfold emit. cbn. rewrite <- !app_assoc. reflexivity.
Qed.

End LogLemmas.

(** * The claims *)

Section VideoTheorems.
Import ffmpeg_video VideoSpec.

(** C6.  When the source directory holds no file matching the frame
    pattern, or does not exist, [create_video] returns [False], prints
    one diagnostic, launches no encoder and leaves the filesystem as it
    was, so no output file appears. *)
Theorem create_video_without_frames (encoder : Encoder) (st : State) :
  no_frames (fs st) SAVE_DIR ->
  exists m st',
    create_video encoder st = (Return false, st') /\
    (m = DirectoryDoesNotExist SAVE_DIR \/ m = NoImageFilesFound SAVE_DIR) /\
    out st' = out st ++ [Print m] /\
    launches (out st') = launches (out st) /\
    fs st' = fs st /\
    path_exists (fs st') (VIDEO_FILE st) = path_exists (fs st) (VIDEO_FILE st).
Proof.
  intros H. unfold create_video.
  destruct (path_exists (fs st) SAVE_DIR); simpl.
  - rewrite (glob_frames_nil _ _ H).
    exists (NoImageFilesFound SAVE_DIR), (print (NoImageFilesFound SAVE_DIR) st).
    repeat split; auto. simpl. rewrite launches_app. simpl. apply app_nil_r.
  - exists (DirectoryDoesNotExist SAVE_DIR), (print (DirectoryDoesNotExist SAVE_DIR) st).
    repeat split; auto. simpl. rewrite launches_app. simpl. apply app_nil_r.
Qed.

Lemma create_video_without_frames_witness :
  (exists m st',
     create_video working_encoder (initial empty_dir) = (Return false, st') /\
     (m = DirectoryDoesNotExist SAVE_DIR \/ m = NoImageFilesFound SAVE_DIR) /\
     out st' = out (initial empty_dir) ++ [Print m] /\
     launches (out st') = launches (out (initial empty_dir)) /\
     fs st' = fs (initial empty_dir) /\
     path_exists (fs st') (VIDEO_FILE (initial empty_dir))
       = path_exists (fs (initial empty_dir)) (VIDEO_FILE (initial empty_dir))) /\
  (exists m st',
     create_video working_encoder (initial ∅) = (Return false, st') /\
     (m = DirectoryDoesNotExist SAVE_DIR \/ m = NoImageFilesFound SAVE_DIR) /\
     out st' = out (initial ∅) ++ [Print m] /\
     launches (out st') = launches (out (initial ∅)) /\
     fs st' = fs (initial ∅) /\
     path_exists (fs st') (VIDEO_FILE (initial ∅))
       = path_exists (fs (initial ∅)) (VIDEO_FILE (initial ∅))).
Proof.
  split.
  - apply (create_video_without_frames working_encoder (initial empty_dir)).
    exact no_frames_empty_dir.
  - apply (create_video_without_frames working_encoder (initial ∅)).
    exact no_frames_absent.
Defined.

(** C7.  The three failure kinds end in [False] with their own
    diagnostic: no input frames (before any launch), encoder not
    installed, encoder exited with a non-zero status; in the last case
    the encoder's stderr text is printed. *)
Theorem create_video_failure_kinds (encoder : Encoder) (st : State) :
  (path_exists (fs st) SAVE_DIR = true ->
   glob_frames (fs st) SAVE_DIR = [] ->
   exists st',
     create_video encoder st = (Return false, st') /\
     out st' = out st ++ [Print (NoImageFilesFound SAVE_DIR)]) /\
  (forall files',
   path_exists (fs st) SAVE_DIR = true ->
   glob_frames (fs st) SAVE_DIR <> [] ->
   encoder (ffmpeg_cmd st) (fs st) = (NotInstalled, files') ->
   exists st',
     create_video encoder st = (Return false, st') /\
     out st' = out st ++
       [Print (FoundImages (length (glob_frames (fs st) SAVE_DIR)));
        Run (ffmpeg_cmd st);
        Print FfmpegNotFound]) /\
  (forall returncode stderr files',
   path_exists (fs st) SAVE_DIR = true ->
   glob_frames (fs st) SAVE_DIR <> [] ->
   encoder (ffmpeg_cmd st) (fs st) = (Exited returncode stderr, files') ->
   returncode <> 0%Z ->
   exists st',
     create_video encoder st = (Return false, st') /\
     out st' = out st ++
       [Print (FoundImages (length (glob_frames (fs st) SAVE_DIR)));
        Run (ffmpeg_cmd st);
        Print (FfmpegFailed returncode);
        Print (ErrorOutput stderr)]) /\
  (forall d returncode stderr,
   NoImageFilesFound d <> FfmpegNotFound /\
   NoImageFilesFound d <> FfmpegFailed returncode /\
   NoImageFilesFound d <> ErrorOutput stderr /\
   FfmpegNotFound <> FfmpegFailed returncode /\
   FfmpegNotFound <> ErrorOutput stderr).
Proof.
  repeat split; try discriminate.
  - intros He Hg. unfold create_video. rewrite He, Hg. simpl. eauto.
  - intros files' He Hg Hrun. unfold create_video. rewrite He. simpl.
    destruct (glob_frames (fs st) SAVE_DIR) as [|f fl] eqn:E; [congruence|].
    unfold subprocess_run. simpl.
    change (ffmpeg_cmd (print _ st)) with (ffmpeg_cmd st).
    rewrite Hrun. simpl. eexists; split; [reflexivity|].
    simpl. rewrite <- !app_assoc. reflexivity.
  - intros rc err files' He Hg Hrun Hrc. unfold create_video. rewrite He. simpl.
    destruct (glob_frames (fs st) SAVE_DIR) as [|f fl] eqn:E; [congruence|].
    unfold subprocess_run. simpl.
    change (ffmpeg_cmd (print _ st)) with (ffmpeg_cmd st).
    rewrite Hrun. simpl.
    destruct (Z.eqb_spec rc 0) as [->|_]; [congruence|].
    eexists; split; [reflexivity|].
    simpl. rewrite <- !app_assoc. reflexivity.
Qed.

Lemma create_video_failure_kinds_witness :
  (exists st',
     create_video working_encoder (initial empty_dir) = (Return false, st') /\
     out st' = [Print (NoImageFilesFound SAVE_DIR)]) /\
  (exists st',
     create_video missing_encoder (initial two_frames) = (Return false, st') /\
     out st' = [Print (FoundImages 2); Run (ffmpeg_cmd (initial two_frames));
                Print FfmpegNotFound]) /\
  (exists st',
     create_video failing_encoder (initial two_frames) = (Return false, st') /\
     out st' = [Print (FoundImages 2); Run (ffmpeg_cmd (initial two_frames));
                Print (FfmpegFailed 1);
                Print (ErrorOutput "frame_%06d.jpg: No such file or directory")]).
Proof.
  split; [|split].
  - apply (create_video_failure_kinds working_encoder (initial empty_dir));
      vm_compute; reflexivity.
  - apply (proj1 (proj2 (create_video_failure_kinds missing_encoder (initial two_frames)))
             two_frames); vm_compute; [reflexivity|discriminate|reflexivity].
  - apply (proj1 (proj2 (proj2 (create_video_failure_kinds failing_encoder
                                   (initial two_frames))))
             1%Z "frame_%06d.jpg: No such file or directory" two_frames);
      vm_compute; [reflexivity|discriminate|reflexivity|discriminate].
Defined.

(** C8.  The argument list handed to the encoder is a function of the
    configuration alone: two runs with the same bitrate and output
    name, whatever their filesystems and encoders, launch the encoder
    with the same list, which holds the overwrite flag, the input
    pattern [frame_%06d.jpg] in the frame directory, and the configured
    frame rate and bitrate. *)
Theorem encoder_invocation_deterministic
    (encoder1 encoder2 : Encoder) (st1 st2 : State) (cmd1 cmd2 : list string) :
  BITRATE st1 = BITRATE st2 ->
  VIDEO_FILE st1 = VIDEO_FILE st2 ->
  out st1 = [] -> out st2 = [] ->
  cmd1 ∈ launches (out (snd (create_video encoder1 st1))) ->
  cmd2 ∈ launches (out (snd (create_video encoder2 st2))) ->
  cmd1 = cmd2 /\
  cmd1 = [ "ffmpeg"; "-y"; "-framerate"; "20"; "-i";
           "output_images/frame_%06d.jpg"; "-b:v"; BITRATE st1; "-r"; "20";
           VIDEO_FILE st1 ].
Proof.
  intros Hb Hv Ho1 Ho2 H1 H2.
  assert (E1 : cmd1 = ffmpeg_cmd st1).
  { destruct (create_video_launches encoder1 st1) as [E|E];
      rewrite E, Ho1 in H1; simpl in H1; apply list_elem_of_In in H1;
      simpl in H1; intuition congruence. }
  assert (E2 : cmd2 = ffmpeg_cmd st2).
  { destruct (create_video_launches encoder2 st2) as [E|E];
      rewrite E, Ho2 in H2; simpl in H2; apply list_elem_of_In in H2;
      simpl in H2; intuition congruence. }
  subst cmd1 cmd2. unfold ffmpeg_cmd. rewrite Hb, Hv. split; reflexivity.
Qed.

Lemma encoder_invocation_deterministic_witness :
  ffmpeg_cmd (initial two_frames) = ffmpeg_cmd (initial three_frames) /\
  ffmpeg_cmd (initial two_frames) =
    [ "ffmpeg"; "-y"; "-framerate"; "20"; "-i";
      "output_images/frame_%06d.jpg"; "-b:v"; "5M"; "-r"; "20";
      "carla_output.mp4" ].
Proof.
  apply (encoder_invocation_deterministic working_encoder failing_encoder
           (initial two_frames) (initial three_frames)); try reflexivity;
    vm_compute; apply list_elem_of_here.
Defined.

(** C10.  When the wrapped [create_video] returns, so does
    [create_video_with_bitrate], with the same success flag, and
    [BITRATE] and [VIDEO_FILE] hold their values from before the call,
    whatever overrides were passed. *)
Theorem create_video_with_bitrate_restores (encoder : Encoder)
    (bitrate : string) (output_name : option string) (st st_mid : State)
    (success : bool) :
  create_video encoder (overridden bitrate output_name st) = (Return success, st_mid) ->
  exists st',
    create_video_with_bitrate encoder bitrate output_name st = (Return success, st') /\
    BITRATE st' = BITRATE st /\
    VIDEO_FILE st' = VIDEO_FILE st /\
    fs st' = fs st_mid /\
    out st' = out st_mid.
Proof.
  intros H. unfold create_video_with_bitrate.
  assert (E : (match output_name with
               | Some name =>
                   if Py.truthy output_name
                   then set_VIDEO_FILE name (set_BITRATE bitrate st)
                   else set_BITRATE bitrate st
               | None => set_BITRATE bitrate st
               end) = overridden bitrate output_name st).
  { destruct output_name as [[|c n]|]; reflexivity. }
  rewrite E, H. eexists; repeat split.
Qed.

Lemma create_video_with_bitrate_restores_witness :
  exists st',
    create_video_with_bitrate working_encoder "10M" (Some "high_quality.mp4")
      (initial two_frames) = (Return true, st') /\
    BITRATE st' = "5M" /\
    VIDEO_FILE st' = "carla_output.mp4" /\
    fs st' = <["high_quality.mp4" := File 1024]> two_frames /\
    out st' =
      [Print (FoundImages 2);
       Run [ "ffmpeg"; "-y"; "-framerate"; "20"; "-i";
             "output_images/frame_%06d.jpg"; "-b:v"; "10M"; "-r"; "20";
             "high_quality.mp4" ];
       Print (VideoCreated "high_quality.mp4");
       Print (VideoSize (File 1024))].
Proof.
  destruct (create_video_with_bitrate_restores working_encoder "10M"
              (Some "high_quality.mp4") (initial two_frames)
              (snd (create_video working_encoder
                      (overridden "10M" (Some "high_quality.mp4") (initial two_frames))))
              true) as (st' & H1 & H2 & H3 & H4 & H5).
  - vm_compute. reflexivity.
  - exists st'. repeat split; [exact H1|exact H2|exact H3| |].
    + rewrite H4. vm_compute. reflexivity.
    + rewrite H5. vm_compute. reflexivity.
Defined.
End VideoTheorems.

Section CaptureTheorems.
Import Sim Ops CaptureSpec.




(** C3.  In the lock-step loop, a tick after which the holder is empty
    is followed by another iteration with the counter unchanged and no
    file written; a tick after which the holder is full advances the
    counter by one, writes that frame and clears the holder.  When no
    buffer ever arrives the loop keeps ticking: after any number [n] of
    iterations it has ticked [n] times, written nothing, and is still
    running. *)
Theorem empty_tick_reticks (env : Env) (fuel : nat) (dir : string)
    (target : Py.Num) (s : State) :
  Py.ltb (Py.Int (Z.of_nat (frame_count s))) target = true ->
  tick_fails env (clock s) = false ->
  holding s ->
  (captured_image (after_tick env s) = None ->
     sync_capture_loop env (S fuel) dir target s
       = sync_capture_loop env fuel dir target (after_tick env s) /\
     frame_count (after_tick env s) = frame_count s /\
     trace (after_tick env s) = trace s ++ [Tick]) /\
  (forall img, captured_image (after_tick env s) = Some img ->
     exists s2 report,
       sync_capture_loop env (S fuel) dir target s
         = sync_capture_loop env fuel dir target s2 /\
       frame_count s2 = frame_count s + 1 /\
       captured_image s2 = None /\
       trace s2 = trace s ++
         Tick :: SaveToDisk (frame_filename dir (frame_count s)) img :: report /\
       saved report = []) /\
  ((forall k, clock s <= k -> images env k = [] /\ tick_fails env k = false) ->
   captured_image s = None ->
   forall n, exists s',
     sync_capture_loop env n dir target s = (Running, s') /\
     frame_count s' = frame_count s /\
     clock s' = clock s + n /\
     trace s' = trace s ++ replicate n Tick /\
     saved (trace s') = saved (trace s)).
Proof.
  intros Hlt Htick Hh. split; [|split].
  - intros Hnone. rewrite sync_capture_loop_step by assumption.
    unfold bind. rewrite drain_holder_empty by exact Hnone.
    split; [reflexivity|].
    rewrite after_tick_holding by exact Hh. split; reflexivity.
  - intros img Hsome. rewrite sync_capture_loop_step by assumption.
    destruct (drain_holder_full dir target (after_tick env s) img Hsome)
      as (s2 & report & Hd & Hfc & Hci & _ & _ & _ & Htr & Hrep).
    exists s2, report. unfold bind. rewrite Hd.
    split; [reflexivity|].
    rewrite after_tick_holding in Hfc, Htr by exact Hh. simpl in Hfc, Htr.
    repeat split; try assumption.
    + rewrite Htr, <- app_assoc. reflexivity.
    + destruct Hrep as [->|[m ->]]; reflexivity.
  - intros Henv Hc n. apply sync_capture_loop_starved; assumption.
Qed.

Lemma empty_tick_reticks_witness :
  (sync_capture_loop skipping_env 3 "out" (Py.Int 2) listening
     = sync_capture_loop skipping_env 2 "out" (Py.Int 2) (after_tick skipping_env listening) /\
   frame_count (after_tick skipping_env listening) = 0 /\
   trace (after_tick skipping_env listening) = [Tick]) /\
  (exists s2 report,
     sync_capture_loop base_env 3 "out" (Py.Int 2) listening
       = sync_capture_loop base_env 2 "out" (Py.Int 2) s2 /\
     frame_count s2 = 1 /\
     captured_image s2 = None /\
     trace s2 = Tick :: SaveToDisk "out/frame_000000.jpg" 0 :: report /\
     saved report = []) /\
  (exists s',
     sync_capture_loop starved_env 7 "out" (Py.Int 2) listening = (Running, s') /\
     frame_count s' = 0 /\
     clock s' = 7 /\
     trace s' = replicate 7 Tick /\
     saved (trace s') = []).
Proof.
  split; [|split].
  - apply (empty_tick_reticks skipping_env 2 "out" (Py.Int 2) listening);
      try reflexivity. left; reflexivity.
  - apply (proj1 (proj2 (empty_tick_reticks base_env 2 "out" (Py.Int 2) listening
                           eq_refl eq_refl (or_introl eq_refl))) 0).
    reflexivity.
  - apply (proj2 (proj2 (empty_tick_reticks starved_env 0 "out" (Py.Int 2) listening
                           eq_refl eq_refl (or_introl eq_refl)))).
    + intros k _. split; reflexivity.
    + reflexivity.
Defined.
End CaptureTheorems.

Section BootstrapTheorem.
Import Sim Ops CaptureSpec ReplaySpec replay_with_sensors.


End BootstrapTheorem.

Section ReplayTheorems.
Import Sim Ops CaptureSpec ReplaySpec TelemetryExtraSpec.
Import replay_with_sensors record_replay_logs.



(** C9.  When the log file does not exist, [run_replay] and
    [replay_log] print their not-found message and return without an
    exception; nothing else has happened by then: the session settings
    are as before, and neither a settings change nor a replay was
    requested. *)
Theorem missing_log_returns_early (env : Env) (interrupted : nat -> bool)
    (log_file : string)
    (capture_func : Py.Num -> bool -> M unit) (duration start : Py.Num)
    (follow_id : Z) (sync_mode : bool) (s : State) :
  path_exists env (abspath env log_file) = false ->
  run_replay env log_file capture_func duration sync_mode s
    = (Returned tt, emit (Print (LogFileNotFound (abspath env log_file))) s) /\
  replay_log env interrupted log_file start duration follow_id s
    = (Returned tt,
       emit (Print (LogFileMissing (abspath env log_file)))
         (emit (Print (CheckingLogFile (abspath env log_file))) s)) /\
  session (snd (run_replay env log_file capture_func duration sync_mode s)) = session s /\
  objects (snd (run_replay env log_file capture_func duration sync_mode s)) = objects s /\
  session (snd (replay_log env interrupted log_file start duration follow_id s)) = session s.
Proof.
  intros H.
  assert (H1 : run_replay env log_file capture_func duration sync_mode s
               = (Returned tt, emit (Print (LogFileNotFound (abspath env log_file))) s)).
  { unfold run_replay. rewrite H. reflexivity. }
  assert (H2 : replay_log env interrupted log_file start duration follow_id s
               = (Returned tt,
                  emit (Print (LogFileMissing (abspath env log_file)))
                    (emit (Print (CheckingLogFile (abspath env log_file))) s))).
  { unfold replay_log, bind, print, modify. rewrite H. reflexivity. }
  rewrite H1, H2. repeat split.
Qed.

Lemma missing_log_returns_early_witness :
  trace (snd (run_replay no_log_env "recording.log"
                (capture_frames no_log_env 10 "out") (Py.Float 5) true
                (initial default_settings)))
    = [Print (LogFileNotFound "/work/recording.log")] /\
  trace (snd (replay_log no_log_env (fun _ => true) "recording.log" (Py.Int 0) (Py.Float 5) 0
                (initial default_settings)))
    = [Print (CheckingLogFile "/work/recording.log");
       Print (LogFileMissing "/work/recording.log")].
Proof.
  destruct (missing_log_returns_early no_log_env (fun _ => true) "recording.log"
              (capture_frames no_log_env 10 "out") (Py.Float 5) (Py.Int 0) 0 true
              (initial default_settings) eq_refl) as (H1 & H2 & _).
  rewrite H1, H2. split; reflexivity.
Defined.

(** C1 fails on the code.  [run_replay] keeps a second name for the
    settings object it then modifies, so what it applies at the end is
    the modified object: after a lock-step replay that completes, the
    session is still synchronous with the fixed step.  [main] of the
    recorder restores only at its end: when a tick raises, the session
    keeps the recording settings. *)
Theorem settings_not_restored :
  let before := initial default_settings in
  let replayed :=
    camera_mode base_env 10 "recording.log" "replay_output"
      (Py.Float (1 # 10)%Q) true before in
  let recorded := record_images.main stalling_env 200 before in
  fst replayed = Returned tt /\
  session (snd replayed) = mkSettings true (Some (1 # 20)%Q) /\
  session (snd replayed) <> session before /\
  fst recorded = Raised RuntimeError /\
  session (snd recorded) = mkSettings true (Some (1 # 20)%Q) /\
  session (snd recorded) <> default_settings /\
  session (snd (record_images.main base_env 200 before)) = default_settings.
Proof.
  vm_compute. repeat split; discriminate.
Qed.
End ReplayTheorems.

(** * Further properties *)

(** ** The video assembler *)

Section VideoExtras.
Import ffmpeg_video VideoSpec VideoExtraSpec.

(** X1.  [create_video] returns [True] exactly when the frame directory
    exists, holds at least one frame file, and the encoder ran and
    exited with status zero. *)
Theorem create_video_true_iff (encoder : Encoder) (st : State) :
  fst (create_video encoder st) = Return true <->
  path_exists (fs st) SAVE_DIR = true /\
  glob_frames (fs st) SAVE_DIR <> [] /\
  exists stderr files', encoder (ffmpeg_cmd st) (fs st) = (Exited 0 stderr, files').
Proof.
  unfold create_video.
  destruct (path_exists (fs st) SAVE_DIR); simpl.
  2:{ split; [discriminate|]. intros [H _]. discriminate. }
  destruct (glob_frames (fs st) SAVE_DIR) as [|f fl]; simpl.
  { split; [discriminate|]. intros (_ & H & _). congruence. }
  unfold subprocess_run. simpl.
  change (ffmpeg_cmd (print _ st)) with (ffmpeg_cmd st).
  destruct (encoder (ffmpeg_cmd st) (fs st)) as [[rc err| |] files']; simpl.
  - destruct (Z.eqb_spec rc 0) as [->|Hrc]; simpl.
    + split; [|reflexivity]. intros _. repeat split; [discriminate|eauto].
    + split; [discriminate|]. intros (_ & _ & e & f' & [= H _ _]). contradiction.
  - split; [discriminate|]. intros (_ & _ & e & f' & [=]).
  - split; [discriminate|]. intros (_ & _ & e & f' & [=]).
Qed.

(** X2.  Whatever [create_video_with_bitrate] launches carries the
    bitrate it was given and, as output, the name it was given when
    that name is a non-empty string and the configured [VIDEO_FILE]
    otherwise. *)
Theorem create_video_with_bitrate_launches_overrides (encoder : Encoder)
    (bitrate : string) (output_name : option string) (st : State)
    (cmd : list string) :
  out st = [] ->
  cmd ∈ launches (out (snd (create_video_with_bitrate encoder bitrate output_name st))) ->
  cmd = [ "ffmpeg"; "-y"; "-framerate"; "20"; "-i";
          "output_images/frame_%06d.jpg"; "-b:v"; bitrate; "-r"; "20";
          match output_name with
          | Some (String c n) => String c n
          | _ => VIDEO_FILE st
          end ].
Proof.
  intros Hout Hin. rewrite create_video_with_bitrate_out in Hin.
  destruct (create_video_launches encoder (overridden bitrate output_name st)) as [E|E];
    rewrite E in Hin; cbn [out overridden] in Hin; rewrite Hout in Hin;
    simpl in Hin; apply list_elem_of_In in Hin; simpl in Hin.
  - contradiction.
  - destruct Hin as [<-|[]]. reflexivity.
Qed.

Lemma create_video_with_bitrate_launches_overrides_witness :
  out (initial two_frames) = [] /\
  [ "ffmpeg"; "-y"; "-framerate"; "20"; "-i";
    "output_images/frame_%06d.jpg"; "-b:v"; "2M"; "-r"; "20"; "carla_output.mp4" ]
    ∈ launches (out (snd (create_video_with_bitrate failing_encoder "2M" (Some "")
                            (initial two_frames)))) /\
  [ "ffmpeg"; "-y"; "-framerate"; "20"; "-i";
    "output_images/frame_%06d.jpg"; "-b:v"; "2M"; "-r"; "20"; "carla_output.mp4" ]
  = [ "ffmpeg"; "-y"; "-framerate"; "20"; "-i";
      "output_images/frame_%06d.jpg"; "-b:v"; "2M"; "-r"; "20";
      VIDEO_FILE (initial two_frames) ].
Proof.
  assert (H1 : out (initial two_frames) = []) by reflexivity.
  assert (H2 : [ "ffmpeg"; "-y"; "-framerate"; "20"; "-i";
                 "output_images/frame_%06d.jpg"; "-b:v"; "2M"; "-r"; "20";
                 "carla_output.mp4" ]
               ∈ launches (out (snd (create_video_with_bitrate failing_encoder "2M"
                                       (Some "") (initial two_frames)))))
    by (vm_compute; apply list_elem_of_here).
  split; [exact H1|]. split; [exact H2|].
  exact (create_video_with_bitrate_launches_overrides failing_encoder "2M" (Some "")
           (initial two_frames) _ H1 H2).
Defined.

(** X3.  When the launch ends in an exception [create_video] does not
    handle, [create_video_with_bitrate] lets it through without
    restoring: [BITRATE] and [VIDEO_FILE] keep the overrides. *)
Theorem create_video_with_bitrate_keeps_overrides (encoder : Encoder)
    (bitrate : string) (output_name : option string) (st st_mid : State) :
  create_video encoder (overridden bitrate output_name st) = (Propagates, st_mid) ->
  create_video_with_bitrate encoder bitrate output_name st = (Propagates, st_mid) /\
  BITRATE st_mid = bitrate /\
  VIDEO_FILE st_mid =
    match output_name with
    | Some (String c n) => String c n
    | _ => VIDEO_FILE st
    end.
Proof.
  intros H. unfold create_video_with_bitrate. rewrite overridden_spec, H.
  split; [reflexivity|].
  destruct (create_video_keeps_config encoder (overridden bitrate output_name st)) as [Hb Hv].
  rewrite H in Hb, Hv. simpl in Hb, Hv. auto.
Qed.

Lemma create_video_with_bitrate_keeps_overrides_witness :
  exists st_mid,
    create_video_with_bitrate broken_encoder "10M" (Some "high_quality.mp4")
      (initial two_frames) = (Propagates, st_mid) /\
    BITRATE st_mid = "10M" /\
    VIDEO_FILE st_mid = "high_quality.mp4".
Proof.
  eexists.
  apply (create_video_with_bitrate_keeps_overrides broken_encoder "10M"
           (Some "high_quality.mp4") (initial two_frames)).
  vm_compute. reflexivity.
Defined.

(** X4.  The files the recorder writes are the files the assembler
    looks for: once the frame of sequence number [n] is listed in the
    frame directory, [glob_frames] returns its path, which is the path
    the lock-step loop wrote it under. *)
Theorem recorded_frame_is_globbed (files : gmap string Node)
    (names : list string) (n : nat) :
  files !! SAVE_DIR = Some (Dir names) ->
  frame_name n ∈ names ->
  Ops.frame_filename record_images.SAVE_DIR n ∈ glob_frames files SAVE_DIR.
Proof.
  intros Hdir Hin. unfold glob_frames. rewrite Hdir.
  apply list_elem_of_In, in_map_iff. exists (frame_name n). split; [reflexivity|].
  apply list_elem_of_In, list_elem_of_filter. split; [apply frame_name_matches|exact Hin].
Qed.

Lemma recorded_frame_is_globbed_witness :
  Ops.frame_filename record_images.SAVE_DIR 2 ∈ glob_frames recorded_dir SAVE_DIR.
Proof.
  apply (recorded_frame_is_globbed recorded_dir [frame_name 0; frame_name 1; frame_name 2] 2).
  - vm_compute. reflexivity.
  - apply list_elem_of_In. simpl. auto.
Defined.
End VideoExtras.

(** ** The capture loops and the bootstrap wait *)

Section CaptureExtras.
Import Sim Ops CaptureSpec ReplaySpec CaptureExtraSpec replay_with_sensors.

(** X5.  In lock-step capture the holder keeps one buffer: when a tick
    delivers several, the iteration writes the last one under the next
    sequence number and none of the earlier ones, and the counter
    advances by one. *)
Theorem lockstep_tick_keeps_last_buffer (env : Env) (fuel : nat) (dir : string)
    (target : Py.Num) (s : State) (earlier : list Image) (img : Image) :
  Py.ltb (Py.Int (Z.of_nat (frame_count s))) target = true ->
  tick_fails env (clock s) = false ->
  holding s ->
  images env (clock s) = earlier ++ [img] ->
  exists s2,
    sync_capture_loop env (S fuel) dir target s
      = sync_capture_loop env fuel dir target s2 /\
    saved (trace s2) = saved (trace s) ++ [(frame_filename dir (frame_count s), img)] /\
    frame_count s2 = frame_count s + 1 /\
    captured_image s2 = None.
Proof.
  intros Hlt Htick Hh Himgs.
  rewrite sync_capture_loop_step by assumption.
  rewrite after_tick_holding by exact Hh.
  rewrite Himgs, last_snoc.
  set (s1 := set_captured_image (Some img) (emit Tick (set_clock (S (clock s)) s))).
  destruct (drain_holder_full dir target s1 img eq_refl)
    as (s2 & report & Hd & Hfc & Hci & _ & _ & _ & Htr & Hrep).
  exists s2. unfold bind. rewrite Hd. split; [reflexivity|].
  split; [|split; assumption].
  rewrite Htr. subst s1. cbn [trace emit set_captured_image set_clock frame_count].
  rewrite !saved_app. simpl.
  destruct Hrep as [->|[m ->]]; simpl; rewrite ?app_nil_r; reflexivity.
Qed.

Lemma lockstep_tick_keeps_last_buffer_witness :
  exists s2,
    sync_capture_loop bursting_env 5 "out" (Py.Int 2) listening
      = sync_capture_loop bursting_env 4 "out" (Py.Int 2) s2 /\
    saved (trace s2) = [("out/frame_000000.jpg", 2)] /\
    frame_count s2 = 1 /\
    captured_image s2 = None.
Proof.
  apply (lockstep_tick_keeps_last_buffer bursting_env 4 "out" (Py.Int 2) listening [0; 1] 2).
  - reflexivity.
  - reflexivity.
  - left. reflexivity.
  - reflexivity.
Defined.

(** X6.  With a saving callback registered (wall-clock capture), every
    buffer of a step is written at once, in arrival order, under
    consecutive sequence numbers; the counter advances by the number of
    buffers. *)
Theorem saving_callback_writes_every_buffer (dir : string) (imgs : list Image)
    (s : State) :
  saving_to dir s ->
  saved (trace (deliver imgs s))
    = saved (trace s)
      ++ combine (map (frame_filename dir) (seq (frame_count s) (length imgs))) imgs /\
  frame_count (deliver imgs s) = frame_count s + length imgs.
Proof.
  intros Hs. unfold deliver.
  destruct Hs as [H|H]; rewrite H;
    match goal with
    | |- context [fold_left (fun st img => run_callback ?cb img st) _ _] =>
        destruct (saving_callback_fold cb dir imgs) with (s := s) as (H1 & H2 & _);
          [auto|split; assumption]
    end.
Qed.

Lemma saving_callback_writes_every_buffer_witness :
  saved (trace (deliver [7; 8; 9] saving))
    = [("out/frame_000000.jpg", 7); ("out/frame_000001.jpg", 8);
       ("out/frame_000002.jpg", 9)] /\
  frame_count (deliver [7; 8; 9] saving) = 3.
Proof.
  apply (saving_callback_writes_every_buffer "out" [7; 8; 9] saving).
  left. reflexivity.
Defined.

(** X7.  The wall-clock wait sleeps until the first clock reading that
    is [target] seconds past the start, and no longer: if that reading
    comes after [T] sleeps, the loop returns after exactly [T]
    sleeps. *)
Theorem async_wait_loop_stops_at_deadline (env : Env) (fuel T : nat) (start : Q)
    (target : Py.Num) (s : State) :
  (forall k, k < T ->
     Py.ltb (Py.Float (Qminus (now env (clock s + k)) start)) target = true) ->
  Py.ltb (Py.Float (Qminus (now env (clock s + T)) start)) target = false ->
  T <= fuel ->
  exists s',
    async_wait_loop env fuel start target s = (Returned tt, s') /\
    clock s' = clock s + T /\
    polls (trace s') = polls (trace s) + T.
Proof.
  revert fuel s. induction T as [|T IH]; intros fuel s Hbefore Hat Hfuel.
  - rewrite Nat.add_0_r in Hat. exists s.
    destruct fuel; cbn [async_wait_loop]; rewrite Hat; repeat split; lia.
  - destruct fuel as [|fuel]; [lia|]. cbn [async_wait_loop].
    specialize (Hbefore 0 (Nat.lt_0_succ _)) as H0. rewrite Nat.add_0_r in H0.
    rewrite H0. unfold bind, sleep.
    set (s1 := deliver _ _).
    assert (Hck : clock s1 = S (clock s))
      by (subst s1; now rewrite (proj1 (deliver_polls _ _))).
    assert (Hpo : polls (trace s1) = S (polls (trace s))).
    { subst s1. rewrite (proj2 (deliver_polls _ _)). simpl.
      rewrite polls_app. simpl. lia. }
    destruct (IH fuel s1) as (s' & Hrun & Hck' & Hpo').
    + intros k Hk. rewrite Hck. replace (S (clock s) + k) with (clock s + S k) by lia.
      apply Hbefore. lia.
    + rewrite Hck. replace (S (clock s) + T) with (clock s + S T) by lia. exact Hat.
    + lia.
    + exists s'. split; [exact Hrun|]. lia.
Qed.

Lemma async_wait_loop_stops_at_deadline_witness :
  exists s',
    async_wait_loop base_env 10 0 (Py.Float 3) (initial default_settings)
      = (Returned tt, s') /\
    clock s' = 3 /\
    polls (trace s') = 3.
Proof.
  apply (async_wait_loop_stops_at_deadline base_env 10 3 0 (Py.Float 3)
           (initial default_settings)).
  - intros k Hk. destruct k as [|[|[|k]]]; try reflexivity. lia.
  - reflexivity.
  - lia.
Defined.

(** X8.  The bootstrap wait returns at the first poll that finds a
    vehicle: if the vehicles are first seen after [n] polls, with
    [n <= 50] and no tick failing until then, it returns that list and
    [wait_attempts = n], having polled [n] times. *)
Theorem wait_for_vehicles_first_sighting (env : Env) (sync_mode : bool)
    (fuel n : nat) (vs : list Vehicle) (s : State) :
  1 <= n <= max_wait_attempts ->
  vs <> [] ->
  (forall j, 1 <= j < n -> vehicles env (clock s + j) = []) ->
  vehicles env (clock s + n) = vs ->
  (sync_mode = true -> forall j, j < n -> tick_fails env (clock s + j) = false) ->
  n <= fuel ->
  exists s',
    wait_for_vehicles env fuel sync_mode [] 0 s = (Returned (vs, n), s') /\
    clock s' = clock s + n.
Proof.
  intros [Hn1 Hn] Hvs Hnone Hsome Hticks Hfuel.
  destruct n as [|n]; [lia|].
  apply (wait_for_vehicles_sighting env sync_mode vs Hvs n fuel 0 s); try lia; auto.
  - intros j Hj. apply Hnone. lia.
  - intros E j Hj. apply (Hticks E). lia.
Qed.

Lemma wait_for_vehicles_first_sighting_witness :
  exists s',
    wait_for_vehicles late_traffic_env 50 true [] 0 (initial default_settings)
      = (Returned ([car 1; car 2], 4), s') /\
    clock s' = 4.
Proof.
  apply (wait_for_vehicles_first_sighting late_traffic_env true 50 4 [car 1; car 2]
           (initial default_settings)).
  - unfold max_wait_attempts. lia.
  - discriminate.
  - intros j Hj. destruct j as [|[|[|[|j]]]]; try reflexivity; lia.
  - reflexivity.
  - intros _ j _. reflexivity.
  - lia.
Defined.
End CaptureExtras.

(** ** Session settings and the recorder *)

Section SettingsExtras.
Import Sim Ops CaptureSpec ReplaySpec SettingsSpec SettingsExtraSpec replay_with_sensors.

(** X9.  Once [run_replay] has found the log file, the session ends up
    with the settings [run_replay] applied at its start, however the
    run ends: synchronous with the fixed step 1/20 in lock-step mode,
    asynchronous with the step it had otherwise.  The settings in force
    before the call survive only if they were these already. *)
Theorem run_replay_session_after (env : Env) (log_file : string)
    (capture_func : Py.Num -> bool -> M unit) (duration : Py.Num)
    (sync_mode : bool) (s : State) :
  path_exists env (abspath env log_file) = true ->
  (forall target mode, keeps_settings (capture_func target mode)) ->
  session (snd (run_replay env log_file capture_func duration sync_mode s))
    = if sync_mode then mkSettings true (Some (1 # 20)%Q)
      else mkSettings false (fixed_delta_seconds (session s)).
Proof.
  intros He Hcap. destruct sync_mode.
  - apply run_replay_leaves_lockstep; assumption.
  - apply run_replay_leaves_wallclock; assumption.
Qed.

Lemma run_replay_session_after_witness :
  session (snd (run_replay base_env "recording.log" (capture_frames base_env 10 "out")
                  (Py.Float 2) false lockstep_session))
    = mkSettings false (Some (1 # 20)%Q).
Proof.
  apply (run_replay_session_after base_env "recording.log" (capture_frames base_env 10 "out")
           (Py.Float 2) false lockstep_session).
  - reflexivity.
  - intros target mode. apply ks_capture_frames.
Defined.

(** X10.  How [main] of the recorder leaves the session: when it
    returns, with the default settings the freshly loaded world had;
    when an exception ends it (or it is still recording), with the
    lock-step recording settings. *)
Theorem main_session_by_outcome (env : Env) (fuel : nat) (s : State) :
  match fst (record_images.main env fuel s) with
  | Returned _ => session (snd (record_images.main env fuel s)) = default_settings
  | _ => session (snd (record_images.main env fuel s)) = lockstep_settings
  end.
Proof.
  destruct (main_reaches_loop env fuel s) as (s0 & -> & Ho & Hses & _).
  rewrite <- Hses.
  apply (restores_bind (sync_capture_loop env fuel record_images.SAVE_DIR (Py.Int 100))
           (fun _ => recorder_epilogue (length (objects s)))
           (length (objects s)) default_settings);
    [apply ks_sync_capture_loop|intros _; apply restores_recorder_epilogue|exact Ho].
Qed.

(** X11.  When every tick returns and the camera delivers on at least
    100 of the first [T] ticks, [main] of the recorder returns having
    written exactly the 100 files [output_images/frame_000000.jpg] to
    [output_images/frame_000099.jpg], in this order, and with the
    session back on the default settings. *)
Theorem main_records_hundred_frames (env : Env) (fuel T : nat) (s : State) :
  (forall k, clock s <= k < clock s + T -> tick_fails env k = false) ->
  100 <= deliveries env (clock s) T ->
  T <= fuel ->
  exists s',
    record_images.main env fuel s = (Returned tt, s') /\
    map fst (saved (trace s'))
      = map fst (saved (trace s)) ++ map (frame_filename "output_images") (seq 0 100) /\
    frame_count s' = 100 /\
    session s' = default_settings.
Proof.
  intros Hticks Hdel Hfuel.
  destruct (main_reaches_loop env fuel s) as (s0 & Hmain & Ho & Hses & Hh & Hci & Hfc & Hck & Hsv).
  destruct (sync_capture_loop_total env record_images.SAVE_DIR 100 T fuel s0 Hh Hci)
    as (s1 & new & Hrun & Htr & Hnames & _ & Hfc1 & _ & _ & _).
  - lia.
  - intros k Hk. apply Hticks. lia.
  - rewrite Hfc, Hck. exact Hdel.
  - exact Hfuel.
  - assert (Hobj : objects s1 !! length (objects s) = Some default_settings).
    { pose proof (ks_sync_capture_loop env record_images.SAVE_DIR (Py.Int 100) fuel s0) as [H _].
      change (Py.Int 100) with (Py.Int (Z.of_nat 100)) in H.
      rewrite Hrun in H. cbn [snd] in H. rewrite H. exact Ho. }
    rewrite Hmain. unfold bind at 1.
    change (Py.Int 100) with (Py.Int (Z.of_nat 100)). rewrite Hrun.
    unfold recorder_epilogue, bind, get, print, event, modify, apply_settings.
    cbn [objects emit]. rewrite Hobj.
    eexists. split; [reflexivity|]. cbn.
    rewrite !saved_app. simpl. rewrite !app_nil_r, Htr, saved_app, map_app, Hnames, Hfc.
    rewrite Hsv. repeat split; assumption.
Qed.

Lemma main_records_hundred_frames_witness :
  exists s',
    record_images.main base_env 100 (initial default_settings) = (Returned tt, s') /\
    map fst (saved (trace s'))
      = map fst (saved (trace (initial default_settings)))
        ++ map (frame_filename "output_images") (seq 0 100) /\
    frame_count s' = 100 /\
    session s' = default_settings.
Proof.
  apply (main_records_hundred_frames base_env 100 100 (initial default_settings)).
  - intros k _. reflexivity.
  - vm_compute. lia.
  - lia.
Defined.

(** X12.  With the log file missing, the three replay modes return
    normally with nothing captured: no camera is spawned or destroyed
    and no telemetry file is opened; [data_mode] nevertheless reports
    the telemetry file as saved. *)
Theorem modes_with_missing_log (env : Env) (wait_fuel fuel : nat)
    (log_file output_dir : string) (duration : Py.Num) (sync_mode : bool)
    (s : State) :
  path_exists env (abspath env log_file) = false ->
  (exists s',
     camera_mode env fuel log_file output_dir duration sync_mode s = (Returned tt, s') /\
     trace s' = trace s ++
       [MakeDirs (abspath env output_dir);
        Print (LogFileNotFound (abspath env log_file));
        Print (CapturedTotal 0)]) /\
  (exists s',
     follow_mode env wait_fuel fuel log_file duration output_dir sync_mode s
       = (Returned tt, s') /\
     trace s' = trace s ++
       [MakeDirs (abspath env output_dir);
        Print (LogFileNotFound (abspath env log_file));
        Print (CapturedTotal 0)]) /\
  (exists s',
     data_mode env wait_fuel fuel log_file duration output_dir sync_mode s
       = (Returned tt, s') /\
     trace s' = trace s ++
       [MakeDirs (abspath env output_dir);
        Print (LogFileNotFound (abspath env log_file));
        Print (ProcessedTotal 0);
        Print (DataSavedTo (Py.path_join (abspath env output_dir) "vehicle_data.txt"))]).
Proof.
  intros He. split; [|split].
  - unfold camera_mode, run_replay, finally, destroy_camera, bind, event, print, modify, get.
    rewrite He. cbn. eexists. split; [reflexivity|].
    cbn. rewrite <- !app_assoc. reflexivity.
  - unfold follow_mode, run_replay, finally, destroy_camera, bind, event, print, modify, get.
    rewrite He. cbn. eexists. split; [reflexivity|].
    cbn. rewrite <- !app_assoc. reflexivity.
  - unfold data_mode, run_replay, bind, event, print, modify, get.
    rewrite He. cbn. eexists. split; [reflexivity|].
    cbn. rewrite <- !app_assoc. reflexivity.
Qed.

Lemma modes_with_missing_log_witness :
  exists s',
    data_mode no_log_env 50 10 "recording.log" (Py.Float 5) "replay_output" true
      (initial default_settings) = (Returned tt, s') /\
    trace s' =
      [MakeDirs "/work/replay_output";
       Print (LogFileNotFound "/work/recording.log");
       Print (ProcessedTotal 0);
       Print (DataSavedTo "/work/replay_output/vehicle_data.txt")].
Proof.
  apply (modes_with_missing_log no_log_env 50 10 "recording.log" "replay_output"
           (Py.Float 5) true (initial default_settings)).
  reflexivity.
Defined.
End SettingsExtras.

(** ** Camera mode *)

Section CameraModeExtras.
Import Sim Ops CaptureSpec ReplaySpec SettingsSpec SettingsExtraSpec replay_with_sensors.

Lemma destroy_camera_returns s :
  exists s',
    destroy_camera s = (Returned tt, s') /\
    saved (trace s') = saved (trace s) /\
    frame_count s' = frame_count s.
Proof.
  unfold destroy_camera, bind, get, event, modify, ret.
  destruct (camera s); eexists; (split; [reflexivity|]); cbn; [|auto].
  rewrite saved_app. simpl. rewrite app_nil_r. auto.
Qed.

(** X13.  The camera mode end to end, in lock-step mode: when the log
    file exists, the replay request and the first [10 + T] ticks
    succeed, and the camera delivers on at least
    [N = int(duration * 20)] of the [T] ticks that follow the ten
    warm-up ticks, [camera_mode] returns having written exactly the [N]
    files [frame_000000.jpg] ... in the output directory.  The buffers
    of the warm-up ticks are not captured. *)
Theorem camera_mode_captures_target (env : Env) (fuel T N : nat)
    (log_file output_dir : string) (duration : Py.Num) (s : State) :
  path_exists env (abspath env log_file) = true ->
  replay_fails env (abspath env log_file) = false ->
  Py.int (Py.mul duration (Py.Int FPS)) = Z.of_nat N ->
  listener s = None ->
  (forall k, clock s <= k < clock s + 10 + T -> tick_fails env k = false) ->
  N <= deliveries env (clock s + 10) T ->
  T <= fuel ->
  exists s',
    camera_mode env fuel log_file output_dir duration true s = (Returned tt, s') /\
    map fst (saved (trace s'))
      = map fst (saved (trace s))
        ++ map (frame_filename (abspath env output_dir)) (seq 0 N) /\
    frame_count s' = N.
Proof.
  intros He Hr HN Hl Hticks Hdel Hfuel.
  unfold camera_mode.
  repeat (rewrite (bind_returned (event _) _ _ tt _ eq_refl)
          || rewrite (bind_returned (modify _) _ _ tt _ eq_refl)).
  set (s0 := set_start_time None _).
  destruct (run_replay_captures env fuel T N log_file (abspath env output_dir) duration s0)
    as (s1 & Hrun & Hnames & Hfc); try assumption; try reflexivity.
  destruct (destroy_camera_returns s1) as (s2 & Hd & Hsv2 & Hfc2).
  assert (Hfin : finally (run_replay env log_file
                            (capture_frames env fuel (abspath env output_dir)) duration true)
                         destroy_camera s0 = (Returned tt, s2)).
  { unfold finally. rewrite Hrun, Hd. reflexivity. }
  rewrite (bind_returned _ _ s0 tt s2 Hfin).
  unfold bind, get, print, modify. eexists. split; [reflexivity|]. cbn.
  rewrite saved_app. simpl. rewrite app_nil_r, Hsv2, Hnames.
  subst s0. cbn. rewrite saved_app. simpl. rewrite app_nil_r.
  split; [reflexivity|congruence].
Qed.

Lemma camera_mode_captures_target_witness :
  exists s',
    camera_mode skipping_env 20 "recording.log" "replay_output" (Py.Float (1 # 5)%Q) true
      (initial default_settings) = (Returned tt, s') /\
    map fst (saved (trace s'))
      = map fst (saved (trace (initial default_settings)))
        ++ map (frame_filename "/work/replay_output") (seq 0 4) /\
    frame_count s' = 4.
Proof.
  apply (camera_mode_captures_target skipping_env 20 8 4 "recording.log" "replay_output"
           (Py.Float (1 # 5)%Q) (initial default_settings)).
  - reflexivity.
  - reflexivity.
  - reflexivity.
  - reflexivity.
  - intros k _. reflexivity.
  - vm_compute. lia.
  - lia.
Defined.
End CameraModeExtras.

(** ** Replay failures *)

Section ReplayExtras.
Import Sim Ops CaptureSpec ReplaySpec SettingsSpec ReplayExtraSpec.
Import replay_with_sensors record_replay_logs.

(** X14.  When the server refuses the replay request, [run_replay] ends
    with that exception right there: the new settings are already
    applied, no warm-up tick or sleep is taken, the capture function is
    not run, and the settings are not applied a second time. *)
Theorem run_replay_stops_when_replay_fails (env : Env) (log_file : string)
    (capture_func : Py.Num -> bool -> M unit) (duration : Py.Num)
    (sync_mode : bool) (s : State) :
  path_exists env (abspath env log_file) = true ->
  replay_fails env (abspath env log_file) = true ->
  exists s',
    run_replay env log_file capture_func duration sync_mode s
      = (Raised RuntimeError, s') /\
    trace s' = trace s ++
      [Print (StartingReplay (abspath env log_file));
       ApplySettings (applied_settings sync_mode s);
       Print (if sync_mode
              then UsingSynchronous (Py.int (Py.mul duration (Py.Int FPS)))
              else UsingAsynchronous duration);
       ReplayFile (abspath env log_file) (Py.Int 0) (Py.Int 0) 0%Z] /\
    session s' = applied_settings sync_mode s.
Proof.
  intros He Hr. unfold run_replay. rewrite He. cbn [negb].
  rewrite (bind_returned (print _) _ s tt _ eq_refl).
  rewrite (bind_returned get_settings _ _ _ _ eq_refl). cbv zeta.
  destruct sync_mode.
  - match goal with
    | |- context [bind (bind (assign_synchronous_mode ?o true) _) ?k ?st] =>
        destruct (lockstep_block_trace o
                    (objects (emit (Print (StartingReplay (abspath env log_file))) s))
                    (session s)
                    (UsingSynchronous (Py.int (Py.mul duration (Py.Int FPS)))) st
                    eq_refl eq_refl) as (s5 & Hblock & Htr);
        destruct (lockstep_block o
                    (objects (emit (Print (StartingReplay (abspath env log_file))) s))
                    (session s)
                    (UsingSynchronous (Py.int (Py.mul duration (Py.Int FPS)))) st
                    eq_refl eq_refl) as (s5' & Hblock' & [_ Hses]);
        rewrite Hblock in Hblock'; injection Hblock' as <-;
        rewrite (bind_returned _ k st tt s5 Hblock)
    end.
    unfold bind, replay_file. rewrite Hr. eexists. split; [reflexivity|].
    cbn. rewrite Htr. cbn. rewrite <- !app_assoc. split; [reflexivity|exact Hses].
  - match goal with
    | |- context [bind (bind (assign_synchronous_mode ?o false) _) ?k ?st] =>
        destruct (wallclock_block_trace o
                    (objects (emit (Print (StartingReplay (abspath env log_file))) s))
                    (session s) (UsingAsynchronous duration) st
                    eq_refl eq_refl) as (s5 & Hblock & Htr);
        destruct (wallclock_block o
                    (objects (emit (Print (StartingReplay (abspath env log_file))) s))
                    (session s) (UsingAsynchronous duration) st
                    eq_refl eq_refl) as (s5' & Hblock' & [_ Hses]);
        rewrite Hblock in Hblock'; injection Hblock' as <-;
        rewrite (bind_returned _ k st tt s5 Hblock)
    end.
    unfold bind, replay_file. rewrite Hr. eexists. split; [reflexivity|].
    cbn. rewrite Htr. cbn. rewrite <- !app_assoc. split; [reflexivity|exact Hses].
Qed.

Lemma run_replay_stops_when_replay_fails_witness :
  exists s',
    run_replay unreadable_log_env "recording.log"
      (capture_frames unreadable_log_env 10 "out") (Py.Float 2) true
      (initial default_settings) = (Raised RuntimeError, s') /\
    trace s' =
      [Print (StartingReplay "/work/recording.log");
       ApplySettings (mkSettings true (Some (1 # 20)%Q));
       Print (UsingSynchronous 40);
       ReplayFile "/work/recording.log" (Py.Int 0) (Py.Int 0) 0%Z] /\
    session s' = mkSettings true (Some (1 # 20)%Q).
Proof.
  apply (run_replay_stops_when_replay_fails unreadable_log_env "recording.log"
           (capture_frames unreadable_log_env 10 "out") (Py.Float 2) true
           (initial default_settings)); reflexivity.
Defined.

(** X15.  How [replay_log] ends once the log file is found.  An
    exception of the replay request is caught and reported, and then
    nothing is waited for.  When the request succeeds the function
    sleeps once, for [duration] seconds if [duration > 0] and for 30
    seconds otherwise, and ends with the completion message.  Ctrl+C
    during the 30 seconds is caught: the function reports it and still
    completes.  Ctrl+C during the sleep of [duration] seconds is not
    caught, since [except Exception] lets [KeyboardInterrupt] through:
    it ends [replay_log] right there, without the completion
    message. *)
Theorem replay_log_outcomes (env : Env) (interrupted : nat -> bool)
    (log_filename : string) (start_time duration : Py.Num) (follow_id : Z)
    (s : State) :
  path_exists env (abspath env log_filename) = true ->
  (replay_fails env (abspath env log_filename) = true ->
   exists s',
     replay_log env interrupted log_filename start_time duration follow_id s
       = (Returned tt, s') /\
     trace s' = trace s ++
       [Print (CheckingLogFile (abspath env log_filename));
        Print (LogFileSize (abspath env log_filename));
        Print (Replaying (abspath env log_filename));
        ReplayFile (abspath env log_filename) start_time duration follow_id;
        Print ErrorStartingReplay;
        Print ServerCannotAccessFile]) /\
  (replay_fails env (abspath env log_filename) = false ->
   interrupted (clock s) = false ->
   exists s',
     replay_log env interrupted log_filename start_time duration follow_id s
       = (Returned tt, s') /\
     polls (trace s') = polls (trace s) + 1 /\
     Sleep (if Py.ltb (Py.Int 0) duration then Py.to_Q duration else 30%Q) ∈ trace s' /\
     last (trace s') = Some (Print ReplayCompleted)) /\
  (replay_fails env (abspath env log_filename) = false ->
   interrupted (clock s) = true ->
   Py.ltb (Py.Int 0) duration = true ->
   exists s',
     replay_log env interrupted log_filename start_time duration follow_id s
       = (Raised KeyboardInterrupt, s') /\
     trace s' = trace s ++
       [Print (CheckingLogFile (abspath env log_filename));
        Print (LogFileSize (abspath env log_filename));
        Print (Replaying (abspath env log_filename));
        ReplayFile (abspath env log_filename) start_time duration follow_id;
        Print ReplayStarted;
        Print (ReplayWillRun duration);
        Sleep (Py.to_Q duration)]) /\
  (replay_fails env (abspath env log_filename) = false ->
   interrupted (clock s) = true ->
   Py.ltb (Py.Int 0) duration = false ->
   exists s',
     replay_log env interrupted log_filename start_time duration follow_id s
       = (Returned tt, s') /\
     trace s' = trace s ++
       [Print (CheckingLogFile (abspath env log_filename));
        Print (LogFileSize (abspath env log_filename));
        Print (Replaying (abspath env log_filename));
        ReplayFile (abspath env log_filename) start_time duration follow_id;
        Print ReplayStarted;
        Print ReplayRunning;
        Sleep 30%Q;
        Print ReplayStoppedByUser;
        Print ReplayCompleted]).
Proof.
  intros He. unfold replay_log.
  rewrite (bind_returned (print _) _ s tt _ eq_refl).
  rewrite He. cbn [negb].
  rewrite (bind_returned (print _) _ _ tt _ eq_refl).
  rewrite (bind_returned (print _) _ _ tt _ eq_refl).
  unfold catch, replay_file.
  split; [|split; [|split]].
  - intros Hr. rewrite Hr. unfold bind at 1. cbv beta iota. cbn [is_Exception].
    eexists. split; [reflexivity|]. cbn. rewrite <- !app_assoc. reflexivity.
  - intros Hr Hi. rewrite Hr. cbv beta iota zeta.
    rewrite (bind_returned
               (fun s0 => (Returned tt,
                           emit (ReplayFile (abspath env log_filename) start_time duration
                                   follow_id) s0))
               _ _ tt _ eq_refl).
    rewrite (bind_returned (print _) _ _ tt _ eq_refl).
    set (q := if Py.ltb (Py.Int 0) duration then Py.to_Q duration else 30%Q).
    set (msg := if Py.ltb (Py.Int 0) duration then ReplayWillRun duration else ReplayRunning).
    match goal with
    | |- context [bind (if _ then _ else _) ?k ?st] =>
        assert (Hwait : (if Py.ltb (Py.Int 0) duration
                         then bind (print (ReplayWillRun duration))
                                   (fun _ => time_sleep env interrupted (Py.to_Q duration))
                         else bind (print ReplayRunning)
                                   (fun _ => catch_interrupt
                                               (time_sleep env interrupted 30%Q)
                                               (print ReplayStoppedByUser))) st
                        = (Returned tt,
                           deliver (images env (clock st))
                             (emit (Sleep q) (set_clock (S (clock st)) (emit (Print msg) st)))))
          by (subst q msg; destruct (Py.ltb (Py.Int 0) duration);
              unfold bind, print, modify, event, catch_interrupt, time_sleep, sleep;
              cbn [clock emit]; rewrite Hi; reflexivity);
        rewrite (bind_returned _ k st tt _ Hwait)
    end.
    match goal with
    | |- context [deliver ?imgs ?st] =>
        destruct (deliver_extends imgs st) as [evs Hevs];
        destruct (deliver_polls imgs st) as [_ Hpolls]
    end.
    eexists. split; [reflexivity|].
    cbn [trace emit print modify snd]. unfold print, modify. cbn [trace emit].
    rewrite polls_app, Hpolls, Hevs. cbn [trace emit set_clock].
    rewrite !polls_app. simpl. repeat split.
    + lia.
    + apply list_elem_of_In. rewrite !in_app_iff. simpl. tauto.
    + apply last_snoc.
  - intros Hr Hi Hd. rewrite Hr, Hd. cbv beta iota.
    unfold bind, print, modify, event, time_sleep. cbn [clock emit]. rewrite Hi.
    cbn [is_Exception].
    eexists. split; [reflexivity|]. cbn. rewrite <- !app_assoc. reflexivity.
  - intros Hr Hi Hd. rewrite Hr, Hd. cbv beta iota.
    unfold bind, print, modify, event, catch_interrupt, time_sleep.
    cbn [clock emit]. rewrite Hi.
    eexists. split; [reflexivity|]. cbn. rewrite <- !app_assoc. reflexivity.
Qed.

Lemma replay_log_outcomes_witness :
  (exists s',
     replay_log unreadable_log_env (fun _ => false) "recording.log" (Py.Int 0) (Py.Int 0) 0%Z
       (initial default_settings) = (Returned tt, s') /\
     trace s' =
       [Print (CheckingLogFile "/work/recording.log");
        Print (LogFileSize "/work/recording.log");
        Print (Replaying "/work/recording.log");
        ReplayFile "/work/recording.log" (Py.Int 0) (Py.Int 0) 0%Z;
        Print ErrorStartingReplay;
        Print ServerCannotAccessFile]) /\
  (exists s',
     replay_log base_env (fun _ => false) "recording.log" (Py.Int 0) (Py.Int 0) 0%Z
       (initial default_settings) = (Returned tt, s') /\
     polls (trace s') = 1 /\
     Sleep 30%Q ∈ trace s' /\
     last (trace s') = Some (Print ReplayCompleted)) /\
  (exists s',
     replay_log base_env (fun _ => true) "recording.log" (Py.Int 0) (Py.Int 5) 0%Z
       (initial default_settings) = (Raised KeyboardInterrupt, s') /\
     trace s' =
       [Print (CheckingLogFile "/work/recording.log");
        Print (LogFileSize "/work/recording.log");
        Print (Replaying "/work/recording.log");
        ReplayFile "/work/recording.log" (Py.Int 0) (Py.Int 5) 0%Z;
        Print ReplayStarted;
        Print (ReplayWillRun (Py.Int 5));
        Sleep (Py.to_Q (Py.Int 5))]) /\
  (exists s',
     replay_log base_env (fun _ => true) "recording.log" (Py.Int 0) (Py.Int 0) 0%Z
       (initial default_settings) = (Returned tt, s') /\
     trace s' =
       [Print (CheckingLogFile "/work/recording.log");
        Print (LogFileSize "/work/recording.log");
        Print (Replaying "/work/recording.log");
        ReplayFile "/work/recording.log" (Py.Int 0) (Py.Int 0) 0%Z;
        Print ReplayStarted;
        Print ReplayRunning;
        Sleep 30%Q;
        Print ReplayStoppedByUser;
        Print ReplayCompleted]).
Proof.
  split; [|split; [|split]].
  - destruct (replay_log_outcomes unreadable_log_env (fun _ => false) "recording.log"
                (Py.Int 0) (Py.Int 0) 0%Z (initial default_settings) eq_refl)
      as (H & _).
    apply H. reflexivity.
  - destruct (replay_log_outcomes base_env (fun _ => false) "recording.log"
                (Py.Int 0) (Py.Int 0) 0%Z (initial default_settings) eq_refl)
      as (_ & H & _).
    apply H; reflexivity.
  - destruct (replay_log_outcomes base_env (fun _ => true) "recording.log"
                (Py.Int 0) (Py.Int 5) 0%Z (initial default_settings) eq_refl)
      as (_ & _ & H & _).
    apply H; reflexivity.
  - destruct (replay_log_outcomes base_env (fun _ => true) "recording.log"
                (Py.Int 0) (Py.Int 0) 0%Z (initial default_settings) eq_refl)
      as (_ & _ & _ & H).
    apply H; reflexivity.
Defined.
End ReplayExtras.

(** ** The camera actor *)

Section CameraExtras.
Import Sim Ops CaptureSpec ReplaySpec CameraSpec replay_with_sensors.

(** The [try ... finally: if camera: camera.destroy()] of the camera
    and follow modes, around a body that holds its camera. *)
Lemma finally_destroy_camera (body : M unit) (k : unit -> M unit) s :
  holds_its_camera body ->
  (forall u, camera_free (k u)) ->
  camera s = None ->
  fst (bind (finally body destroy_camera) k s) <> Running ->
  spawned (trace (snd (bind (finally body destroy_camera) k s))) + destroyed (trace s)
    = destroyed (trace (snd (bind (finally body destroy_camera) k s))) + spawned (trace s) /\
  spawned (trace (snd (bind (finally body destroy_camera) k s))) <= S (spawned (trace s)).
Proof.
  intros Hbody Hk Hc. unfold bind, finally.
  destruct (Hbody s Hc) as [Hd Hs].
  destruct (body s) as [[[]|e|] s1]; cbn [snd] in *.
  - unfold destroy_camera, bind, get.
    destruct Hs as [[Hcam Hsp]|[Hcam Hsp]]; rewrite Hcam; cbn.
    + destruct (Hk tt s1) as (_ & -> & ->). intros _. lia.
    + destruct (Hk tt (emit (Destroy "camera") s1)) as (_ & -> & ->). intros _.
      cbn. rewrite spawned_app, destroyed_app. simpl. lia.
  - unfold destroy_camera, bind, get.
    destruct Hs as [[Hcam Hsp]|[Hcam Hsp]]; rewrite Hcam; cbn; intros _.
    + lia.
    + rewrite spawned_app, destroyed_app. simpl. lia.
  - intros H. exfalso. apply H. reflexivity.
Qed.

(** X16.  The camera and follow modes never leave a camera behind:
    unless the capture is still running, every camera the mode spawned
    (at most one) has been destroyed when the mode ends, whether it
    returns or an exception ends it. *)
Theorem modes_destroy_their_camera (env : Env) (wait_fuel fuel : nat)
    (log_file output_dir : string) (duration : Py.Num) (sync_mode : bool)
    (s : State) :
  (fst (camera_mode env fuel log_file output_dir duration sync_mode s) <> Running ->
   spawned (trace (snd (camera_mode env fuel log_file output_dir duration sync_mode s)))
     + destroyed (trace s)
   = destroyed (trace (snd (camera_mode env fuel log_file output_dir duration sync_mode s)))
     + spawned (trace s) /\
   spawned (trace (snd (camera_mode env fuel log_file output_dir duration sync_mode s)))
     <= S (spawned (trace s))) /\
  (fst (follow_mode env wait_fuel fuel log_file duration output_dir sync_mode s) <> Running ->
   spawned (trace (snd (follow_mode env wait_fuel fuel log_file duration output_dir
                          sync_mode s)))
     + destroyed (trace s)
   = destroyed (trace (snd (follow_mode env wait_fuel fuel log_file duration output_dir
                              sync_mode s)))
     + spawned (trace s) /\
   spawned (trace (snd (follow_mode env wait_fuel fuel log_file duration output_dir
                          sync_mode s)))
     <= S (spawned (trace s))).
Proof.
  split.
  - unfold camera_mode.
    repeat (rewrite (bind_returned (event _) _ _ tt _ eq_refl)
            || rewrite (bind_returned (modify _) _ _ tt _ eq_refl)).
    set (s0 := set_start_time None _).
    assert (Hs0 : spawned (trace s0) = spawned (trace s) /\
                  destroyed (trace s0) = destroyed (trace s)).
    { subst s0. cbn. rewrite spawned_app, destroyed_app. simpl. lia. }
    destruct Hs0 as [<- <-].
    apply finally_destroy_camera.
    + apply hc_run_replay. intros target mode. apply hc_capture_frames.
    + intros _. apply cf_bind; [apply cf_get|]. intros fc. apply cf_print.
    + reflexivity.
  - unfold follow_mode.
    repeat (rewrite (bind_returned (event _) _ _ tt _ eq_refl)
            || rewrite (bind_returned (modify _) _ _ tt _ eq_refl)).
    set (s0 := set_start_time None _).
    assert (Hs0 : spawned (trace s0) = spawned (trace s) /\
                  destroyed (trace s0) = destroyed (trace s)).
    { subst s0. cbn. rewrite spawned_app, destroyed_app. simpl. lia. }
    destruct Hs0 as [<- <-].
    apply finally_destroy_camera.
    + apply hc_run_replay. intros target mode. apply hc_follow_vehicle.
    + intros _. apply cf_bind; [apply cf_get|]. intros fc. apply cf_print.
    + reflexivity.
Qed.

Lemma modes_destroy_their_camera_witness :
  spawned (trace (snd (camera_mode stalling_env 20 "recording.log" "replay_output"
                         (Py.Float 1) true (initial default_settings))))
    + destroyed (trace (initial default_settings))
  = destroyed (trace (snd (camera_mode stalling_env 20 "recording.log" "replay_output"
                             (Py.Float 1) true (initial default_settings))))
    + spawned (trace (initial default_settings)) /\
  spawned (trace (snd (camera_mode stalling_env 20 "recording.log" "replay_output"
                         (Py.Float 1) true (initial default_settings))))
    <= S (spawned (trace (initial default_settings))).
Proof.
  apply (modes_destroy_their_camera stalling_env 50 20 "recording.log" "replay_output"
           (Py.Float 1) true (initial default_settings)).
  vm_compute. discriminate.
Defined.
End CameraExtras.

(** ** Wall-clock telemetry *)

Section TelemetryExtras.
Import Sim Ops CaptureSpec ReplaySpec TelemetryExtraSpec replay_with_sensors.

(** X17.  The wall-clock extraction writes one block per iteration,
    from the vehicles present before the iteration sleeps, and stops at
    the first clock reading that is [target] seconds past the start: if
    that reading comes after [T] sleeps, exactly [T] blocks are
    written, numbered from the frame counter on, and unreadable
    vehicles leave no line. *)
Theorem async_extract_loop_block_per_iteration (env : Env) (fuel T : nat) (start : Q)
    (target : Py.Num) (s : State) :
  listener s = None ->
  (forall k, k < T ->
     Py.ltb (Py.Float (Qminus (now env (clock s + k)) start)) target = true) ->
  Py.ltb (Py.Float (Qminus (now env (clock s + T)) start)) target = false ->
  T <= fuel ->
  exists s',
    async_extract_loop env fuel start target s = (Returned tt, s') /\
    written (trace s')
      = written (trace s) ++ wallclock_telemetry env (clock s) (frame_count s) T /\
    frame_count s' = frame_count s + T /\
    clock s' = clock s + T.
Proof.
  revert fuel s. induction T as [|T IH]; intros fuel s Hl Hbefore Hat Hfuel.
  - rewrite Nat.add_0_r in Hat. exists s.
    destruct fuel; cbn [async_extract_loop]; rewrite Hat;
      cbn [wallclock_telemetry]; rewrite app_nil_r; repeat split; lia.
  - destruct fuel as [|fuel]; [lia|].
    cbn [async_extract_loop].
    pose proof (Hbefore 0 (Nat.lt_0_succ _)) as H0. rewrite Nat.add_0_r in H0.
    rewrite H0.
    unfold bind at 1. unfold get_vehicles, get.
    unfold bind at 1. rewrite write_frame_block_spec.
    set (s2 := set_frame_count _ _).
    assert (Hfc2 : frame_count s2 = S (frame_count s)) by (subst s2; simpl; lia).
    assert (Hck2 : clock s2 = clock s).
    { subst s2. cbn [clock set_frame_count].
      rewrite (proj1 (proj2 (emit_all_frame _ _))). reflexivity. }
    assert (Hl2 : listener s2 = None).
    { subst s2. cbn [listener set_frame_count].
      rewrite (proj1 (proj2 (proj2 (emit_all_frame _ _)))). exact Hl. }
    assert (Hwr2 : written (trace s2)
                   = written (trace s) ++ block (frame_count s) (vehicles env (clock s))).
    { subst s2. cbn [trace set_frame_count]. rewrite emit_all_trace.
      rewrite written_app, written_map_FileWrite. reflexivity. }
    unfold bind at 1.
    assert (Hw : exists s3,
               when (frame_count s2 mod 20 =? 0)
                    (print (RecordingProgress (frame_count s2))) s2
                 = (Returned tt, s3) /\
               written (trace s3) = written (trace s2) /\
               frame_count s3 = frame_count s2 /\ clock s3 = clock s2 /\
               listener s3 = listener s2).
    { unfold when. destruct (frame_count s2 mod 20 =? 0).
      - eexists. split; [reflexivity|]. simpl. rewrite written_app. simpl.
        rewrite app_nil_r. repeat split.
      - exists s2. repeat split. }
    destruct Hw as (s3 & Hw & Hwr & Hfc & Hck & Hl3).
    unfold bind at 1. rewrite Hw.
    unfold bind at 1. unfold sleep.
    rewrite deliver_no_listener by (cbn; congruence).
    set (s4 := emit _ _).
    assert (Hs4 : written (trace s4) = written (trace s3) /\
                  frame_count s4 = frame_count s3 /\
                  clock s4 = S (clock s3) /\ listener s4 = None).
    { subst s4. cbn. rewrite written_app. simpl. rewrite app_nil_r.
      repeat split. congruence. }
    destruct Hs4 as (Hwr4 & Hfc4 & Hck4 & Hl4).
    destruct (IH fuel s4) as (s' & Hrun & Hwr' & Hfc' & Hck').
    + exact Hl4.
    + intros k Hk. rewrite Hck4, Hck, Hck2.
      replace (S (clock s) + k) with (clock s + S k) by lia. apply Hbefore. lia.
    + rewrite Hck4, Hck, Hck2.
      replace (S (clock s) + T) with (clock s + S T) by lia. exact Hat.
    + lia.
    + exists s'. split; [exact Hrun|].
      rewrite Hwr', Hfc', Hck', Hwr4, Hfc4, Hck4, Hwr, Hfc, Hck, Hwr2, Hfc2, Hck2.
      cbn [wallclock_telemetry]. rewrite <- !app_assoc. repeat split; lia.
Qed.

Lemma async_extract_loop_block_per_iteration_witness :
  exists s',
    async_extract_loop traffic_env 10 11 (Py.Float 2)
      (set_clock 11 (initial default_settings)) = (Returned tt, s') /\
    written (trace s')
      = [FrameHeader 0;
         VehicleLine 1%Z (inject_Z 1, 0%Q) (1%Q, 0%Q);
         VehicleLine 2%Z (inject_Z 2, 0%Q) (1%Q, 0%Q);
         VehicleLine 3%Z (inject_Z 3, 0%Q) (1%Q, 0%Q);
         FrameHeader 1;
         VehicleLine 1%Z (inject_Z 1, 0%Q) (1%Q, 0%Q);
         VehicleLine 3%Z (inject_Z 3, 0%Q) (1%Q, 0%Q)] /\
    frame_count s' = 2 /\
    clock s' = 13.
Proof.
  apply (async_extract_loop_block_per_iteration traffic_env 10 2 11 (Py.Float 2)
           (set_clock 11 (initial default_settings))).
  - reflexivity.
  - intros k Hk. destruct k as [|[|k]]; [reflexivity|reflexivity|lia].
  - reflexivity.
  - lia.
Defined.
End TelemetryExtras.

(** ** Following a vehicle *)

Section FollowExtras.
Import Sim Ops CaptureSpec ReplaySpec FollowSpec replay_with_sensors.

(** X18.  In lock-step mode [follow_vehicle] attaches its camera to the
    first vehicle of the list the bootstrap wait returns: when vehicles
    are first sighted after [n] ticks, led by [v], the one camera is
    spawned attached to [v]; the ticks of the wait capture nothing, and
    once the camera has delivered on [N] of the ticks that follow, the
    frames [0 .. N-1] are written. *)
Theorem follow_vehicle_follows_first_sighted (env : Env) (wait_fuel fuel T N n : nat)
    (v : Vehicle) (vs : list Vehicle) (output_dir : string) (s : State) :
  listener s = None ->
  captured_image s = None ->
  frame_count s = 0 ->
  1 <= n <= max_wait_attempts ->
  (forall j, 1 <= j < n -> vehicles env (clock s + j) = []) ->
  vehicles env (clock s + n) = v :: vs ->
  (forall k, clock s <= k < clock s + n + T -> tick_fails env k = false) ->
  N <= deliveries env (clock s + n) T ->
  n <= wait_fuel ->
  T <= fuel ->
  exists s',
    follow_vehicle env wait_fuel fuel output_dir (Py.Int (Z.of_nat N)) true s
      = (Returned tt, s') /\
    SpawnCamera 0 (Some (id v)) ∈ trace s' /\
    camera s' = Some TheCamera /\
    map fst (saved (trace s'))
      = map fst (saved (trace s)) ++ map (frame_filename output_dir) (seq 0 N) /\
    frame_count s' = N.
Proof.
  intros Hl Hci Hfc Hn Hnone Hsome Hticks Hdel Hwf Hfuel.
  unfold follow_vehicle.
  rewrite (bind_returned (print _) _ s tt _ eq_refl).
  set (s0 := emit (Print WaitingForVehicles) s).
  destruct n as [|n]; [lia|].
  destruct (wait_for_vehicles_sighting env true (v :: vs) ltac:(discriminate)
              n wait_fuel 0 s0) as (s1 & Hw & Hck1).
  - lia.
  - intros j Hj. apply (Hnone (S j)). lia.
  - exact Hsome.
  - intros _ j Hj. apply Hticks. subst s0. cbn [clock emit]. lia.
  - exact Hwf.
  - pose proof (idle_wait_for_vehicles env true wait_fuel [] 0 s0 Hl) as Hidle.
    rewrite Hw in Hidle. cbn [snd] in Hidle. destruct Hidle as (Hl1 & Hci1 & Hfc1 & Hsv1).
    rewrite (bind_returned _ _ s0 _ s1 Hw). cbn [fst is_empty first_vehicle].
    rewrite (bind_returned (ret v) _ s1 v s1 eq_refl).
    unfold create_camera.
    rewrite (bind_returned (bind (event _) (fun _ => ret TheCamera)) _ s1 TheCamera
               (emit (SpawnCamera 0 (Some (id v))) s1) eq_refl).
    rewrite (bind_returned (modify _) _ _ tt _ eq_refl).
    rewrite (bind_returned (time_time env) _ _ _ _ eq_refl).
    rewrite (bind_returned (modify _) _ _ tt _ eq_refl).
    rewrite (bind_returned (listen OnImage) _ _ tt _ eq_refl).
    rewrite (bind_returned (print _) _ _ tt _ eq_refl).
    match goal with
    | |- context [sync_capture_loop env fuel output_dir _ ?st] => set (s2 := st)
    end.
    assert (Hck2 : clock s2 = clock s + S n) by (subst s2 s0; cbn; cbn in Hck1; lia).
    assert (Hfc2 : frame_count s2 = 0) by (subst s2 s0; cbn; cbn in Hfc1; lia).
    assert (Htr2 : trace s2 = trace s1 ++ [SpawnCamera 0 (Some (id v)); Listen OnImage;
                                           Print (FollowingFrames (id v) (Py.Int (Z.of_nat N))
                                                    output_dir)]).
    { subst s2. cbn. rewrite <- !app_assoc. reflexivity. }
    destruct (sync_capture_loop_total env output_dir N T fuel s2)
      as (s' & new & Hrun & Htr & Hnames & _ & Hfc' & _ & _ & _).
    + left. reflexivity.
    + subst s2. cbn. cbn in Hci1. rewrite Hci1. exact Hci.
    + lia.
    + intros k Hk. apply Hticks. lia.
    + rewrite Hfc2, Hck2. exact Hdel.
    + exact Hfuel.
    + exists s'. split; [exact Hrun|]. split; [|split; [|split]].
      * rewrite Htr, Htr2. apply list_elem_of_In. rewrite !in_app_iff. cbn. auto.
      * pose proof (cf_sync_capture_loop env output_dir (Py.Int (Z.of_nat N)) fuel s2)
          as (Hcam & _). rewrite Hrun in Hcam. cbn [snd] in Hcam. rewrite Hcam.
        subst s2. reflexivity.
      * rewrite Htr, saved_app, map_app, Hnames, Hfc2, Nat.sub_0_r, Htr2, saved_app.
        cbn [saved]. rewrite app_nil_r, Hsv1.
        subst s0. cbn. rewrite saved_app. simpl. rewrite app_nil_r. reflexivity.
      * exact Hfc'.
Qed.

Lemma follow_vehicle_follows_first_sighted_witness :
  exists s',
    follow_vehicle convoy_env 50 10 "out" (Py.Int (Z.of_nat 2)) true
      (initial default_settings) = (Returned tt, s') /\
    SpawnCamera 0 (Some (id (car 7))) ∈ trace s' /\
    camera s' = Some TheCamera /\
    map fst (saved (trace s'))
      = map fst (saved (trace (initial default_settings)))
        ++ map (frame_filename "out") (seq 0 2) /\
    frame_count s' = 2.
Proof.
  apply (follow_vehicle_follows_first_sighted convoy_env 50 10 2 2 3 (car 7) [car 1] "out"
           (initial default_settings)).
  - reflexivity.
  - reflexivity.
  - reflexivity.
  - unfold max_wait_attempts. lia.
  - intros j Hj. destruct j as [|[|[|j]]]; [lia|reflexivity|reflexivity|lia].
  - reflexivity.
  - intros k _. reflexivity.
  - vm_compute. lia.
  - lia.
  - lia.
Defined.
End FollowExtras.

(** ** Wall-clock capture *)

Section WallclockExtras.
Import Sim Ops CaptureSpec ReplaySpec CaptureExtraSpec WallclockSpec replay_with_sensors.

(** X19.  Wall-clock capture drops nothing: while the loop sleeps until
    its deadline, every buffer the camera delivers is written, in
    arrival order and under consecutive sequence numbers, so that the
    number of frames is the number of buffers delivered during the
    sleeps and nothing else. *)
Theorem wallclock_capture_saves_every_buffer (env : Env) (fuel T : nat) (start : Q)
    (target : Py.Num) (dir : string) (s : State) :
  saving_to dir s ->
  (forall k, k < T ->
     Py.ltb (Py.Float (Qminus (now env (clock s + k)) start)) target = true) ->
  Py.ltb (Py.Float (Qminus (now env (clock s + T)) start)) target = false ->
  T <= fuel ->
  exists s',
    async_wait_loop env fuel start target s = (Returned tt, s') /\
    saved (trace s')
      = saved (trace s)
        ++ combine (map (frame_filename dir)
                        (seq (frame_count s) (length (buffers env (clock s) T))))
                   (buffers env (clock s) T) /\
    frame_count s' = frame_count s + length (buffers env (clock s) T).
Proof.
  revert fuel s. induction T as [|T IH]; intros fuel s Hs Hbefore Hat Hfuel.
  - rewrite Nat.add_0_r in Hat. exists s.
    destruct fuel; cbn [async_wait_loop]; rewrite Hat;
      cbn; rewrite app_nil_r; repeat split; lia.
  - destruct fuel as [|fuel]; [lia|].
    cbn [async_wait_loop].
    pose proof (Hbefore 0 (Nat.lt_0_succ _)) as H0. rewrite Nat.add_0_r in H0.
    rewrite H0.
    destruct (sleep_saves env (1 # 10)%Q dir s Hs) as (s1 & Hsl & Hs1 & Hck & Hfc & Hsv).
    rewrite (bind_returned _ _ s tt s1 Hsl).
    destruct (IH fuel s1) as (s' & Hrun & Hsv' & Hfc').
    + exact Hs1.
    + intros k Hk. rewrite Hck.
      replace (S (clock s) + k) with (clock s + S k) by lia. apply Hbefore. lia.
    + rewrite Hck. replace (S (clock s) + T) with (clock s + S T) by lia. exact Hat.
    + lia.
    + exists s'. split; [exact Hrun|].
      rewrite Hsv', Hfc', Hsv, Hfc, Hck.
      unfold buffers. cbn [seq flat_map].
      rewrite length_app, seq_app, map_app, combine_append
        by (rewrite length_map, length_seq; reflexivity).
      rewrite <- app_assoc. split; [reflexivity|lia].
Qed.

Lemma wallclock_capture_saves_every_buffer_witness :
  exists s',
    async_wait_loop bursting_env 10 0 (Py.Float 2) saving = (Returned tt, s') /\
    saved (trace s')
      = [("out/frame_000000.jpg", 0); ("out/frame_000001.jpg", 1);
         ("out/frame_000002.jpg", 2); ("out/frame_000003.jpg", 3);
         ("out/frame_000004.jpg", 4); ("out/frame_000005.jpg", 5)] /\
    frame_count s' = 6.
Proof.
  apply (wallclock_capture_saves_every_buffer bursting_env 10 2 0 (Py.Float 2) "out" saving).
  - left. reflexivity.
  - intros k Hk. destruct k as [|[|k]]; [reflexivity|reflexivity|lia].
  - reflexivity.
  - lia.
Defined.
End WallclockExtras.

(** ** Recording and inspecting a log *)

Section LogTheorems.
Import log_recorder LogSpec.
Local Open Scope log_scope.

(** X20.  How [record_log] ends is decided by three things only: it
    raises [OSError] when the directory of the log cannot be made;
    otherwise it returns when the recorder does not start; otherwise it
    raises when the vehicle cannot be spawned and returns when it can.
    A failing [stop_recorder], a missing recording and a failing
    directory listing never surface. *)
Theorem record_log_outcome (w : World) (duration : Z) (log_filename : string)
    (s : State) :
  fst (record_log w duration log_filename s)
  = if negb (makedirs_ok w (fs s) (dirname w (abspath w log_filename)))
    then Raises OSError
    else if start_recorder_fails w (abspath w log_filename) then Returns tt
    else match spawned_vehicle w with
         | Some _ => Returns tt
         | None => Raises (spawn_error w)
         end.
Proof.
  destruct (makedirs_ok w (fs s) (dirname w (abspath w log_filename))) eqn:Hm; cbn [negb].
  2:{ unfold record_log. cbv zeta.
      rewrite (bind_raises _ _ _ _ _ (makedirs_raises _ _ _ Hm)). reflexivity. }
  destruct (start_recorder_fails w (abspath w log_filename)) eqn:Hs.
  { rewrite (record_log_start_raises w duration log_filename s Hm Hs). reflexivity. }
  destruct (spawned_vehicle w) as [vehicle|] eqn:Hv.
  - unfold spawned_vehicle in Hv.
    destruct (blueprints w "vehicle.tesla.model3") as [|bp bps] eqn:Hbp; [discriminate|].
    destruct (spawn_points w) as [|sp sps] eqn:Hsp; [discriminate|].
    rewrite (record_log_recorded w duration log_filename s bp bps sp sps vehicle
               Hm Hs Hbp Hsp Hv).
    destruct (report_recording_returns w (abspath w log_filename)
                (mkState (recorded w (abspath w log_filename)
                            (with_dir (dirname w (abspath w log_filename)) (fs s)))
                         (if stop_recorder_fails w
                          then Some (abspath w log_filename) else None)
                         (out s ++ prologue w duration (abspath w log_filename) (fs s)
                          ++ [StartRecorder (abspath w log_filename); Print RecorderStarted;
                              SpawnActor bp sp; SetAutopilot vehicle true;
                              Print (VehicleSpawned vehicle); Print (RecordingFor duration)]
                          ++ flat_map (fun i => [Sleep 1;
                                                 Print (RecordingProgress (i + 1) duration)])
                                      (range duration)
                          ++ [Print StoppingRecorder; StopRecorder;
                              Print (if stop_recorder_fails w
                                     then ErrorStoppingRecorder else RecorderStopped)])))
      as (msgs & -> & _).
    reflexivity.
  - destruct (record_log_spawn_raises w duration log_filename s Hm Hs Hv) as (evs & -> & _).
    reflexivity.
Qed.

(** X21.  When the recorder does not start, [record_log] reports it
    and returns at once: no vehicle is spawned, nothing is slept, no
    stop is requested, and the recorder is as it was. *)
Theorem record_log_start_failure (w : World) (duration : Z) (log_filename : string)
    (s : State) :
  makedirs_ok w (fs s) (dirname w (abspath w log_filename)) = true ->
  start_recorder_fails w (abspath w log_filename) = true ->
  exists s',
    record_log w duration log_filename s = (Returns tt, s') /\
    recording s' = recording s /\
    count is_spawn (out s') = count is_spawn (out s) /\
    count is_stop (out s') = count is_stop (out s) /\
    slept (out s') = slept (out s) /\
    last (out s') = Some (Print ErrorStartingRecorder).
Proof.
  intros Hm Hs. rewrite (record_log_start_raises w duration log_filename s Hm Hs).
  eexists. split; [reflexivity|]. cbn [recording out].
  split; [reflexivity|].
  assert (Hlast : forall evs : list Event,
            last (evs ++ [StartRecorder (abspath w log_filename);
                          Print ErrorStartingRecorder])
            = Some (Print ErrorStartingRecorder)).
  { intros evs.
    change [StartRecorder (abspath w log_filename); Print ErrorStartingRecorder]
      with ([StartRecorder (abspath w log_filename)] ++ [Print ErrorStartingRecorder]).
    rewrite app_assoc. apply last_snoc. }
  rewrite (app_assoc (out s)), Hlast.
  unfold prologue.
  destruct (ffmpeg_video.path_exists _ _); cbn [map app];
    rewrite !count_app, !slept_app; unfold count; cbn; repeat split; lia.
Qed.

Lemma record_log_start_failure_witness :
  exists s',
    record_log (with_start_recorder_fails (fun _ => true) working_world) 10 "recording.log"
      (initial work_dir) = (Returns tt, s') /\
    recording s' = None /\
    count is_spawn (out s') = 0 /\
    count is_stop (out s') = 0 /\
    slept (out s') = 0%Z /\
    last (out s') = Some (Print ErrorStartingRecorder).
Proof.
  apply (record_log_start_failure (with_start_recorder_fails (fun _ => true) working_world)
           10 "recording.log" (initial work_dir)).
  - vm_compute. reflexivity.
  - reflexivity.
Defined.

(** X22.  When the recorder has started and the vehicle cannot be
    spawned (no such blueprint, no spawn point, or a spawn the server
    refuses), the exception leaves [record_log] with the recorder still
    running: no stop is requested and nothing was slept. *)
Theorem record_log_leaves_recorder_running (w : World) (duration : Z)
    (log_filename : string) (s : State) :
  makedirs_ok w (fs s) (dirname w (abspath w log_filename)) = true ->
  start_recorder_fails w (abspath w log_filename) = false ->
  spawned_vehicle w = None ->
  exists s',
    record_log w duration log_filename s = (Raises (spawn_error w), s') /\
    recording s' = Some (abspath w log_filename) /\
    count is_start (out s') = S (count is_start (out s)) /\
    count is_stop (out s') = count is_stop (out s) /\
    slept (out s') = slept (out s).
Proof.
  intros Hm Hs Hv.
  destruct (record_log_spawn_raises w duration log_filename s Hm Hs Hv)
    as (evs & -> & Hevs).
  eexists. split; [reflexivity|]. cbn [recording out].
  unfold prologue.
  destruct Hevs as [->|(bp & sp & ->)];
    destruct (ffmpeg_video.path_exists _ _); cbn [map app];
    rewrite !count_app, !slept_app; unfold count; cbn; repeat split; lia.
Qed.

Lemma record_log_leaves_recorder_running_witness :
  exists s',
    record_log empty_map_world 10 "recording.log" (initial work_dir)
      = (Raises IndexError, s') /\
    recording s' = Some "/work/recording.log" /\
    count is_start (out s') = 1 /\
    count is_stop (out s') = 0 /\
    slept (out s') = 0%Z.
Proof.
  apply (record_log_leaves_recorder_running empty_map_world 10 "recording.log"
           (initial work_dir)).
  - vm_compute. reflexivity.
  - reflexivity.
  - reflexivity.
Defined.

(** X23.  When the recorder starts and the vehicle is spawned,
    [record_log] returns having slept [max(duration, 0)] seconds in
    all, between one start and one stop request; one vehicle was
    spawned and put under autopilot; the recorder is off afterwards
    unless the stop request raised.  In this order: the start request,
    the spawn and the autopilot, then one sleep of one second per
    recorded second, each followed by its progress line, then the stop
    request; before the start and after the stop nothing is slept and
    nothing is requested of the recorder. *)
Theorem record_log_records_for_duration (w : World) (duration : Z)
    (log_filename : string) (s : State) (vehicle : Z) :
  makedirs_ok w (fs s) (dirname w (abspath w log_filename)) = true ->
  start_recorder_fails w (abspath w log_filename) = false ->
  spawned_vehicle w = Some vehicle ->
  exists s' before after blueprint spawn_point,
    record_log w duration log_filename s = (Returns tt, s') /\
    out s' = out s ++ before
             ++ [StartRecorder (abspath w log_filename); Print RecorderStarted;
                 SpawnActor blueprint spawn_point; SetAutopilot vehicle true;
                 Print (VehicleSpawned vehicle); Print (RecordingFor duration)]
             ++ flat_map (fun i => [Sleep 1; Print (RecordingProgress (i + 1) duration)])
                         (range duration)
             ++ [Print StoppingRecorder; StopRecorder] ++ after /\
    quiet before /\
    quiet after /\
    slept (out s') = (slept (out s) + Z.max 0 duration)%Z /\
    count is_start (out s') = S (count is_start (out s)) /\
    count is_spawn (out s') = S (count is_spawn (out s)) /\
    count is_stop (out s') = S (count is_stop (out s)) /\
    SetAutopilot vehicle true ∈ out s' /\
    recording s' = if stop_recorder_fails w then Some (abspath w log_filename) else None.
Proof.
  intros Hm Hs Hv. unfold spawned_vehicle in Hv.
  destruct (blueprints w "vehicle.tesla.model3") as [|bp bps] eqn:Hbp; [discriminate|].
  destruct (spawn_points w) as [|sp sps] eqn:Hsp; [discriminate|].
  rewrite (record_log_recorded w duration log_filename s bp bps sp sps vehicle
             Hm Hs Hbp Hsp Hv).
  match goal with
  | |- context [report_recording w ?p ?st] =>
      destruct (report_recording_returns w p st) as (msgs & -> & _)
  end.
  exists (mkState (recorded w (abspath w log_filename)
                     (with_dir (dirname w (abspath w log_filename)) (fs s)))
                  (if stop_recorder_fails w then Some (abspath w log_filename) else None)
                  ((out s ++ prologue w duration (abspath w log_filename) (fs s)
                    ++ [StartRecorder (abspath w log_filename); Print RecorderStarted;
                        SpawnActor bp sp; SetAutopilot vehicle true;
                        Print (VehicleSpawned vehicle); Print (RecordingFor duration)]
                    ++ flat_map (fun i => [Sleep 1;
                                           Print (RecordingProgress (i + 1) duration)])
                                (range duration)
                    ++ [Print StoppingRecorder; StopRecorder;
                        Print (if stop_recorder_fails w
                               then ErrorStoppingRecorder else RecorderStopped)])
                   ++ map Print msgs)),
         (prologue w duration (abspath w log_filename) (fs s)),
         (Print (if stop_recorder_fails w then ErrorStoppingRecorder else RecorderStopped)
          :: map Print msgs),
         bp, sp.
  split; [reflexivity|]. cbn [recording out].
  assert (Hq : forall p, (forall z, p (Sleep z) = false) ->
                         (forall m, p (Print m) = false) ->
                         count p (prologue w duration (abspath w log_filename) (fs s))
                         = if p (MakeDirs (dirname w (abspath w log_filename)))
                           then 1 else 0).
  { intros p _ Hp. unfold prologue, count. cbn [List.filter].
    pose proof (count_map_Print p) as Hc. unfold count in Hc.
    destruct (p (MakeDirs _)); cbn [length]; rewrite Hc; auto. }
  assert (Hsl : slept (prologue w duration (abspath w log_filename) (fs s)) = 0%Z).
  { unfold prologue. destruct (ffmpeg_video.path_exists _ _); reflexivity. }
  assert (Hmsgs : slept (map Print msgs) = 0%Z).
  { clear. induction msgs as [|m msgs IH]; [reflexivity|exact IH]. }
  split; [|split; [|split]].
  - rewrite <- !app_assoc. reflexivity.
  - unfold quiet. rewrite Hsl, !Hq by reflexivity. auto.
  - unfold quiet. cbn [slept]. rewrite Hmsgs.
    change (Print (if stop_recorder_fails w then ErrorStoppingRecorder else RecorderStopped)
            :: map Print msgs)
      with (map Print ((if stop_recorder_fails w
                        then ErrorStoppingRecorder else RecorderStopped) :: msgs)).
    rewrite !count_map_Print by reflexivity. auto.
  - repeat split.
    + rewrite !slept_app, Hsl, loop_slept, range_length, Hmsgs. cbn. lia.
    + rewrite !count_app, Hq, loop_count, count_map_Print by reflexivity. cbn. lia.
    + rewrite !count_app, Hq, loop_count, count_map_Print by reflexivity. cbn. lia.
    + rewrite !count_app, Hq, loop_count, count_map_Print by reflexivity. cbn. lia.
    + apply list_elem_of_In. rewrite !in_app_iff. left. right. right. left.
      cbn. auto.
Qed.

Lemma record_log_records_for_duration_witness :
  exists s' before after blueprint spawn_point,
    record_log (with_stop_recorder_fails true working_world) 3 "recording.log"
      (initial work_dir) = (Returns tt, s') /\
    out s' = out (initial work_dir) ++ before
             ++ [StartRecorder "/work/recording.log"; Print RecorderStarted;
                 SpawnActor blueprint spawn_point; SetAutopilot 24 true;
                 Print (VehicleSpawned 24); Print (RecordingFor 3)]
             ++ [Sleep 1; Print (RecordingProgress 1 3);
                 Sleep 1; Print (RecordingProgress 2 3);
                 Sleep 1; Print (RecordingProgress 3 3)]
             ++ [Print StoppingRecorder; StopRecorder] ++ after /\
    quiet before /\
    quiet after /\
    slept (out s') = (slept (out (initial work_dir)) + Z.max 0 3)%Z /\
    count is_start (out s') = S (count is_start (out (initial work_dir))) /\
    count is_spawn (out s') = S (count is_spawn (out (initial work_dir))) /\
    count is_stop (out s') = S (count is_stop (out (initial work_dir))) /\
    SetAutopilot 24 true ∈ out s' /\
    recording s' = Some "/work/recording.log".
Proof.
  apply (record_log_records_for_duration (with_stop_recorder_fails true working_world)
           3 "recording.log" (initial work_dir) 24%Z).
  - vm_compute. reflexivity.
  - reflexivity.
  - reflexivity.
Defined.

(** X24.  The final report of [record_log] goes by what is at the path
    once the recording is over, not by who wrote it: a file the
    recorder wrote is reported as saved with its size, and so is a
    file of an earlier run that the recorder did not touch (after the
    warning that it would be overwritten); only when nothing is there
    is the recording reported as not created, followed by the listing
    of the directory.  An empty file gets the extra warning. *)
Theorem record_log_reports_what_is_on_disk (w : World) (duration : Z)
    (log_filename : string) (s : State) (vehicle : Z) :
  makedirs_ok w (fs s) (dirname w (abspath w log_filename)) = true ->
  start_recorder_fails w (abspath w log_filename) = false ->
  spawned_vehicle w = Some vehicle ->
  exists s',
    record_log w duration log_filename s = (Returns tt, s') /\
    (forall n,
       recorder_file w (abspath w log_filename) = Some n ->
       [RecordingSaved (abspath w log_filename); FileSize n]
         ++ (if (n =? 0)%Z then [FileIsEmpty] else [])
       `suffix_of` printed (out s')) /\
    (forall n,
       recorder_file w (abspath w log_filename) = None ->
       fs s !! abspath w log_filename = Some (ffmpeg_video.File n) ->
       WillBeOverwritten (abspath w log_filename) ∈ printed (out s') /\
       [RecordingSaved (abspath w log_filename); FileSize n]
         ++ (if (n =? 0)%Z then [FileIsEmpty] else [])
       `suffix_of` printed (out s')) /\
    (recorder_file w (abspath w log_filename) = None ->
     fs s !! abspath w log_filename = None ->
     dirname w (abspath w log_filename) <> abspath w log_filename ->
     exists listing,
       RecordingNotCreated (abspath w log_filename)
         :: DirectoryContents (dirname w (abspath w log_filename)) :: listing
       `suffix_of` printed (out s')).
Proof.
  intros Hm Hs Hv. unfold spawned_vehicle in Hv.
  destruct (blueprints w "vehicle.tesla.model3") as [|bp bps] eqn:Hbp; [discriminate|].
  destruct (spawn_points w) as [|sp sps] eqn:Hsp; [discriminate|].
  rewrite (record_log_recorded w duration log_filename s bp bps sp sps vehicle
             Hm Hs Hbp Hsp Hv).
  set (p := abspath w log_filename). set (d := dirname w p).
  match goal with
  | |- context [report_recording w p ?st] =>
      destruct (report_recording_returns w p st) as (msgs & -> & Hmsgs)
  end.
  cbn [fs] in Hmsgs.
  eexists. split; [reflexivity|]. cbn [out].
  assert (Hsuf : msgs `suffix_of`
            printed ((out s ++ prologue w duration p (fs s)
                      ++ [StartRecorder p; Print RecorderStarted; SpawnActor bp sp;
                          SetAutopilot vehicle true; Print (VehicleSpawned vehicle);
                          Print (RecordingFor duration)]
                      ++ flat_map (fun i => [Sleep 1;
                                             Print (RecordingProgress (i + 1) duration)])
                                  (range duration)
                      ++ [Print StoppingRecorder; StopRecorder;
                          Print (if stop_recorder_fails w
                                 then ErrorStoppingRecorder else RecorderStopped)])
                     ++ map Print msgs)).
  { rewrite printed_app, printed_map_Print. eexists. reflexivity. }
  split; [|split].
  - intros n Hn. unfold recorded in Hmsgs. rewrite Hn, lookup_insert_eq in Hmsgs.
    destruct Hmsgs as (size & -> & ->). exact Hsuf.
  - intros n Hn Hold. unfold recorded in Hmsgs.
    rewrite Hn, (with_dir_keeps d (fs s) p _ Hold) in Hmsgs.
    destruct Hmsgs as (size & -> & ->). split; [|exact Hsuf].
    rewrite !printed_app. apply elem_of_app. left. apply elem_of_app. right.
    apply elem_of_app. left. unfold prologue. fold d.
    unfold ffmpeg_video.path_exists. rewrite (with_dir_keeps d (fs s) p _ Hold).
    cbn. apply list_elem_of_In. cbn. auto 10.
  - intros Hn Hnone Hd. unfold recorded in Hmsgs. rewrite Hn in Hmsgs.
    assert (Hp : with_dir d (fs s) !! p = None).
    { unfold with_dir. destruct (fs s !! d); [exact Hnone|].
      rewrite lookup_insert_ne; [exact Hnone|exact Hd]. }
    rewrite Hp in Hmsgs. destruct Hmsgs as (listing & ->).
    exists listing. exact Hsuf.
Qed.

Lemma record_log_reports_what_is_on_disk_witness :
  exists s',
    record_log container_world 10 "recording.log" (initial work_dir) = (Returns tt, s') /\
    WillBeOverwritten "/work/recording.log" ∈ printed (out s') /\
    [RecordingSaved "/work/recording.log"; FileSize 512] `suffix_of` printed (out s').
Proof.
  destruct (record_log_reports_what_is_on_disk container_world 10 "recording.log"
              (initial work_dir) 24%Z) as (s' & Hrun & _ & Hstale & _).
  - vm_compute. reflexivity.
  - reflexivity.
  - reflexivity.
  - exists s'. split; [exact Hrun|].
    apply (Hstale 512%Z); [reflexivity|vm_compute; reflexivity].
Defined.

(** X25.  [get_log_info] returns normally in every case and changes
    nothing.  It asks the server exactly when the file exists on the
    filesystem of the script; an exception of the server is caught, and
    the last line printed tells the three cases apart. *)
Theorem get_log_info_never_raises (w : World) (log_filename : string) (s : State) :
  exists s',
    get_log_info w log_filename s = (Returns tt, s') /\
    fs s' = fs s /\
    recording s' = recording s /\
    count is_query (out s')
      = count is_query (out s)
        + (if ffmpeg_video.path_exists (fs s) (abspath w log_filename) then 1 else 0) /\
    last (out s')
      = Some (Print
                (if ffmpeg_video.path_exists (fs s) (abspath w log_filename)
                 then match show_recorder_file_info w (abspath w log_filename) with
                      | Some info => Info info
                      | None => ServerCannotAccessHint
                      end
                 else LogFileNotOnFilesystem (abspath w log_filename))).
Proof.
  unfold get_log_info. cbv zeta. set (p := abspath w log_filename).
  cbv [bind print event modify exists_ get getsize try_except recorder_file_info
       ffmpeg_video.path_exists ret raise].
  change (fs (emit (Print (CheckingLogFile p)) s)) with (fs s).
  destruct (fs s !! p) as [[size|names]|] eqn:E; cbn [negb]; cbv beta;
    change (fs (emit (Print (CheckingLogFile p)) s)) with (fs s); rewrite ?E;
    try destruct (show_recorder_file_info w p) as [info|];
    eexists; (split; [reflexivity|]); unfold emit; cbn [fs recording out];
    (split; [reflexivity|]); (split; [reflexivity|]);
    rewrite !count_app; unfold count; cbn; (split; [lia|]);
    apply last_snoc.
Qed.

End LogTheorems.
